(** * Scene-boundary extraction (extract-scene-boundaries.py)

    A shallow embedding of the alignment core of
    [skills/education/document-to-narration/scripts/extract-scene-boundaries.py]
    and the properties its specification states about it.

    Modelling conventions.
    - Text.  A Python [str] is a Rocq [string] in the program model.  The
      alphabet of that model is ASCII (code points 0..127): on it
      [str.lower], [\w], [str.split], [str.isdigit] and [str.title] are as in
      Python.  The remaining values of Rocq's 8-bit [ascii] stand for no
      Python character.  [normalize_word] is also given on all of Unicode
      ([Unicode.normalize_word], strings as lists of code points), with the
      tables of CPython 3.11 (Unicode 14.0); on ASCII strings the two agree.
    - Numbers.  Timestamps are Python [float]s: IEEE 754 binary64, Rocq's
      primitive [float].  [+], [-] and [>=] are the IEEE operations, and
      [round(x, 2)] is [PyFloat.round2].  The [int] constants [0] and [1] of
      the source stand for [0.0] and [1.0], which they equal in every
      operation the source applies to them.
    - Exceptions.  A Python call either returns or raises: [outcome].
    - Output.  [print] to stdout/stderr appends to a log that the [Py] monad
      threads through the statements of [extract_boundaries] and [main]. *)

From Stdlib Require Import Bool Arith List Lia ZArith NArith Floats.
From Stdlib Require Import Ascii String DecimalString.
Import ListNotations.

Set Warnings "-inexact-float".

(** ** Python strings *)

Module PyStr.

Open Scope string_scope.

Definition code (c : ascii) : nat := nat_of_ascii c.

Definition between (lo hi : nat) (c : ascii) : bool :=
  (lo <=? code c)%nat && (code c <=? hi)%nat.

Definition is_upper (c : ascii) : bool := between 65 90 c.
Definition is_lower (c : ascii) : bool := between 97 122 c.
Definition is_digit (c : ascii) : bool := between 48 57 c.
Definition is_alpha (c : ascii) : bool := is_upper c || is_lower c.

(** [\w]: letters, digits and the underscore. *)
Definition is_word_char (c : ascii) : bool :=
  is_alpha c || is_digit c || (code c =? 95)%nat.

(** White space of [str.split()] and [str.strip()]: TAB..CR, FS..US, SPACE. *)
Definition is_space (c : ascii) : bool :=
  between 9 13 c || between 28 32 c.

Definition lower_char (c : ascii) : ascii :=
  if is_upper c then ascii_of_nat (code c + 32) else c.

Definition upper_char (c : ascii) : ascii :=
  if is_lower c then ascii_of_nat (code c - 32) else c.

Fixpoint smap (f : ascii -> ascii) (s : string) : string :=
  match s with
  | EmptyString => EmptyString
  | String c s' => String (f c) (smap f s')
  end.

Fixpoint sfilter (p : ascii -> bool) (s : string) : string :=
  match s with
  | EmptyString => EmptyString
  | String c s' => if p c then String c (sfilter p s') else sfilter p s'
  end.

Fixpoint sforall (p : ascii -> bool) (s : string) : bool :=
  match s with
  | EmptyString => true
  | String c s' => p c && sforall p s'
  end.

(** [s.lower()] *)
Definition lower (s : string) : string := smap lower_char s.

(** [s[:n]] *)
Fixpoint take (n : nat) (s : string) : string :=
  match n, s with
  | S n', String c s' => String c (take n' s')
  | _, _ => EmptyString
  end.

(** [s.startswith(p)] *)
Fixpoint startswith (s p : string) {struct p} : bool :=
  match p, s with
  | EmptyString, _ => true
  | String a p', String b s' => Ascii.eqb a b && startswith s' p'
  | String _ _, EmptyString => false
  end.

(** [s.split()]: the maximal runs of non-space characters, in order.
    [cur] is the run being read. *)
Fixpoint split_ws (cur : string) (s : string) : list string :=
  match s with
  | EmptyString => match cur with EmptyString => [] | _ => [cur] end
  | String c s' =>
      if is_space c
      then match cur with
           | EmptyString => split_ws EmptyString s'
           | _ => cur :: split_ws EmptyString s'
           end
      else split_ws (cur ++ String c EmptyString) s'
  end.

Definition split (s : string) : list string := split_ws EmptyString s.

(** [s.split(sep)] for a one-character separator: empty pieces are kept and
    the result is never empty. *)
Fixpoint split_on (sep : ascii) (cur : string) (s : string) : list string :=
  match s with
  | EmptyString => [cur]
  | String c s' =>
      if Ascii.eqb c sep
      then cur :: split_on sep EmptyString s'
      else split_on sep (cur ++ String c EmptyString) s'
  end.

(** [sep.join(parts)] *)
Fixpoint join (sep : string) (parts : list string) : string :=
  match parts with
  | [] => EmptyString
  | [p] => p
  | p :: rest => p ++ sep ++ join sep rest
  end.

(** [s.isdigit()]: non-empty and all digits. *)
Definition isdigit (s : string) : bool :=
  match s with
  | EmptyString => false
  | _ => sforall is_digit s
  end.

(** [s.title()]: a letter that follows a letter is lowercased, any other
    letter is uppercased. *)
Fixpoint title_from (previous_is_cased : bool) (s : string) : string :=
  match s with
  | EmptyString => EmptyString
  | String c s' =>
      String (if previous_is_cased then lower_char c else upper_char c)
             (title_from (is_alpha c) s')
  end.

Definition title (s : string) : string := title_from false s.

(** [str(n)] for a non-negative [int]. *)
Definition digit_char (d : nat) : ascii := ascii_of_nat (48 + d).

Fixpoint str_nat_fuel (fuel n : nat) (acc : string) : string :=
  match fuel with
  | O => acc
  | S fuel' =>
      let acc' := String (digit_char (n mod 10)) acc in
      if (n <? 10)%nat then acc' else str_nat_fuel fuel' (n / 10) acc'
  end.

Definition str_nat (n : nat) : string := str_nat_fuel (S n) n EmptyString.

Fixpoint repeat_char (c : ascii) (n : nat) : string :=
  match n with
  | O => EmptyString
  | S n' => String c (repeat_char c n')
  end.

(** [s.zfill(width)] for an unsigned [s]. *)
Definition zfill (width : nat) (s : string) : string :=
  repeat_char "0"%char (width - String.length s) ++ s.

(** [s.lstrip()], [s.rstrip()] and [s.strip()] *)
Fixpoint lstrip (s : string) : string :=
  match s with
  | EmptyString => EmptyString
  | String c s' => if is_space c then lstrip s' else s
  end.

Fixpoint rstrip (s : string) : string :=
  match s with
  | EmptyString => EmptyString
  | String c s' =>
      match rstrip s' with
      | EmptyString => if is_space c then EmptyString else String c EmptyString
      | r => String c r
      end
  end.

Definition strip (s : string) : string := rstrip (lstrip s).

End PyStr.

(** ** Python strings over Unicode

    The tables are those of Unicode 14.0, the version of CPython 3.11. *)

Module Unicode.

Local Open Scope N_scope.

(** The characters with a lowercase mapping of one character.  An entry
    [(first, last, step, image)] stands for the characters [first],
    [first + step], ... up to [last]; [first] is mapped to [image] and
    [first + k] to [image + k]. *)
Definition lower_table : list (N * N * N * N) :=
  [ (0x41, 0x5A, 1, 0x61); (0xC0, 0xD6, 1, 0xE0); (0xD8, 0xDE, 1, 0xF8);
    (0x100, 0x12E, 2, 0x101); (0x132, 0x136, 2, 0x133);
    (0x139, 0x147, 2, 0x13A); (0x14A, 0x176, 2, 0x14B);
    (0x178, 0x178, 1, 0xFF); (0x179, 0x17D, 2, 0x17A);
    (0x181, 0x181, 1, 0x253); (0x182, 0x184, 2, 0x183);
    (0x186, 0x186, 1, 0x254); (0x187, 0x187, 1, 0x188);
    (0x189, 0x18A, 1, 0x256); (0x18B, 0x18B, 1, 0x18C);
    (0x18E, 0x18E, 1, 0x1DD); (0x18F, 0x18F, 1, 0x259);
    (0x190, 0x190, 1, 0x25B); (0x191, 0x191, 1, 0x192);
    (0x193, 0x193, 1, 0x260); (0x194, 0x194, 1, 0x263);
    (0x196, 0x196, 1, 0x269); (0x197, 0x197, 1, 0x268);
    (0x198, 0x198, 1, 0x199); (0x19C, 0x19C, 1, 0x26F);
    (0x19D, 0x19D, 1, 0x272); (0x19F, 0x19F, 1, 0x275);
    (0x1A0, 0x1A4, 2, 0x1A1); (0x1A6, 0x1A6, 1, 0x280);
    (0x1A7, 0x1A7, 1, 0x1A8); (0x1A9, 0x1A9, 1, 0x283);
    (0x1AC, 0x1AC, 1, 0x1AD); (0x1AE, 0x1AE, 1, 0x288);
    (0x1AF, 0x1AF, 1, 0x1B0); (0x1B1, 0x1B2, 1, 0x28A);
    (0x1B3, 0x1B5, 2, 0x1B4); (0x1B7, 0x1B7, 1, 0x292);
    (0x1B8, 0x1B8, 1, 0x1B9); (0x1BC, 0x1BC, 1, 0x1BD);
    (0x1C4, 0x1C4, 1, 0x1C6); (0x1C5, 0x1C5, 1, 0x1C6);
    (0x1C7, 0x1C7, 1, 0x1C9); (0x1C8, 0x1C8, 1, 0x1C9);
    (0x1CA, 0x1CA, 1, 0x1CC); (0x1CB, 0x1DB, 2, 0x1CC);
    (0x1DE, 0x1EE, 2, 0x1DF); (0x1F1, 0x1F1, 1, 0x1F3);
    (0x1F2, 0x1F4, 2, 0x1F3); (0x1F6, 0x1F6, 1, 0x195);
    (0x1F7, 0x1F7, 1, 0x1BF); (0x1F8, 0x21E, 2, 0x1F9);
    (0x220, 0x220, 1, 0x19E); (0x222, 0x232, 2, 0x223);
    (0x23A, 0x23A, 1, 0x2C65); (0x23B, 0x23B, 1, 0x23C);
    (0x23D, 0x23D, 1, 0x19A); (0x23E, 0x23E, 1, 0x2C66);
    (0x241, 0x241, 1, 0x242); (0x243, 0x243, 1, 0x180);
    (0x244, 0x244, 1, 0x289); (0x245, 0x245, 1, 0x28C);
    (0x246, 0x24E, 2, 0x247); (0x370, 0x372, 2, 0x371);
    (0x376, 0x376, 1, 0x377); (0x37F, 0x37F, 1, 0x3F3);
    (0x386, 0x386, 1, 0x3AC); (0x388, 0x38A, 1, 0x3AD);
    (0x38C, 0x38C, 1, 0x3CC); (0x38E, 0x38F, 1, 0x3CD);
    (0x391, 0x3A1, 1, 0x3B1); (0x3A3, 0x3AB, 1, 0x3C3);
    (0x3CF, 0x3CF, 1, 0x3D7); (0x3D8, 0x3EE, 2, 0x3D9);
    (0x3F4, 0x3F4, 1, 0x3B8); (0x3F7, 0x3F7, 1, 0x3F8);
    (0x3F9, 0x3F9, 1, 0x3F2); (0x3FA, 0x3FA, 1, 0x3FB);
    (0x3FD, 0x3FF, 1, 0x37B); (0x400, 0x40F, 1, 0x450);
    (0x410, 0x42F, 1, 0x430); (0x460, 0x480, 2, 0x461);
    (0x48A, 0x4BE, 2, 0x48B); (0x4C0, 0x4C0, 1, 0x4CF);
    (0x4C1, 0x4CD, 2, 0x4C2); (0x4D0, 0x52E, 2, 0x4D1);
    (0x531, 0x556, 1, 0x561); (0x10A0, 0x10C5, 1, 0x2D00);
    (0x10C7, 0x10C7, 1, 0x2D27); (0x10CD, 0x10CD, 1, 0x2D2D);
    (0x13A0, 0x13EF, 1, 0xAB70); (0x13F0, 0x13F5, 1, 0x13F8);
    (0x1C90, 0x1CBA, 1, 0x10D0); (0x1CBD, 0x1CBF, 1, 0x10FD);
    (0x1E00, 0x1E94, 2, 0x1E01); (0x1E9E, 0x1E9E, 1, 0xDF);
    (0x1EA0, 0x1EFE, 2, 0x1EA1); (0x1F08, 0x1F0F, 1, 0x1F00);
    (0x1F18, 0x1F1D, 1, 0x1F10); (0x1F28, 0x1F2F, 1, 0x1F20);
    (0x1F38, 0x1F3F, 1, 0x1F30); (0x1F48, 0x1F4D, 1, 0x1F40);
    (0x1F59, 0x1F5F, 2, 0x1F51); (0x1F68, 0x1F6F, 1, 0x1F60);
    (0x1F88, 0x1F8F, 1, 0x1F80); (0x1F98, 0x1F9F, 1, 0x1F90);
    (0x1FA8, 0x1FAF, 1, 0x1FA0); (0x1FB8, 0x1FB9, 1, 0x1FB0);
    (0x1FBA, 0x1FBB, 1, 0x1F70); (0x1FBC, 0x1FBC, 1, 0x1FB3);
    (0x1FC8, 0x1FCB, 1, 0x1F72); (0x1FCC, 0x1FCC, 1, 0x1FC3);
    (0x1FD8, 0x1FD9, 1, 0x1FD0); (0x1FDA, 0x1FDB, 1, 0x1F76);
    (0x1FE8, 0x1FE9, 1, 0x1FE0); (0x1FEA, 0x1FEB, 1, 0x1F7A);
    (0x1FEC, 0x1FEC, 1, 0x1FE5); (0x1FF8, 0x1FF9, 1, 0x1F78);
    (0x1FFA, 0x1FFB, 1, 0x1F7C); (0x1FFC, 0x1FFC, 1, 0x1FF3);
    (0x2126, 0x2126, 1, 0x3C9); (0x212A, 0x212A, 1, 0x6B);
    (0x212B, 0x212B, 1, 0xE5); (0x2132, 0x2132, 1, 0x214E);
    (0x2160, 0x216F, 1, 0x2170); (0x2183, 0x2183, 1, 0x2184);
    (0x24B6, 0x24CF, 1, 0x24D0); (0x2C00, 0x2C2F, 1, 0x2C30);
    (0x2C60, 0x2C60, 1, 0x2C61); (0x2C62, 0x2C62, 1, 0x26B);
    (0x2C63, 0x2C63, 1, 0x1D7D); (0x2C64, 0x2C64, 1, 0x27D);
    (0x2C67, 0x2C6B, 2, 0x2C68); (0x2C6D, 0x2C6D, 1, 0x251);
    (0x2C6E, 0x2C6E, 1, 0x271); (0x2C6F, 0x2C6F, 1, 0x250);
    (0x2C70, 0x2C70, 1, 0x252); (0x2C72, 0x2C72, 1, 0x2C73);
    (0x2C75, 0x2C75, 1, 0x2C76); (0x2C7E, 0x2C7F, 1, 0x23F);
    (0x2C80, 0x2CE2, 2, 0x2C81); (0x2CEB, 0x2CED, 2, 0x2CEC);
    (0x2CF2, 0x2CF2, 1, 0x2CF3); (0xA640, 0xA66C, 2, 0xA641);
    (0xA680, 0xA69A, 2, 0xA681); (0xA722, 0xA72E, 2, 0xA723);
    (0xA732, 0xA76E, 2, 0xA733); (0xA779, 0xA77B, 2, 0xA77A);
    (0xA77D, 0xA77D, 1, 0x1D79); (0xA77E, 0xA786, 2, 0xA77F);
    (0xA78B, 0xA78B, 1, 0xA78C); (0xA78D, 0xA78D, 1, 0x265);
    (0xA790, 0xA792, 2, 0xA791); (0xA796, 0xA7A8, 2, 0xA797);
    (0xA7AA, 0xA7AA, 1, 0x266); (0xA7AB, 0xA7AB, 1, 0x25C);
    (0xA7AC, 0xA7AC, 1, 0x261); (0xA7AD, 0xA7AD, 1, 0x26C);
    (0xA7AE, 0xA7AE, 1, 0x26A); (0xA7B0, 0xA7B0, 1, 0x29E);
    (0xA7B1, 0xA7B1, 1, 0x287); (0xA7B2, 0xA7B2, 1, 0x29D);
    (0xA7B3, 0xA7B3, 1, 0xAB53); (0xA7B4, 0xA7C2, 2, 0xA7B5);
    (0xA7C4, 0xA7C4, 1, 0xA794); (0xA7C5, 0xA7C5, 1, 0x282);
    (0xA7C6, 0xA7C6, 1, 0x1D8E); (0xA7C7, 0xA7C9, 2, 0xA7C8);
    (0xA7D0, 0xA7D0, 1, 0xA7D1); (0xA7D6, 0xA7D8, 2, 0xA7D7);
    (0xA7F5, 0xA7F5, 1, 0xA7F6); (0xFF21, 0xFF3A, 1, 0xFF41);
    (0x10400, 0x10427, 1, 0x10428); (0x104B0, 0x104D3, 1, 0x104D8);
    (0x10570, 0x1057A, 1, 0x10597); (0x1057C, 0x1058A, 1, 0x105A3);
    (0x1058C, 0x10592, 1, 0x105B3); (0x10594, 0x10595, 1, 0x105BB);
    (0x10C80, 0x10CB2, 1, 0x10CC0); (0x118A0, 0x118BF, 1, 0x118C0);
    (0x16E40, 0x16E5F, 1, 0x16E60); (0x1E900, 0x1E921, 1, 0x1E922) ].

(** The characters that [\w] matches in a [str] pattern: those of
    [str.isalnum] and the underscore. *)
Definition word_ranges : list (N * N) :=
  [ (0x30, 0x39); (0x41, 0x5A); (0x5F, 0x5F); (0x61, 0x7A); (0xAA, 0xAA);
    (0xB2, 0xB3); (0xB5, 0xB5); (0xB9, 0xBA); (0xBC, 0xBE); (0xC0, 0xD6);
    (0xD8, 0xF6); (0xF8, 0x2C1); (0x2C6, 0x2D1); (0x2E0, 0x2E4);
    (0x2EC, 0x2EC); (0x2EE, 0x2EE); (0x370, 0x374); (0x376, 0x377);
    (0x37A, 0x37D); (0x37F, 0x37F); (0x386, 0x386); (0x388, 0x38A);
    (0x38C, 0x38C); (0x38E, 0x3A1); (0x3A3, 0x3F5); (0x3F7, 0x481);
    (0x48A, 0x52F); (0x531, 0x556); (0x559, 0x559); (0x560, 0x588);
    (0x5D0, 0x5EA); (0x5EF, 0x5F2); (0x620, 0x64A); (0x660, 0x669);
    (0x66E, 0x66F); (0x671, 0x6D3); (0x6D5, 0x6D5); (0x6E5, 0x6E6);
    (0x6EE, 0x6FC); (0x6FF, 0x6FF); (0x710, 0x710); (0x712, 0x72F);
    (0x74D, 0x7A5); (0x7B1, 0x7B1); (0x7C0, 0x7EA); (0x7F4, 0x7F5);
    (0x7FA, 0x7FA); (0x800, 0x815); (0x81A, 0x81A); (0x824, 0x824);
    (0x828, 0x828); (0x840, 0x858); (0x860, 0x86A); (0x870, 0x887);
    (0x889, 0x88E); (0x8A0, 0x8C9); (0x904, 0x939); (0x93D, 0x93D);
    (0x950, 0x950); (0x958, 0x961); (0x966, 0x96F); (0x971, 0x980);
    (0x985, 0x98C); (0x98F, 0x990); (0x993, 0x9A8); (0x9AA, 0x9B0);
    (0x9B2, 0x9B2); (0x9B6, 0x9B9); (0x9BD, 0x9BD); (0x9CE, 0x9CE);
    (0x9DC, 0x9DD); (0x9DF, 0x9E1); (0x9E6, 0x9F1); (0x9F4, 0x9F9);
    (0x9FC, 0x9FC); (0xA05, 0xA0A); (0xA0F, 0xA10); (0xA13, 0xA28);
    (0xA2A, 0xA30); (0xA32, 0xA33); (0xA35, 0xA36); (0xA38, 0xA39);
    (0xA59, 0xA5C); (0xA5E, 0xA5E); (0xA66, 0xA6F); (0xA72, 0xA74);
    (0xA85, 0xA8D); (0xA8F, 0xA91); (0xA93, 0xAA8); (0xAAA, 0xAB0);
    (0xAB2, 0xAB3); (0xAB5, 0xAB9); (0xABD, 0xABD); (0xAD0, 0xAD0);
    (0xAE0, 0xAE1); (0xAE6, 0xAEF); (0xAF9, 0xAF9); (0xB05, 0xB0C);
    (0xB0F, 0xB10); (0xB13, 0xB28); (0xB2A, 0xB30); (0xB32, 0xB33);
    (0xB35, 0xB39); (0xB3D, 0xB3D); (0xB5C, 0xB5D); (0xB5F, 0xB61);
    (0xB66, 0xB6F); (0xB71, 0xB77); (0xB83, 0xB83); (0xB85, 0xB8A);
    (0xB8E, 0xB90); (0xB92, 0xB95); (0xB99, 0xB9A); (0xB9C, 0xB9C);
    (0xB9E, 0xB9F); (0xBA3, 0xBA4); (0xBA8, 0xBAA); (0xBAE, 0xBB9);
    (0xBD0, 0xBD0); (0xBE6, 0xBF2); (0xC05, 0xC0C); (0xC0E, 0xC10);
    (0xC12, 0xC28); (0xC2A, 0xC39); (0xC3D, 0xC3D); (0xC58, 0xC5A);
    (0xC5D, 0xC5D); (0xC60, 0xC61); (0xC66, 0xC6F); (0xC78, 0xC7E);
    (0xC80, 0xC80); (0xC85, 0xC8C); (0xC8E, 0xC90); (0xC92, 0xCA8);
    (0xCAA, 0xCB3); (0xCB5, 0xCB9); (0xCBD, 0xCBD); (0xCDD, 0xCDE);
    (0xCE0, 0xCE1); (0xCE6, 0xCEF); (0xCF1, 0xCF2); (0xD04, 0xD0C);
    (0xD0E, 0xD10); (0xD12, 0xD3A); (0xD3D, 0xD3D); (0xD4E, 0xD4E);
    (0xD54, 0xD56); (0xD58, 0xD61); (0xD66, 0xD78); (0xD7A, 0xD7F);
    (0xD85, 0xD96); (0xD9A, 0xDB1); (0xDB3, 0xDBB); (0xDBD, 0xDBD);
    (0xDC0, 0xDC6); (0xDE6, 0xDEF); (0xE01, 0xE30); (0xE32, 0xE33);
    (0xE40, 0xE46); (0xE50, 0xE59); (0xE81, 0xE82); (0xE84, 0xE84);
    (0xE86, 0xE8A); (0xE8C, 0xEA3); (0xEA5, 0xEA5); (0xEA7, 0xEB0);
    (0xEB2, 0xEB3); (0xEBD, 0xEBD); (0xEC0, 0xEC4); (0xEC6, 0xEC6);
    (0xED0, 0xED9); (0xEDC, 0xEDF); (0xF00, 0xF00); (0xF20, 0xF33);
    (0xF40, 0xF47); (0xF49, 0xF6C); (0xF88, 0xF8C); (0x1000, 0x102A);
    (0x103F, 0x1049); (0x1050, 0x1055); (0x105A, 0x105D); (0x1061, 0x1061);
    (0x1065, 0x1066); (0x106E, 0x1070); (0x1075, 0x1081); (0x108E, 0x108E);
    (0x1090, 0x1099); (0x10A0, 0x10C5); (0x10C7, 0x10C7); (0x10CD, 0x10CD);
    (0x10D0, 0x10FA); (0x10FC, 0x1248); (0x124A, 0x124D); (0x1250, 0x1256);
    (0x1258, 0x1258); (0x125A, 0x125D); (0x1260, 0x1288); (0x128A, 0x128D);
    (0x1290, 0x12B0); (0x12B2, 0x12B5); (0x12B8, 0x12BE); (0x12C0, 0x12C0);
    (0x12C2, 0x12C5); (0x12C8, 0x12D6); (0x12D8, 0x1310); (0x1312, 0x1315);
    (0x1318, 0x135A); (0x1369, 0x137C); (0x1380, 0x138F); (0x13A0, 0x13F5);
    (0x13F8, 0x13FD); (0x1401, 0x166C); (0x166F, 0x167F); (0x1681, 0x169A);
    (0x16A0, 0x16EA); (0x16EE, 0x16F8); (0x1700, 0x1711); (0x171F, 0x1731);
    (0x1740, 0x1751); (0x1760, 0x176C); (0x176E, 0x1770); (0x1780, 0x17B3);
    (0x17D7, 0x17D7); (0x17DC, 0x17DC); (0x17E0, 0x17E9); (0x17F0, 0x17F9);
    (0x1810, 0x1819); (0x1820, 0x1878); (0x1880, 0x1884); (0x1887, 0x18A8);
    (0x18AA, 0x18AA); (0x18B0, 0x18F5); (0x1900, 0x191E); (0x1946, 0x196D);
    (0x1970, 0x1974); (0x1980, 0x19AB); (0x19B0, 0x19C9); (0x19D0, 0x19DA);
    (0x1A00, 0x1A16); (0x1A20, 0x1A54); (0x1A80, 0x1A89); (0x1A90, 0x1A99);
    (0x1AA7, 0x1AA7); (0x1B05, 0x1B33); (0x1B45, 0x1B4C); (0x1B50, 0x1B59);
    (0x1B83, 0x1BA0); (0x1BAE, 0x1BE5); (0x1C00, 0x1C23); (0x1C40, 0x1C49);
    (0x1C4D, 0x1C7D); (0x1C80, 0x1C88); (0x1C90, 0x1CBA); (0x1CBD, 0x1CBF);
    (0x1CE9, 0x1CEC); (0x1CEE, 0x1CF3); (0x1CF5, 0x1CF6); (0x1CFA, 0x1CFA);
    (0x1D00, 0x1DBF); (0x1E00, 0x1F15); (0x1F18, 0x1F1D); (0x1F20, 0x1F45);
    (0x1F48, 0x1F4D); (0x1F50, 0x1F57); (0x1F59, 0x1F59); (0x1F5B, 0x1F5B);
    (0x1F5D, 0x1F5D); (0x1F5F, 0x1F7D); (0x1F80, 0x1FB4); (0x1FB6, 0x1FBC);
    (0x1FBE, 0x1FBE); (0x1FC2, 0x1FC4); (0x1FC6, 0x1FCC); (0x1FD0, 0x1FD3);
    (0x1FD6, 0x1FDB); (0x1FE0, 0x1FEC); (0x1FF2, 0x1FF4); (0x1FF6, 0x1FFC);
    (0x2070, 0x2071); (0x2074, 0x2079); (0x207F, 0x2089); (0x2090, 0x209C);
    (0x2102, 0x2102); (0x2107, 0x2107); (0x210A, 0x2113); (0x2115, 0x2115);
    (0x2119, 0x211D); (0x2124, 0x2124); (0x2126, 0x2126); (0x2128, 0x2128);
    (0x212A, 0x212D); (0x212F, 0x2139); (0x213C, 0x213F); (0x2145, 0x2149);
    (0x214E, 0x214E); (0x2150, 0x2189); (0x2460, 0x249B); (0x24EA, 0x24FF);
    (0x2776, 0x2793); (0x2C00, 0x2CE4); (0x2CEB, 0x2CEE); (0x2CF2, 0x2CF3);
    (0x2CFD, 0x2CFD); (0x2D00, 0x2D25); (0x2D27, 0x2D27); (0x2D2D, 0x2D2D);
    (0x2D30, 0x2D67); (0x2D6F, 0x2D6F); (0x2D80, 0x2D96); (0x2DA0, 0x2DA6);
    (0x2DA8, 0x2DAE); (0x2DB0, 0x2DB6); (0x2DB8, 0x2DBE); (0x2DC0, 0x2DC6);
    (0x2DC8, 0x2DCE); (0x2DD0, 0x2DD6); (0x2DD8, 0x2DDE); (0x2E2F, 0x2E2F);
    (0x3005, 0x3007); (0x3021, 0x3029); (0x3031, 0x3035); (0x3038, 0x303C);
    (0x3041, 0x3096); (0x309D, 0x309F); (0x30A1, 0x30FA); (0x30FC, 0x30FF);
    (0x3105, 0x312F); (0x3131, 0x318E); (0x3192, 0x3195); (0x31A0, 0x31BF);
    (0x31F0, 0x31FF); (0x3220, 0x3229); (0x3248, 0x324F); (0x3251, 0x325F);
    (0x3280, 0x3289); (0x32B1, 0x32BF); (0x3400, 0x4DBF); (0x4E00, 0xA48C);
    (0xA4D0, 0xA4FD); (0xA500, 0xA60C); (0xA610, 0xA62B); (0xA640, 0xA66E);
    (0xA67F, 0xA69D); (0xA6A0, 0xA6EF); (0xA717, 0xA71F); (0xA722, 0xA788);
    (0xA78B, 0xA7CA); (0xA7D0, 0xA7D1); (0xA7D3, 0xA7D3); (0xA7D5, 0xA7D9);
    (0xA7F2, 0xA801); (0xA803, 0xA805); (0xA807, 0xA80A); (0xA80C, 0xA822);
    (0xA830, 0xA835); (0xA840, 0xA873); (0xA882, 0xA8B3); (0xA8D0, 0xA8D9);
    (0xA8F2, 0xA8F7); (0xA8FB, 0xA8FB); (0xA8FD, 0xA8FE); (0xA900, 0xA925);
    (0xA930, 0xA946); (0xA960, 0xA97C); (0xA984, 0xA9B2); (0xA9CF, 0xA9D9);
    (0xA9E0, 0xA9E4); (0xA9E6, 0xA9FE); (0xAA00, 0xAA28); (0xAA40, 0xAA42);
    (0xAA44, 0xAA4B); (0xAA50, 0xAA59); (0xAA60, 0xAA76); (0xAA7A, 0xAA7A);
    (0xAA7E, 0xAAAF); (0xAAB1, 0xAAB1); (0xAAB5, 0xAAB6); (0xAAB9, 0xAABD);
    (0xAAC0, 0xAAC0); (0xAAC2, 0xAAC2); (0xAADB, 0xAADD); (0xAAE0, 0xAAEA);
    (0xAAF2, 0xAAF4); (0xAB01, 0xAB06); (0xAB09, 0xAB0E); (0xAB11, 0xAB16);
    (0xAB20, 0xAB26); (0xAB28, 0xAB2E); (0xAB30, 0xAB5A); (0xAB5C, 0xAB69);
    (0xAB70, 0xABE2); (0xABF0, 0xABF9); (0xAC00, 0xD7A3); (0xD7B0, 0xD7C6);
    (0xD7CB, 0xD7FB); (0xF900, 0xFA6D); (0xFA70, 0xFAD9); (0xFB00, 0xFB06);
    (0xFB13, 0xFB17); (0xFB1D, 0xFB1D); (0xFB1F, 0xFB28); (0xFB2A, 0xFB36);
    (0xFB38, 0xFB3C); (0xFB3E, 0xFB3E); (0xFB40, 0xFB41); (0xFB43, 0xFB44);
    (0xFB46, 0xFBB1); (0xFBD3, 0xFD3D); (0xFD50, 0xFD8F); (0xFD92, 0xFDC7);
    (0xFDF0, 0xFDFB); (0xFE70, 0xFE74); (0xFE76, 0xFEFC); (0xFF10, 0xFF19);
    (0xFF21, 0xFF3A); (0xFF41, 0xFF5A); (0xFF66, 0xFFBE); (0xFFC2, 0xFFC7);
    (0xFFCA, 0xFFCF); (0xFFD2, 0xFFD7); (0xFFDA, 0xFFDC); (0x10000, 0x1000B);
    (0x1000D, 0x10026); (0x10028, 0x1003A); (0x1003C, 0x1003D);
    (0x1003F, 0x1004D); (0x10050, 0x1005D); (0x10080, 0x100FA);
    (0x10107, 0x10133); (0x10140, 0x10178); (0x1018A, 0x1018B);
    (0x10280, 0x1029C); (0x102A0, 0x102D0); (0x102E1, 0x102FB);
    (0x10300, 0x10323); (0x1032D, 0x1034A); (0x10350, 0x10375);
    (0x10380, 0x1039D); (0x103A0, 0x103C3); (0x103C8, 0x103CF);
    (0x103D1, 0x103D5); (0x10400, 0x1049D); (0x104A0, 0x104A9);
    (0x104B0, 0x104D3); (0x104D8, 0x104FB); (0x10500, 0x10527);
    (0x10530, 0x10563); (0x10570, 0x1057A); (0x1057C, 0x1058A);
    (0x1058C, 0x10592); (0x10594, 0x10595); (0x10597, 0x105A1);
    (0x105A3, 0x105B1); (0x105B3, 0x105B9); (0x105BB, 0x105BC);
    (0x10600, 0x10736); (0x10740, 0x10755); (0x10760, 0x10767);
    (0x10780, 0x10785); (0x10787, 0x107B0); (0x107B2, 0x107BA);
    (0x10800, 0x10805); (0x10808, 0x10808); (0x1080A, 0x10835);
    (0x10837, 0x10838); (0x1083C, 0x1083C); (0x1083F, 0x10855);
    (0x10858, 0x10876); (0x10879, 0x1089E); (0x108A7, 0x108AF);
    (0x108E0, 0x108F2); (0x108F4, 0x108F5); (0x108FB, 0x1091B);
    (0x10920, 0x10939); (0x10980, 0x109B7); (0x109BC, 0x109CF);
    (0x109D2, 0x10A00); (0x10A10, 0x10A13); (0x10A15, 0x10A17);
    (0x10A19, 0x10A35); (0x10A40, 0x10A48); (0x10A60, 0x10A7E);
    (0x10A80, 0x10A9F); (0x10AC0, 0x10AC7); (0x10AC9, 0x10AE4);
    (0x10AEB, 0x10AEF); (0x10B00, 0x10B35); (0x10B40, 0x10B55);
    (0x10B58, 0x10B72); (0x10B78, 0x10B91); (0x10BA9, 0x10BAF);
    (0x10C00, 0x10C48); (0x10C80, 0x10CB2); (0x10CC0, 0x10CF2);
    (0x10CFA, 0x10D23); (0x10D30, 0x10D39); (0x10E60, 0x10E7E);
    (0x10E80, 0x10EA9); (0x10EB0, 0x10EB1); (0x10F00, 0x10F27);
    (0x10F30, 0x10F45); (0x10F51, 0x10F54); (0x10F70, 0x10F81);
    (0x10FB0, 0x10FCB); (0x10FE0, 0x10FF6); (0x11003, 0x11037);
    (0x11052, 0x1106F); (0x11071, 0x11072); (0x11075, 0x11075);
    (0x11083, 0x110AF); (0x110D0, 0x110E8); (0x110F0, 0x110F9);
    (0x11103, 0x11126); (0x11136, 0x1113F); (0x11144, 0x11144);
    (0x11147, 0x11147); (0x11150, 0x11172); (0x11176, 0x11176);
    (0x11183, 0x111B2); (0x111C1, 0x111C4); (0x111D0, 0x111DA);
    (0x111DC, 0x111DC); (0x111E1, 0x111F4); (0x11200, 0x11211);
    (0x11213, 0x1122B); (0x11280, 0x11286); (0x11288, 0x11288);
    (0x1128A, 0x1128D); (0x1128F, 0x1129D); (0x1129F, 0x112A8);
    (0x112B0, 0x112DE); (0x112F0, 0x112F9); (0x11305, 0x1130C);
    (0x1130F, 0x11310); (0x11313, 0x11328); (0x1132A, 0x11330);
    (0x11332, 0x11333); (0x11335, 0x11339); (0x1133D, 0x1133D);
    (0x11350, 0x11350); (0x1135D, 0x11361); (0x11400, 0x11434);
    (0x11447, 0x1144A); (0x11450, 0x11459); (0x1145F, 0x11461);
    (0x11480, 0x114AF); (0x114C4, 0x114C5); (0x114C7, 0x114C7);
    (0x114D0, 0x114D9); (0x11580, 0x115AE); (0x115D8, 0x115DB);
    (0x11600, 0x1162F); (0x11644, 0x11644); (0x11650, 0x11659);
    (0x11680, 0x116AA); (0x116B8, 0x116B8); (0x116C0, 0x116C9);
    (0x11700, 0x1171A); (0x11730, 0x1173B); (0x11740, 0x11746);
    (0x11800, 0x1182B); (0x118A0, 0x118F2); (0x118FF, 0x11906);
    (0x11909, 0x11909); (0x1190C, 0x11913); (0x11915, 0x11916);
    (0x11918, 0x1192F); (0x1193F, 0x1193F); (0x11941, 0x11941);
    (0x11950, 0x11959); (0x119A0, 0x119A7); (0x119AA, 0x119D0);
    (0x119E1, 0x119E1); (0x119E3, 0x119E3); (0x11A00, 0x11A00);
    (0x11A0B, 0x11A32); (0x11A3A, 0x11A3A); (0x11A50, 0x11A50);
    (0x11A5C, 0x11A89); (0x11A9D, 0x11A9D); (0x11AB0, 0x11AF8);
    (0x11C00, 0x11C08); (0x11C0A, 0x11C2E); (0x11C40, 0x11C40);
    (0x11C50, 0x11C6C); (0x11C72, 0x11C8F); (0x11D00, 0x11D06);
    (0x11D08, 0x11D09); (0x11D0B, 0x11D30); (0x11D46, 0x11D46);
    (0x11D50, 0x11D59); (0x11D60, 0x11D65); (0x11D67, 0x11D68);
    (0x11D6A, 0x11D89); (0x11D98, 0x11D98); (0x11DA0, 0x11DA9);
    (0x11EE0, 0x11EF2); (0x11FB0, 0x11FB0); (0x11FC0, 0x11FD4);
    (0x12000, 0x12399); (0x12400, 0x1246E); (0x12480, 0x12543);
    (0x12F90, 0x12FF0); (0x13000, 0x1342E); (0x14400, 0x14646);
    (0x16800, 0x16A38); (0x16A40, 0x16A5E); (0x16A60, 0x16A69);
    (0x16A70, 0x16ABE); (0x16AC0, 0x16AC9); (0x16AD0, 0x16AED);
    (0x16B00, 0x16B2F); (0x16B40, 0x16B43); (0x16B50, 0x16B59);
    (0x16B5B, 0x16B61); (0x16B63, 0x16B77); (0x16B7D, 0x16B8F);
    (0x16E40, 0x16E96); (0x16F00, 0x16F4A); (0x16F50, 0x16F50);
    (0x16F93, 0x16F9F); (0x16FE0, 0x16FE1); (0x16FE3, 0x16FE3);
    (0x17000, 0x187F7); (0x18800, 0x18CD5); (0x18D00, 0x18D08);
    (0x1AFF0, 0x1AFF3); (0x1AFF5, 0x1AFFB); (0x1AFFD, 0x1AFFE);
    (0x1B000, 0x1B122); (0x1B150, 0x1B152); (0x1B164, 0x1B167);
    (0x1B170, 0x1B2FB); (0x1BC00, 0x1BC6A); (0x1BC70, 0x1BC7C);
    (0x1BC80, 0x1BC88); (0x1BC90, 0x1BC99); (0x1D2E0, 0x1D2F3);
    (0x1D360, 0x1D378); (0x1D400, 0x1D454); (0x1D456, 0x1D49C);
    (0x1D49E, 0x1D49F); (0x1D4A2, 0x1D4A2); (0x1D4A5, 0x1D4A6);
    (0x1D4A9, 0x1D4AC); (0x1D4AE, 0x1D4B9); (0x1D4BB, 0x1D4BB);
    (0x1D4BD, 0x1D4C3); (0x1D4C5, 0x1D505); (0x1D507, 0x1D50A);
    (0x1D50D, 0x1D514); (0x1D516, 0x1D51C); (0x1D51E, 0x1D539);
    (0x1D53B, 0x1D53E); (0x1D540, 0x1D544); (0x1D546, 0x1D546);
    (0x1D54A, 0x1D550); (0x1D552, 0x1D6A5); (0x1D6A8, 0x1D6C0);
    (0x1D6C2, 0x1D6DA); (0x1D6DC, 0x1D6FA); (0x1D6FC, 0x1D714);
    (0x1D716, 0x1D734); (0x1D736, 0x1D74E); (0x1D750, 0x1D76E);
    (0x1D770, 0x1D788); (0x1D78A, 0x1D7A8); (0x1D7AA, 0x1D7C2);
    (0x1D7C4, 0x1D7CB); (0x1D7CE, 0x1D7FF); (0x1DF00, 0x1DF1E);
    (0x1E100, 0x1E12C); (0x1E137, 0x1E13D); (0x1E140, 0x1E149);
    (0x1E14E, 0x1E14E); (0x1E290, 0x1E2AD); (0x1E2C0, 0x1E2EB);
    (0x1E2F0, 0x1E2F9); (0x1E7E0, 0x1E7E6); (0x1E7E8, 0x1E7EB);
    (0x1E7ED, 0x1E7EE); (0x1E7F0, 0x1E7FE); (0x1E800, 0x1E8C4);
    (0x1E8C7, 0x1E8CF); (0x1E900, 0x1E943); (0x1E94B, 0x1E94B);
    (0x1E950, 0x1E959); (0x1EC71, 0x1ECAB); (0x1ECAD, 0x1ECAF);
    (0x1ECB1, 0x1ECB4); (0x1ED01, 0x1ED2D); (0x1ED2F, 0x1ED3D);
    (0x1EE00, 0x1EE03); (0x1EE05, 0x1EE1F); (0x1EE21, 0x1EE22);
    (0x1EE24, 0x1EE24); (0x1EE27, 0x1EE27); (0x1EE29, 0x1EE32);
    (0x1EE34, 0x1EE37); (0x1EE39, 0x1EE39); (0x1EE3B, 0x1EE3B);
    (0x1EE42, 0x1EE42); (0x1EE47, 0x1EE47); (0x1EE49, 0x1EE49);
    (0x1EE4B, 0x1EE4B); (0x1EE4D, 0x1EE4F); (0x1EE51, 0x1EE52);
    (0x1EE54, 0x1EE54); (0x1EE57, 0x1EE57); (0x1EE59, 0x1EE59);
    (0x1EE5B, 0x1EE5B); (0x1EE5D, 0x1EE5D); (0x1EE5F, 0x1EE5F);
    (0x1EE61, 0x1EE62); (0x1EE64, 0x1EE64); (0x1EE67, 0x1EE6A);
    (0x1EE6C, 0x1EE72); (0x1EE74, 0x1EE77); (0x1EE79, 0x1EE7C);
    (0x1EE7E, 0x1EE7E); (0x1EE80, 0x1EE89); (0x1EE8B, 0x1EE9B);
    (0x1EEA1, 0x1EEA3); (0x1EEA5, 0x1EEA9); (0x1EEAB, 0x1EEBB);
    (0x1F100, 0x1F10C); (0x1FBF0, 0x1FBF9); (0x20000, 0x2A6DF);
    (0x2A700, 0x2B738); (0x2B740, 0x2B81D); (0x2B820, 0x2CEA1);
    (0x2CEB0, 0x2EBE0); (0x2F800, 0x2FA1D); (0x30000, 0x3134A) ].

(** The characters with the property Cased. *)
Definition cased_ranges : list (N * N) :=
  [ (0x41, 0x5A); (0x61, 0x7A); (0xAA, 0xAA); (0xB5, 0xB5); (0xBA, 0xBA);
    (0xC0, 0xD6); (0xD8, 0xF6); (0xF8, 0x1BA); (0x1BC, 0x1BF); (0x1C4, 0x293);
    (0x295, 0x2B8); (0x2C0, 0x2C1); (0x2E0, 0x2E4); (0x345, 0x345);
    (0x370, 0x373); (0x376, 0x377); (0x37A, 0x37D); (0x37F, 0x37F);
    (0x386, 0x386); (0x388, 0x38A); (0x38C, 0x38C); (0x38E, 0x3A1);
    (0x3A3, 0x3F5); (0x3F7, 0x481); (0x48A, 0x52F); (0x531, 0x556);
    (0x560, 0x588); (0x10A0, 0x10C5); (0x10C7, 0x10C7); (0x10CD, 0x10CD);
    (0x10D0, 0x10FA); (0x10FD, 0x10FF); (0x13A0, 0x13F5); (0x13F8, 0x13FD);
    (0x1C80, 0x1C88); (0x1C90, 0x1CBA); (0x1CBD, 0x1CBF); (0x1D00, 0x1DBF);
    (0x1E00, 0x1F15); (0x1F18, 0x1F1D); (0x1F20, 0x1F45); (0x1F48, 0x1F4D);
    (0x1F50, 0x1F57); (0x1F59, 0x1F59); (0x1F5B, 0x1F5B); (0x1F5D, 0x1F5D);
    (0x1F5F, 0x1F7D); (0x1F80, 0x1FB4); (0x1FB6, 0x1FBC); (0x1FBE, 0x1FBE);
    (0x1FC2, 0x1FC4); (0x1FC6, 0x1FCC); (0x1FD0, 0x1FD3); (0x1FD6, 0x1FDB);
    (0x1FE0, 0x1FEC); (0x1FF2, 0x1FF4); (0x1FF6, 0x1FFC); (0x2071, 0x2071);
    (0x207F, 0x207F); (0x2090, 0x209C); (0x2102, 0x2102); (0x2107, 0x2107);
    (0x210A, 0x2113); (0x2115, 0x2115); (0x2119, 0x211D); (0x2124, 0x2124);
    (0x2126, 0x2126); (0x2128, 0x2128); (0x212A, 0x212D); (0x212F, 0x2134);
    (0x2139, 0x2139); (0x213C, 0x213F); (0x2145, 0x2149); (0x214E, 0x214E);
    (0x2160, 0x217F); (0x2183, 0x2184); (0x24B6, 0x24E9); (0x2C00, 0x2CE4);
    (0x2CEB, 0x2CEE); (0x2CF2, 0x2CF3); (0x2D00, 0x2D25); (0x2D27, 0x2D27);
    (0x2D2D, 0x2D2D); (0xA640, 0xA66D); (0xA680, 0xA69D); (0xA722, 0xA787);
    (0xA78B, 0xA78E); (0xA790, 0xA7CA); (0xA7D0, 0xA7D1); (0xA7D3, 0xA7D3);
    (0xA7D5, 0xA7D9); (0xA7F5, 0xA7F6); (0xA7F8, 0xA7FA); (0xAB30, 0xAB5A);
    (0xAB5C, 0xAB68); (0xAB70, 0xABBF); (0xFB00, 0xFB06); (0xFB13, 0xFB17);
    (0xFF21, 0xFF3A); (0xFF41, 0xFF5A); (0x10400, 0x1044F); (0x104B0, 0x104D3);
    (0x104D8, 0x104FB); (0x10570, 0x1057A); (0x1057C, 0x1058A);
    (0x1058C, 0x10592); (0x10594, 0x10595); (0x10597, 0x105A1);
    (0x105A3, 0x105B1); (0x105B3, 0x105B9); (0x105BB, 0x105BC);
    (0x10780, 0x10780); (0x10783, 0x10785); (0x10787, 0x107B0);
    (0x107B2, 0x107BA); (0x10C80, 0x10CB2); (0x10CC0, 0x10CF2);
    (0x118A0, 0x118DF); (0x16E40, 0x16E7F); (0x1D400, 0x1D454);
    (0x1D456, 0x1D49C); (0x1D49E, 0x1D49F); (0x1D4A2, 0x1D4A2);
    (0x1D4A5, 0x1D4A6); (0x1D4A9, 0x1D4AC); (0x1D4AE, 0x1D4B9);
    (0x1D4BB, 0x1D4BB); (0x1D4BD, 0x1D4C3); (0x1D4C5, 0x1D505);
    (0x1D507, 0x1D50A); (0x1D50D, 0x1D514); (0x1D516, 0x1D51C);
    (0x1D51E, 0x1D539); (0x1D53B, 0x1D53E); (0x1D540, 0x1D544);
    (0x1D546, 0x1D546); (0x1D54A, 0x1D550); (0x1D552, 0x1D6A5);
    (0x1D6A8, 0x1D6C0); (0x1D6C2, 0x1D6DA); (0x1D6DC, 0x1D6FA);
    (0x1D6FC, 0x1D714); (0x1D716, 0x1D734); (0x1D736, 0x1D74E);
    (0x1D750, 0x1D76E); (0x1D770, 0x1D788); (0x1D78A, 0x1D7A8);
    (0x1D7AA, 0x1D7C2); (0x1D7C4, 0x1D7CB); (0x1DF00, 0x1DF09);
    (0x1DF0B, 0x1DF1E); (0x1E900, 0x1E943); (0x1F130, 0x1F149);
    (0x1F150, 0x1F169); (0x1F170, 0x1F189) ].

(** The characters with the property Case_Ignorable. *)
Definition case_ignorable_ranges : list (N * N) :=
  [ (0x27, 0x27); (0x2E, 0x2E); (0x3A, 0x3A); (0x5E, 0x5E); (0x60, 0x60);
    (0xA8, 0xA8); (0xAD, 0xAD); (0xAF, 0xAF); (0xB4, 0xB4); (0xB7, 0xB8);
    (0x2B0, 0x36F); (0x374, 0x375); (0x37A, 0x37A); (0x384, 0x385);
    (0x387, 0x387); (0x483, 0x489); (0x559, 0x559); (0x55F, 0x55F);
    (0x591, 0x5BD); (0x5BF, 0x5BF); (0x5C1, 0x5C2); (0x5C4, 0x5C5);
    (0x5C7, 0x5C7); (0x5F4, 0x5F4); (0x600, 0x605); (0x610, 0x61A);
    (0x61C, 0x61C); (0x640, 0x640); (0x64B, 0x65F); (0x670, 0x670);
    (0x6D6, 0x6DD); (0x6DF, 0x6E8); (0x6EA, 0x6ED); (0x70F, 0x70F);
    (0x711, 0x711); (0x730, 0x74A); (0x7A6, 0x7B0); (0x7EB, 0x7F5);
    (0x7FA, 0x7FA); (0x7FD, 0x7FD); (0x816, 0x82D); (0x859, 0x85B);
    (0x888, 0x888); (0x890, 0x891); (0x898, 0x89F); (0x8C9, 0x902);
    (0x93A, 0x93A); (0x93C, 0x93C); (0x941, 0x948); (0x94D, 0x94D);
    (0x951, 0x957); (0x962, 0x963); (0x971, 0x971); (0x981, 0x981);
    (0x9BC, 0x9BC); (0x9C1, 0x9C4); (0x9CD, 0x9CD); (0x9E2, 0x9E3);
    (0x9FE, 0x9FE); (0xA01, 0xA02); (0xA3C, 0xA3C); (0xA41, 0xA42);
    (0xA47, 0xA48); (0xA4B, 0xA4D); (0xA51, 0xA51); (0xA70, 0xA71);
    (0xA75, 0xA75); (0xA81, 0xA82); (0xABC, 0xABC); (0xAC1, 0xAC5);
    (0xAC7, 0xAC8); (0xACD, 0xACD); (0xAE2, 0xAE3); (0xAFA, 0xAFF);
    (0xB01, 0xB01); (0xB3C, 0xB3C); (0xB3F, 0xB3F); (0xB41, 0xB44);
    (0xB4D, 0xB4D); (0xB55, 0xB56); (0xB62, 0xB63); (0xB82, 0xB82);
    (0xBC0, 0xBC0); (0xBCD, 0xBCD); (0xC00, 0xC00); (0xC04, 0xC04);
    (0xC3C, 0xC3C); (0xC3E, 0xC40); (0xC46, 0xC48); (0xC4A, 0xC4D);
    (0xC55, 0xC56); (0xC62, 0xC63); (0xC81, 0xC81); (0xCBC, 0xCBC);
    (0xCBF, 0xCBF); (0xCC6, 0xCC6); (0xCCC, 0xCCD); (0xCE2, 0xCE3);
    (0xD00, 0xD01); (0xD3B, 0xD3C); (0xD41, 0xD44); (0xD4D, 0xD4D);
    (0xD62, 0xD63); (0xD81, 0xD81); (0xDCA, 0xDCA); (0xDD2, 0xDD4);
    (0xDD6, 0xDD6); (0xE31, 0xE31); (0xE34, 0xE3A); (0xE46, 0xE4E);
    (0xEB1, 0xEB1); (0xEB4, 0xEBC); (0xEC6, 0xEC6); (0xEC8, 0xECD);
    (0xF18, 0xF19); (0xF35, 0xF35); (0xF37, 0xF37); (0xF39, 0xF39);
    (0xF71, 0xF7E); (0xF80, 0xF84); (0xF86, 0xF87); (0xF8D, 0xF97);
    (0xF99, 0xFBC); (0xFC6, 0xFC6); (0x102D, 0x1030); (0x1032, 0x1037);
    (0x1039, 0x103A); (0x103D, 0x103E); (0x1058, 0x1059); (0x105E, 0x1060);
    (0x1071, 0x1074); (0x1082, 0x1082); (0x1085, 0x1086); (0x108D, 0x108D);
    (0x109D, 0x109D); (0x10FC, 0x10FC); (0x135D, 0x135F); (0x1712, 0x1714);
    (0x1732, 0x1733); (0x1752, 0x1753); (0x1772, 0x1773); (0x17B4, 0x17B5);
    (0x17B7, 0x17BD); (0x17C6, 0x17C6); (0x17C9, 0x17D3); (0x17D7, 0x17D7);
    (0x17DD, 0x17DD); (0x180B, 0x180F); (0x1843, 0x1843); (0x1885, 0x1886);
    (0x18A9, 0x18A9); (0x1920, 0x1922); (0x1927, 0x1928); (0x1932, 0x1932);
    (0x1939, 0x193B); (0x1A17, 0x1A18); (0x1A1B, 0x1A1B); (0x1A56, 0x1A56);
    (0x1A58, 0x1A5E); (0x1A60, 0x1A60); (0x1A62, 0x1A62); (0x1A65, 0x1A6C);
    (0x1A73, 0x1A7C); (0x1A7F, 0x1A7F); (0x1AA7, 0x1AA7); (0x1AB0, 0x1ACE);
    (0x1B00, 0x1B03); (0x1B34, 0x1B34); (0x1B36, 0x1B3A); (0x1B3C, 0x1B3C);
    (0x1B42, 0x1B42); (0x1B6B, 0x1B73); (0x1B80, 0x1B81); (0x1BA2, 0x1BA5);
    (0x1BA8, 0x1BA9); (0x1BAB, 0x1BAD); (0x1BE6, 0x1BE6); (0x1BE8, 0x1BE9);
    (0x1BED, 0x1BED); (0x1BEF, 0x1BF1); (0x1C2C, 0x1C33); (0x1C36, 0x1C37);
    (0x1C78, 0x1C7D); (0x1CD0, 0x1CD2); (0x1CD4, 0x1CE0); (0x1CE2, 0x1CE8);
    (0x1CED, 0x1CED); (0x1CF4, 0x1CF4); (0x1CF8, 0x1CF9); (0x1D2C, 0x1D6A);
    (0x1D78, 0x1D78); (0x1D9B, 0x1DFF); (0x1FBD, 0x1FBD); (0x1FBF, 0x1FC1);
    (0x1FCD, 0x1FCF); (0x1FDD, 0x1FDF); (0x1FED, 0x1FEF); (0x1FFD, 0x1FFE);
    (0x200B, 0x200F); (0x2018, 0x2019); (0x2024, 0x2024); (0x2027, 0x2027);
    (0x202A, 0x202E); (0x2060, 0x2064); (0x2066, 0x206F); (0x2071, 0x2071);
    (0x207F, 0x207F); (0x2090, 0x209C); (0x20D0, 0x20F0); (0x2C7C, 0x2C7D);
    (0x2CEF, 0x2CF1); (0x2D6F, 0x2D6F); (0x2D7F, 0x2D7F); (0x2DE0, 0x2DFF);
    (0x2E2F, 0x2E2F); (0x3005, 0x3005); (0x302A, 0x302D); (0x3031, 0x3035);
    (0x303B, 0x303B); (0x3099, 0x309E); (0x30FC, 0x30FE); (0xA015, 0xA015);
    (0xA4F8, 0xA4FD); (0xA60C, 0xA60C); (0xA66F, 0xA672); (0xA674, 0xA67D);
    (0xA67F, 0xA67F); (0xA69C, 0xA69F); (0xA6F0, 0xA6F1); (0xA700, 0xA721);
    (0xA770, 0xA770); (0xA788, 0xA78A); (0xA7F2, 0xA7F4); (0xA7F8, 0xA7F9);
    (0xA802, 0xA802); (0xA806, 0xA806); (0xA80B, 0xA80B); (0xA825, 0xA826);
    (0xA82C, 0xA82C); (0xA8C4, 0xA8C5); (0xA8E0, 0xA8F1); (0xA8FF, 0xA8FF);
    (0xA926, 0xA92D); (0xA947, 0xA951); (0xA980, 0xA982); (0xA9B3, 0xA9B3);
    (0xA9B6, 0xA9B9); (0xA9BC, 0xA9BD); (0xA9CF, 0xA9CF); (0xA9E5, 0xA9E6);
    (0xAA29, 0xAA2E); (0xAA31, 0xAA32); (0xAA35, 0xAA36); (0xAA43, 0xAA43);
    (0xAA4C, 0xAA4C); (0xAA70, 0xAA70); (0xAA7C, 0xAA7C); (0xAAB0, 0xAAB0);
    (0xAAB2, 0xAAB4); (0xAAB7, 0xAAB8); (0xAABE, 0xAABF); (0xAAC1, 0xAAC1);
    (0xAADD, 0xAADD); (0xAAEC, 0xAAED); (0xAAF3, 0xAAF4); (0xAAF6, 0xAAF6);
    (0xAB5B, 0xAB5F); (0xAB69, 0xAB6B); (0xABE5, 0xABE5); (0xABE8, 0xABE8);
    (0xABED, 0xABED); (0xFB1E, 0xFB1E); (0xFBB2, 0xFBC2); (0xFE00, 0xFE0F);
    (0xFE13, 0xFE13); (0xFE20, 0xFE2F); (0xFE52, 0xFE52); (0xFE55, 0xFE55);
    (0xFEFF, 0xFEFF); (0xFF07, 0xFF07); (0xFF0E, 0xFF0E); (0xFF1A, 0xFF1A);
    (0xFF3E, 0xFF3E); (0xFF40, 0xFF40); (0xFF70, 0xFF70); (0xFF9E, 0xFF9F);
    (0xFFE3, 0xFFE3); (0xFFF9, 0xFFFB); (0x101FD, 0x101FD); (0x102E0, 0x102E0);
    (0x10376, 0x1037A); (0x10780, 0x10785); (0x10787, 0x107B0);
    (0x107B2, 0x107BA); (0x10A01, 0x10A03); (0x10A05, 0x10A06);
    (0x10A0C, 0x10A0F); (0x10A38, 0x10A3A); (0x10A3F, 0x10A3F);
    (0x10AE5, 0x10AE6); (0x10D24, 0x10D27); (0x10EAB, 0x10EAC);
    (0x10F46, 0x10F50); (0x10F82, 0x10F85); (0x11001, 0x11001);
    (0x11038, 0x11046); (0x11070, 0x11070); (0x11073, 0x11074);
    (0x1107F, 0x11081); (0x110B3, 0x110B6); (0x110B9, 0x110BA);
    (0x110BD, 0x110BD); (0x110C2, 0x110C2); (0x110CD, 0x110CD);
    (0x11100, 0x11102); (0x11127, 0x1112B); (0x1112D, 0x11134);
    (0x11173, 0x11173); (0x11180, 0x11181); (0x111B6, 0x111BE);
    (0x111C9, 0x111CC); (0x111CF, 0x111CF); (0x1122F, 0x11231);
    (0x11234, 0x11234); (0x11236, 0x11237); (0x1123E, 0x1123E);
    (0x112DF, 0x112DF); (0x112E3, 0x112EA); (0x11300, 0x11301);
    (0x1133B, 0x1133C); (0x11340, 0x11340); (0x11366, 0x1136C);
    (0x11370, 0x11374); (0x11438, 0x1143F); (0x11442, 0x11444);
    (0x11446, 0x11446); (0x1145E, 0x1145E); (0x114B3, 0x114B8);
    (0x114BA, 0x114BA); (0x114BF, 0x114C0); (0x114C2, 0x114C3);
    (0x115B2, 0x115B5); (0x115BC, 0x115BD); (0x115BF, 0x115C0);
    (0x115DC, 0x115DD); (0x11633, 0x1163A); (0x1163D, 0x1163D);
    (0x1163F, 0x11640); (0x116AB, 0x116AB); (0x116AD, 0x116AD);
    (0x116B0, 0x116B5); (0x116B7, 0x116B7); (0x1171D, 0x1171F);
    (0x11722, 0x11725); (0x11727, 0x1172B); (0x1182F, 0x11837);
    (0x11839, 0x1183A); (0x1193B, 0x1193C); (0x1193E, 0x1193E);
    (0x11943, 0x11943); (0x119D4, 0x119D7); (0x119DA, 0x119DB);
    (0x119E0, 0x119E0); (0x11A01, 0x11A0A); (0x11A33, 0x11A38);
    (0x11A3B, 0x11A3E); (0x11A47, 0x11A47); (0x11A51, 0x11A56);
    (0x11A59, 0x11A5B); (0x11A8A, 0x11A96); (0x11A98, 0x11A99);
    (0x11C30, 0x11C36); (0x11C38, 0x11C3D); (0x11C3F, 0x11C3F);
    (0x11C92, 0x11CA7); (0x11CAA, 0x11CB0); (0x11CB2, 0x11CB3);
    (0x11CB5, 0x11CB6); (0x11D31, 0x11D36); (0x11D3A, 0x11D3A);
    (0x11D3C, 0x11D3D); (0x11D3F, 0x11D45); (0x11D47, 0x11D47);
    (0x11D90, 0x11D91); (0x11D95, 0x11D95); (0x11D97, 0x11D97);
    (0x11EF3, 0x11EF4); (0x13430, 0x13438); (0x16AF0, 0x16AF4);
    (0x16B30, 0x16B36); (0x16B40, 0x16B43); (0x16F4F, 0x16F4F);
    (0x16F8F, 0x16F9F); (0x16FE0, 0x16FE1); (0x16FE3, 0x16FE4);
    (0x1AFF0, 0x1AFF3); (0x1AFF5, 0x1AFFB); (0x1AFFD, 0x1AFFE);
    (0x1BC9D, 0x1BC9E); (0x1BCA0, 0x1BCA3); (0x1CF00, 0x1CF2D);
    (0x1CF30, 0x1CF46); (0x1D167, 0x1D169); (0x1D173, 0x1D182);
    (0x1D185, 0x1D18B); (0x1D1AA, 0x1D1AD); (0x1D242, 0x1D244);
    (0x1DA00, 0x1DA36); (0x1DA3B, 0x1DA6C); (0x1DA75, 0x1DA75);
    (0x1DA84, 0x1DA84); (0x1DA9B, 0x1DA9F); (0x1DAA1, 0x1DAAF);
    (0x1E000, 0x1E006); (0x1E008, 0x1E018); (0x1E01B, 0x1E021);
    (0x1E023, 0x1E024); (0x1E026, 0x1E02A); (0x1E130, 0x1E13D);
    (0x1E2AE, 0x1E2AE); (0x1E2EC, 0x1E2EF); (0x1E8D0, 0x1E8D6);
    (0x1E944, 0x1E94B); (0x1F3FB, 0x1F3FF); (0xE0001, 0xE0001);
    (0xE0020, 0xE007F); (0xE0100, 0xE01EF) ].

(** The characters that [str.isspace] accepts. *)
Definition space_ranges : list (N * N) :=
  [ (0x9, 0xD); (0x1C, 0x20); (0x85, 0x85); (0xA0, 0xA0); (0x1680, 0x1680);
    (0x2000, 0x200A); (0x2028, 0x2029); (0x202F, 0x202F); (0x205F, 0x205F);
    (0x3000, 0x3000) ].

(** A character is a code point; a string is the list of its characters. *)
Definition in_ranges (c : N) (ranges : list (N * N)) : bool :=
  existsb (fun r => (fst r <=? c) && (c <=? snd r)) ranges.

Definition covers (e : N * N * N * N) (c : N) : bool :=
  let '(first, last, step, _) := e in
  (first <=? c) && (c <=? last) && ((c - first) mod step =? 0).

(** The lowercase mapping of one character to one character. *)
Definition to_lower (c : N) : N :=
  match find (fun e => covers e c) lower_table with
  | Some (first, _, _, image) => image + (c - first)
  | None => c
  end.

(** The full lowercase mapping: U+0130 alone lowercases to two characters. *)
Definition to_lower_full (c : N) : list N :=
  if c =? 0x130 then [0x69; 0x307] else [to_lower c].

Definition is_word (c : N) : bool := in_ranges c word_ranges.
Definition is_cased (c : N) : bool := in_ranges c cased_ranges.
Definition is_case_ignorable (c : N) : bool := in_ranges c case_ignorable_ranges.
Definition is_space (c : N) : bool := in_ranges c space_ranges.

(** The first character of [s] that is not case-ignorable. *)
Fixpoint skip_ignorable (s : list N) : option N :=
  match s with
  | [] => None
  | c :: rest => if is_case_ignorable c then skip_ignorable rest else Some c
  end.

(** Whether a capital sigma stands in final position: the characters before
    it, nearest first, and the characters after it.  Before it, past any
    case-ignorable characters, stands a cased character; after it, past any
    case-ignorable characters, stands no cased character. *)
Definition final_sigma (before after : list N) : bool :=
  match skip_ignorable before with
  | Some c =>
      is_cased c &&
      match skip_ignorable after with
      | Some d => negb (is_cased d)
      | None => true
      end
  | None => false
  end.

(** [s.lower()], character by character; [before] holds the characters
    already passed, nearest first.  The capital sigma U+03A3 becomes the
    final sigma U+03C2 in final position and the small sigma U+03C3
    elsewhere. *)
Fixpoint lower_from (before s : list N) : list N :=
  match s with
  | [] => []
  | c :: rest =>
      (if c =? 0x3A3
       then [if final_sigma before rest then 0x3C2 else 0x3C3]
       else to_lower_full c)
      ++ lower_from (c :: before) rest
  end.

Definition lower (s : list N) : list N := lower_from [] s.

(** [normalize_word]: [re.sub(r"[^\w]", "", word.lower())]. *)
Definition normalize_word (word : list N) : list N :=
  filter is_word (lower word).

(** [s.strip()] *)
Fixpoint lstrip (s : list N) : list N :=
  match s with
  | [] => []
  | c :: rest => if is_space c then lstrip rest else s
  end.

Definition rstrip (s : list N) : list N := rev (lstrip (rev s)).

Definition strip (s : list N) : list N := rstrip (lstrip s).

(** The characters of a string of the ASCII model. *)
Definition of_string (s : string) : list N :=
  map N_of_ascii (list_ascii_of_string s).

End Unicode.

(** ** Python floats *)

Module PyFloat.

(** [x >= y] *)
Definition ge (x y : float) : bool := (y <=? x)%float.

(** [n / d] rounded to the nearest integer, ties to the even one ([d > 0]). *)
Definition half_even (n d : Z) : Z :=
  let fl := (n / d)%Z in
  let r := (n mod d)%Z in
  if (2 * r <? d)%Z then fl
  else if (d <? 2 * r)%Z then (fl + 1)%Z
  else if Z.even fl then fl else (fl + 1)%Z.

(** The magnitude [m * 2^e], counted in hundredths and rounded half to even:
    the decimal digits that [round(x, 2)] keeps. *)
Definition hundredths (m : positive) (e : Z) : Z :=
  half_even (Z.pos m * 100 * 2 ^ Z.max e 0) (2 ^ Z.max (- e) 0).

(** The double nearest to [n / 100], with sign [s]. *)
Definition of_hundredths (s : bool) (n : Z) : float :=
  match n with
  | Z.pos p => SF2Prim (SFdiv prec emax (S754_finite s p 0) (S754_finite false 100 0))
  | _ => SF2Prim (S754_zero s)
  end.

(** [round(x, 2)]: the exact value of [x] is rounded to two decimals, ties
    to even, and the double nearest to that decimal is returned with the sign
    of [x]; zeros, infinities and NaN round to themselves. *)
Definition round2 (x : float) : float :=
  match Prim2SF x with
  | S754_finite s m e => of_hundredths s (hundredths m e)
  | _ => x
  end.

(** [f"{x:.2f}"]: the same decimal digits, written out. *)
Definition fmt_2f (x : float) : string :=
  let sign (s : bool) : string := if s then "-"%string else EmptyString in
  match Prim2SF x with
  | S754_zero s => (sign s ++ "0.00")%string
  | S754_infinity s => (sign s ++ "inf")%string
  | S754_nan => "nan"%string
  | S754_finite s m e =>
      let n := hundredths m e in
      (sign s ++ NilZero.string_of_uint (N.to_uint (Z.to_N (n / 100))) ++ "."
       ++ PyStr.zfill 2 (PyStr.str_nat (Z.to_nat (n mod 100))))%string
  end.

End PyFloat.

(** ** Outcomes of Python calls and the output log *)

Inductive exn : Type :=
| IndexError
| KeyError
| OSError
| JSONDecodeError
| UnicodeDecodeError
| SystemExit (status : nat).

Inductive outcome (A : Type) : Type :=
| Returned (a : A)
| Raised (e : exn).

Arguments Returned {A} a.
Arguments Raised {A} e.

Inductive event : Type :=
| Stdout (line : string)
| Stderr (line : string).

(** A statement sequence: it reads the log written so far and gives the
    extended log with its outcome. *)
Definition Py (A : Type) : Type := list event -> list event * outcome A.

Definition ret {A} (a : A) : Py A := fun log => (log, Returned a).

Definition bind {A B} (m : Py A) (k : A -> Py B) : Py B :=
  fun log =>
    match m log with
    | (log', Returned a) => k a log'
    | (log', Raised e) => (log', Raised e)
    end.

Definition raise {A} (e : exn) : Py A := fun log => (log, Raised e).

Definition lift {A} (o : outcome A) : Py A :=
  match o with
  | Returned a => ret a
  | Raised e => raise e
  end.

(** [print(s)] and [print(s, file=sys.stderr)] *)
Definition print (s : string) : Py unit := fun log => (log ++ [Stdout s], Returned tt).
Definition eprint (s : string) : Py unit := fun log => (log ++ [Stderr s], Returned tt).

(** [sys.exit(status)] *)
Definition sys_exit {A} (status : nat) : Py A := raise (SystemExit status).

Declare Scope py_scope.
Delimit Scope py_scope with py.
Notation "x <- m ;; k" := (bind m (fun x => k))
  (at level 61, m at next level, right associativity) : py_scope.
Notation "m ;; k" := (bind m (fun _ => k))
  (at level 61, right associativity) : py_scope.

(** ** Data model *)

(** One entry of the flattened transcript: [{"word", "start", "end"}]. *)
Record TranscriptWord : Type := mkWord {
  word : string;
  start : float;
  end_ : float
}.

(** One scene boundary.  The scene loop creates the dictionary without
    ["duration_seconds"]; the duration pass adds that key. *)
Record Boundary : Type := mkBoundary {
  number : nat;
  slug : string;
  start_seconds : float;
  opening_phrase : string;
  duration_seconds : option float
}.

Definition set_duration (b : Boundary) (d : float) : Boundary :=
  {| number := number b;
     slug := slug b;
     start_seconds := start_seconds b;
     opening_phrase := opening_phrase b;
     duration_seconds := Some d |}.

(** ** TranscriptLoader and SceneOpeningExtractor *)

(** The transcript JSON after [json.load].  A key that a dictionary may lack
    is an [option]: [None] is the absent key. *)
Record WordEntry : Type := mkEntry {
  json_word : option string;
  json_start : option float;
  json_end : option float
}.

Record Segment : Type := mkSegment {
  segment_words : option (list WordEntry)
}.

Record TranscriptData : Type := mkData {
  segments : option (list Segment)
}.

(** [d.get(key, [])] *)
Definition get_list {A : Type} (v : option (list A)) : list A :=
  match v with
  | Some l => l
  | None => []
  end.

(** The inner loop of [load_transcript]: [w["word"]], [w["start"]] and
    [w["end"]] raise [KeyError] on an absent key. *)
Fixpoint load_words (entries : list WordEntry) (words : list TranscriptWord)
    : outcome (list TranscriptWord) :=
  match entries with
  | [] => Returned words
  | w :: rest =>
      match json_word w with
      | None => Raised KeyError
      | Some text =>
          match json_start w with
          | None => Raised KeyError
          | Some s =>
              match json_end w with
              | None => Raised KeyError
              | Some e => load_words rest (words ++ [mkWord (PyStr.strip text) s e])
              end
          end
      end
  end.

Fixpoint load_segments (segs : list Segment) (words : list TranscriptWord)
    : outcome (list TranscriptWord) :=
  match segs with
  | [] => Returned words
  | seg :: rest =>
      match load_words (get_list (segment_words seg)) words with
      | Raised e => Raised e
      | Returned words' => load_segments rest words'
      end
  end.

(** [load_transcript], on the parsed JSON. *)
Definition load_transcript (data : TranscriptData) : outcome (list TranscriptWord) :=
  load_segments (get_list (segments data)) [].

(** The loop of [get_scene_opening_phrases] over
    [sorted(scenes_dir.glob("*.txt"))], each file given by its stem and its
    text. *)
Fixpoint opening_phrases_loop (scene_files : list (string * string))
    (phrases : list (string * string)) : list (string * string) :=
  match scene_files with
  | [] => phrases
  | (stem, file_text) :: rest =>
      let text := PyStr.strip file_text in
      let words := firstn 5 (PyStr.split text) in
      let phrase := PyStr.join " " words in
      opening_phrases_loop rest (phrases ++ [(stem, phrase)])
  end.

Definition get_scene_opening_phrases (scene_files : list (string * string))
    : list (string * string) :=
  opening_phrases_loop scene_files [].

(** ** PhraseMatcher *)

(** [normalize_word]: [re.sub(r"[^\w]", "", word.lower())]. *)
Definition normalize_word (w : string) : string :=
  PyStr.sfilter PyStr.is_word_char (PyStr.lower w).

(** The inner loop of [find_phrase_in_transcript] at candidate [i]: [k] is
    the transcript index [i + j] of the phrase word being compared.  The
    loop leaves with [match = False] at the first failing word. *)
Fixpoint phrase_matches_at (phrase_normalized : list string)
    (words : list TranscriptWord) (k : nat) : outcome bool :=
  match phrase_normalized with
  | [] => Returned true
  | pw :: rest =>
      match nth_error words k with
      | None => Raised IndexError
      | Some w =>
          let transcript_word := normalize_word (word w) in
          if PyStr.startswith transcript_word (PyStr.take 3 pw)
          then phrase_matches_at rest words (S k)
          else Returned false
      end
  end.

(** The outer loop: [count] candidates remain, the next one is [i]. *)
Fixpoint scan_transcript (phrase_normalized : list string)
    (words : list TranscriptWord) (i count : nat) : outcome (option float) :=
  match count with
  | O => Returned None
  | S count' =>
      match phrase_matches_at phrase_normalized words i with
      | Raised e => Raised e
      | Returned true =>
          match nth_error words i with
          | Some w => Returned (Some (start w))
          | None => Raised IndexError
          end
      | Returned false => scan_transcript phrase_normalized words (S i) count'
      end
  end.

(** Number of values of [range(lo, hi)]. *)
Definition range_count (lo hi : Z) : nat := Z.to_nat (hi - lo).

(** [start_from] is an index into [words]: the callers pass 0 or an index
    given by [enumerate(words)], so it is a [nat]. *)
Definition find_phrase_in_transcript (phrase : string)
    (words : list TranscriptWord) (start_from : nat) : outcome (option float) :=
  let phrase_words := PyStr.split phrase in
  let phrase_normalized := map normalize_word phrase_words in
  scan_transcript phrase_normalized words start_from
    (range_count (Z.of_nat start_from)
       (Z.of_nat (List.length words) - Z.of_nat (List.length phrase_normalized) + 1)).

(** ** BoundaryAssembler *)

(** [next((j for j, w in enumerate(words) if p(w)), default)] *)
Fixpoint first_index (p : TranscriptWord -> bool) (words : list TranscriptWord)
    (j : nat) : option nat :=
  match words with
  | [] => None
  | w :: rest => if p w then Some j else first_index p rest (S j)
  end.

Definition next_search_from (words : list TranscriptWord) (start_time : float)
    (search_from : nat) : nat :=
  match first_index (fun w => PyFloat.ge (start w) (start_time + 1)) words 0 with
  | Some j => j
  | None => search_from
  end.

Definition warning (slug phrase : string) : string :=
  ("Warning: Could not find scene '" ++ slug ++ "' starting with '" ++ phrase ++ "'")%string.

(** The variables of the scene loop. *)
Record loop_state : Type := mkState {
  boundaries : list Boundary;
  last_end : float;
  search_from : nat
}.

Definition initial_state : loop_state :=
  {| boundaries := []; last_end := 0; search_from := 0%nat |}.

Open Scope py_scope.

(** The body of the scene loop for the [i]-th pair [(slug, phrase)]. *)
Definition scene_step (words : list TranscriptWord) (i : nat)
    (scene : string * string) (st : loop_state) : Py loop_state :=
  let (slug, phrase) := scene in
  found <- lift (find_phrase_in_transcript phrase words (search_from st)) ;;
  upd <- match found with
         | None =>
             eprint (warning slug phrase) ;;
             ret (last_end st, search_from st)
         | Some start_time =>
             ret (start_time, next_search_from words start_time (search_from st))
         end ;;
  let (start_time, search_from') := upd : float * nat in
  ret {| boundaries :=
           boundaries st ++
             [ {| number := i + 1;
                  slug := slug;
                  start_seconds := start_time;
                  opening_phrase := phrase;
                  duration_seconds := None |} ];
         last_end := start_time;
         search_from := search_from' |}.

(** [for i, (slug, phrase) in enumerate(phrases)], from index [i] on. *)
Fixpoint scene_loop (words : list TranscriptWord) (i : nat)
    (phrases : list (string * string)) (st : loop_state) : Py loop_state :=
  match phrases with
  | [] => ret st
  | scene :: rest =>
      st' <- scene_step words i scene st ;;
      scene_loop words (S i) rest st'
  end.

(** [words[-1]["end"] if words else 0] *)
Definition total_duration (words : list TranscriptWord) : float :=
  last (map end_ words) 0%float.

(** The duration pass: boundary [i] looks at boundary [i + 1], the last one
    at [total]. *)
Fixpoint calculate_durations (total : float) (bs : list Boundary) : list Boundary :=
  match bs with
  | [] => []
  | b :: rest =>
      set_duration b
        (PyFloat.round2 (match rest with
                 | next_b :: _ => start_seconds next_b - start_seconds b
                 | [] => total - start_seconds b
                 end))
      :: calculate_durations total rest
  end.

(** [extract_boundaries], given what [load_transcript] and
    [get_scene_opening_phrases] read from the two paths. *)
Definition extract_boundaries (words : list TranscriptWord)
    (phrases : list (string * string)) : Py (list Boundary) :=
  match words with
  | [] => eprint "Error: No words found in transcript" ;; sys_exit 1
  | _ :: _ =>
      match phrases with
      | [] => eprint "Error: No scene files found" ;; sys_exit 1
      | _ :: _ =>
          st <- scene_loop words 0 phrases initial_state ;;
          ret (calculate_durations (total_duration words) (boundaries st))
      end
  end.

(** ** Formatter and command line *)

Definition newline : string := String (ascii_of_nat 10) EmptyString.

(** [sum(b["duration_seconds"] for b in boundaries)], from accumulator [acc]. *)
Fixpoint sum_durations (acc : float) (bs : list Boundary) : outcome float :=
  match bs with
  | [] => Returned acc
  | b :: rest =>
      match duration_seconds b with
      | None => Raised KeyError
      | Some d => sum_durations (acc + d) rest
      end
  end.

(** The command line after [argparse]; the two paths are already resolved. *)
Record Args : Type := mkArgs {
  scenes_dir : string;
  transcript : string;
  json : bool;
  typescript : bool
}.

(** What the run finds on disk: whether the two paths exist; the outcome of
    [open] and [json.load] on the transcript, the parsed JSON or the
    exception raised; and the outcome of reading the [*.txt] files of the
    scenes directory in sorted order, the stem and the text of each file or
    the exception raised by the first file that cannot be read. *)
Record Files : Type := mkFiles {
  scenes_dir_exists : bool;
  transcript_exists : bool;
  transcript_json : outcome TranscriptData;
  scene_files : outcome (list (string * string))
}.

Open Scope py_scope.

(** [extract_boundaries(scenes_dir, transcript_path)] on the files: the two
    loads, in the order of the source, then the rest of the function. *)
Definition extract_boundaries_files (files : Files) : Py (list Boundary) :=
  data <- lift (transcript_json files) ;;
  words <- lift (load_transcript data) ;;
  texts <- lift (scene_files files) ;;
  extract_boundaries words (get_scene_opening_phrases texts).

Section Formatter.

(** Python's rendering of a number, [f"{x}"] and [f"{x:.2f}"], and the two
    renderings [json.dumps(boundaries, indent=2)] and [format_table]. *)
Variable str_number : float -> string.
Variable fmt_2f : float -> string.
Variable format_json : list Boundary -> string.
Variable format_table : list Boundary -> float -> string.

(** The numbered prefix and the name parts of a slug:
    ["01-kitchen-opening"] gives [("01", ["kitchen"; "opening"])]. *)
Definition slug_parts (b : Boundary) : outcome (string * list string) :=
  let parts := PyStr.split_on "-"%char EmptyString (slug b) in
  match parts with
  | [] => Raised IndexError
  | p0 :: rest =>
      if PyStr.isdigit p0
      then Returned (p0, rest)
      else Returned (PyStr.zfill 2 (PyStr.str_nat (number b)), parts)
  end.

Definition component_name (num : string) (name_parts : list string) : string :=
  ("Scene" ++ num ++ PyStr.join EmptyString (map PyStr.title name_parts))%string.

(** The six lines that [format_typescript] appends for one boundary. *)
Definition typescript_entry (b : Boundary) : outcome (list string) :=
  match slug_parts b with
  | Raised e => Raised e
  | Returned (num, name_parts) =>
      match duration_seconds b with
      | None => Raised KeyError
      | Some d =>
          Returned
            [ "  {";
              "    number: " ++ PyStr.str_nat (number b) ++ ",";
              "    slug: '" ++ PyStr.join "-" name_parts ++ "',";
              "    durationSeconds: " ++ str_number d ++ ",  // "
                ++ fmt_2f (start_seconds b) ++ "s - "
                ++ fmt_2f (start_seconds b + d) ++ "s";
              "    component: " ++ component_name num name_parts ++ ",";
              "  }," ]%string
      end
  end.

Fixpoint typescript_entries (bs : list Boundary) : outcome (list string) :=
  match bs with
  | [] => Returned []
  | b :: rest =>
      match typescript_entry b with
      | Raised e => Raised e
      | Returned ls =>
          match typescript_entries rest with
          | Raised e => Raised e
          | Returned ls' => Returned (ls ++ ls')
          end
      end
  end.

Definition typescript_header : list string :=
  [ "// Scene timing data (at 30fps)";
    "// Timings extracted from full-narration.wav transcript";
    "const FPS = 30;";
    "const scenes = [" ]%string.

Definition format_typescript_lines (bs : list Boundary) : outcome (list string) :=
  match typescript_entries bs with
  | Raised e => Raised e
  | Returned ls => Returned (typescript_header ++ ls ++ ["];"%string])
  end.

Definition format_typescript (bs : list Boundary) : outcome string :=
  match format_typescript_lines bs with
  | Raised e => Raised e
  | Returned lines => Returned (PyStr.join newline lines)
  end.

(** [main], after argument parsing. *)
Definition main (args : Args) (files : Files) : Py unit :=
  if negb (scenes_dir_exists files) then
    eprint ("Error: Scenes directory not found: " ++ scenes_dir args) ;;
    sys_exit 1
  else if negb (transcript_exists files) then
    eprint ("Error: Transcript not found: " ++ transcript args) ;;
    sys_exit 1
  else
    bs <- extract_boundaries_files files ;;
    total <- lift (sum_durations 0 bs) ;;
    if json args then
      print (format_json bs)
    else if typescript args then
      text <- lift (format_typescript bs) ;;
      print text
    else
      print (format_table bs total).

End Formatter.

Close Scope py_scope.

(** ** The matching rule, as the specification words it *)

(** [s] starts with [p]. *)
Definition starts_with (s p : string) : Prop :=
  exists rest, s = (p ++ rest)%string.

(** The first 3 characters of a token, or the whole token if it is shorter. *)
Definition first3 (tok : string) : string :=
  if (String.length tok <? 3)%nat then tok else substring 0 3 tok.

(** The normalized tokens of a phrase. *)
Definition phrase_tokens (phrase : string) : list string :=
  map normalize_word (PyStr.split phrase).

(** The prefix rule for a list of normalized tokens at candidate index [i]. *)
Definition tokens_match (toks : list string) (words : list TranscriptWord)
    (i : nat) : Prop :=
  forall j tok, nth_error toks j = Some tok ->
    exists w, nth_error words (i + j) = Some w /\
              starts_with (normalize_word (word w)) (first3 tok).

Definition prefix_rule (phrase : string) (words : list TranscriptWord)
    (i : nat) : Prop :=
  tokens_match (phrase_tokens phrase) words i.

(** [i] lies in [[cursor, len(words) - phraseLength]]; the upper bound is
    written with [+] because the difference can be negative. *)
Definition in_search_range (phrase : string) (words : list TranscriptWord)
    (cursor i : nat) : Prop :=
  (cursor <= i /\ i + List.length (phrase_tokens phrase) <= List.length words)%nat.

(** [i] is the smallest index of the search range that satisfies the rule. *)
Definition first_match (phrase : string) (words : list TranscriptWord)
    (cursor i : nat) : Prop :=
  in_search_range phrase words cursor i /\
  prefix_rule phrase words i /\
  forall k, in_search_range phrase words cursor k ->
            prefix_rule phrase words k -> (i <= k)%nat.

(** The tokens equal, one for one, the normalized transcript words from
    index [k] on. *)
Definition exact_run (phrase : string) (words : list TranscriptWord)
    (k : nat) : Prop :=
  forall j tok, nth_error (phrase_tokens phrase) j = Some tok ->
    exists w, nth_error words (k + j) = Some w /\ normalize_word (word w) = tok.

(** Two boundaries that differ at most in their number: the one of the
    left run counts [d] more scenes before it. *)
Definition renumbered (d : nat) (b b' : Boundary) : Prop :=
  number b = (number b' + d)%nat /\
  slug b = slug b' /\
  start_seconds b = start_seconds b' /\
  opening_phrase b = opening_phrase b' /\
  duration_seconds b = duration_seconds b'.

(** [b] and [b'] are the boundary of one scene in two runs: the same slug,
    start and phrase, the number [d] further; the durations may differ. *)
Definition same_scene (d : nat) (b b' : Boundary) : Prop :=
  number b = (number b' + d)%nat /\
  slug b = slug b' /\
  start_seconds b = start_seconds b' /\
  opening_phrase b = opening_phrase b'.

(** [last_end] is the start of the last boundary appended so far. *)
Definition last_end_tracks (st : loop_state) : Prop :=
  last_end st = last (map start_seconds (boundaries st)) 0%float.

(** An identifier of the generated code: a letter, [_] or [$], followed by
    letters, digits, [_] or [$]. *)
Definition identifier_start (c : ascii) : bool :=
  PyStr.is_alpha c || (PyStr.code c =? 95)%nat || (PyStr.code c =? 36)%nat.

Definition is_identifier (s : string) : bool :=
  match s with
  | EmptyString => false
  | String c rest =>
      identifier_start c &&
      PyStr.sforall (fun x => identifier_start x || PyStr.is_digit x) rest
  end.

(** The lines of a log that went to stdout. *)
Fixpoint stdout_lines (log : list event) : list string :=
  match log with
  | [] => []
  | Stdout s :: rest => s :: stdout_lines rest
  | Stderr _ :: rest => stdout_lines rest
  end.

(** ** The table rendering *)

Module Table.

(** [s.ljust(width)] and [s.rjust(width)]: what the format specs [:<w] and
    [:>w] do to a rendered field. *)
Definition ljust (width : nat) (s : string) : string :=
  (s ++ PyStr.repeat_char " " (width - String.length s))%string.

Definition rjust (width : nat) (s : string) : string :=
  (PyStr.repeat_char " " (width - String.length s) ++ s)%string.

Section Table.

(** Python's [f"{x:.2f}"]. *)
Variable fmt_2f : float -> string.

Definition header_line : string :=
  (ljust 4 "#" ++ " " ++ ljust 30 "Slug" ++ " " ++ rjust 8 "Start" ++ " "
   ++ rjust 10 "Duration")%string.

(** The line of one boundary; [b['duration_seconds']] raises [KeyError] when
    the key is absent. *)
Definition table_row (b : Boundary) : outcome string :=
  match duration_seconds b with
  | None => Raised KeyError
  | Some d =>
      Returned (ljust 4 (PyStr.str_nat (number b)) ++ " "
                ++ ljust 30 (slug b) ++ " "
                ++ rjust 7 (fmt_2f (start_seconds b)) ++ "s "
                ++ rjust 9 (fmt_2f d) ++ "s")%string
  end.

Fixpoint table_rows (bs : list Boundary) : outcome (list string) :=
  match bs with
  | [] => Returned []
  | b :: rest =>
      match table_row b with
      | Raised e => Raised e
      | Returned row =>
          match table_rows rest with
          | Raised e => Raised e
          | Returned rows => Returned (row :: rows)
          end
      end
  end.

Definition format_table_lines (bs : list Boundary) (total_duration : float)
    : outcome (list string) :=
  match table_rows bs with
  | Raised e => Raised e
  | Returned rows =>
      Returned
        ([ "Scene Boundaries"%string;
           PyStr.repeat_char "=" 60;
           header_line;
           PyStr.repeat_char "-" 60 ]
         ++ rows
         ++ [ PyStr.repeat_char "-" 60;
              (ljust 35 "Total" ++ " " ++ rjust 18 (fmt_2f total_duration) ++ "s")%string ])
  end.

Definition format_table (bs : list Boundary) (total_duration : float) : outcome string :=
  match format_table_lines bs total_duration with
  | Raised e => Raised e
  | Returned lines => Returned (PyStr.join newline lines)
  end.

End Table.

End Table.

(** ** Notions used by the further properties *)

(** A character that lowercasing leaves alone, whatever stands around it. *)
Definition stable (c : N) : bool :=
  negb (c =? 0x3A3)%N && negb (c =? 0x130)%N && (Unicode.to_lower c =? c)%N.

(** The images of the characters of an entry of the lowercase table. *)
Definition entry_images (e : N * N * N * N) : list N :=
  let '(first, last, step, image) := e in
  map (fun k => (image + N.of_nat k * step)%N)
    (seq 0 (S (N.to_nat ((last - first) / step)))).

Definition entry_ok (e : N * N * N * N) : bool :=
  let '(_, _, step, _) := e in
  (0 <? step)%N && forallb stable (entry_images e).

(** The characters of a list of ranges, one by one. *)
Definition range_chars (ranges : list (N * N)) : list N :=
  flat_map (fun r => map (fun k => (fst r + N.of_nat k)%N)
                       (seq 0 (S (N.to_nat (snd r - fst r))))) ranges.

(** The ASCII characters. *)
Definition ascii_chars : list N := map N.of_nat (seq 0 128).

(** A lowercase letter, a digit or the underscore. *)
Definition is_lower_digit_underscore (c : N) : bool :=
  ((0x61 <=? c) && (c <=? 0x7A) || (0x30 <=? c) && (c <=? 0x39) || (c =? 0x5F))%N.

(** After the characters [before], nearest first, a capital sigma has a cased
    character before it. *)
Definition cased_before (before : list N) : bool :=
  match Unicode.skip_ignorable before with
  | Some c => Unicode.is_cased c
  | None => false
  end.

(** Before the characters [after] a capital sigma has no cased character
    after it. *)
Definition uncased_after (after : list N) : bool :=
  match Unicode.skip_ignorable after with
  | Some d => negb (Unicode.is_cased d)
  | None => true
  end.

(** What counts about a white-space character. *)
Definition plain_space (c : N) : bool :=
  negb (Unicode.is_word c) && negb (Unicode.is_case_ignorable c)
  && negb (Unicode.is_cased c) && stable c.

(** A string of the ASCII model whose characters all lie below 128. *)
Definition ascii_only (s : string) : Prop :=
  PyStr.sforall (fun c => (PyStr.code c <? 128)%nat) s = true.





(** A token: not empty and free of white space. *)
Definition is_token (t : string) : Prop :=
  t <> EmptyString /\ PyStr.sforall (fun c => negb (PyStr.is_space c)) t = true.

(** The starts of the transcript words never decrease. *)
Definition time_ordered (words : list TranscriptWord) : Prop :=
  forall i j wi wj,
    (i <= j)%nat -> nth_error words i = Some wi -> nth_error words j = Some wj ->
    (start wi <=? start wj)%float = true.

(** Adding one second to the start of a word gives a later time; so it is
    for every double below 2^53. *)
Definition second_counts (words : list TranscriptWord) : Prop :=
  forall w, In w words -> (start w + 1 <=? start w)%float = false.

(** The word starts are finite numbers: no infinity and no NaN. *)
Definition finite_starts (words : list TranscriptWord) : Prop :=
  forall w, In w words -> is_finite (start w) = true.


(** [l] is [l'] with some elements left out: the same order, no element
    twice. *)
Inductive subsequence {A : Type} : list A -> list A -> Prop :=
| subsequence_empty : subsequence [] []
| subsequence_skip (x : A) (l l' : list A) :
    subsequence l l' -> subsequence l (x :: l')
| subsequence_keep (x : A) (l l' : list A) :
    subsequence l l' -> subsequence (x :: l) (x :: l').

(** The log entry of the warning for a scene. *)
Definition warning_event (scene : string * string) : event :=
  Stderr (warning (fst scene) (snd scene)).

(** The start of a boundary is 0 or the start of a transcript word. *)
Definition known_start (words : list TranscriptWord) (q : float) : Prop :=
  q = 0%float \/ exists w, In w words /\ q = start w.

Definition is_alnum (c : ascii) : bool := PyStr.is_alpha c || PyStr.is_digit c.

(** No character of [s] is a dash. *)
Definition dash_free (s : string) : Prop :=
  PyStr.sforall (fun c => negb (Ascii.eqb c "-")) s = true.

(** ** Scenarios *)

Module Scenario.

Open Scope string_scope.

(** The transcript of the specification's concrete scenario. *)
Definition kitchen_words : list TranscriptWord :=
  [ mkWord "The" 0 0.2;
    mkWord "kitchen" 0.2 0.6;
    mkWord "was" 0.6 0.8;
    mkWord "quiet" 0.8 1.2;
    mkWord "Outside" 5 5.4;
    mkWord "the" 5.4 5.5;
    mkWord "rain" 5.5 5.9;
    mkWord "fell" 5.9 6.3 ].

Definition kitchen_scene : string * string := ("01-kitchen", "The kitchen was quiet").
Definition thunder_scene : string * string := ("02-thunder", "Suddenly a thunderclap").
Definition rain_scene : string * string := ("03-rain", "Outside the rain fell").

(** The same run from the files: the transcript JSON, whose word texts carry
    the leading blank that the recognizer emits, and the two scene files. *)
Definition kitchen_json : TranscriptData :=
  mkData (Some
    [ mkSegment (Some [ mkEntry (Some " The") (Some 0%float) (Some 0.2%float);
                        mkEntry (Some " kitchen") (Some 0.2%float) (Some 0.6%float);
                        mkEntry (Some " was") (Some 0.6%float) (Some 0.8%float);
                        mkEntry (Some " quiet") (Some 0.8%float) (Some 1.2%float) ]);
      mkSegment (Some [ mkEntry (Some " Outside") (Some 5%float) (Some 5.4%float);
                        mkEntry (Some " the") (Some 5.4%float) (Some 5.5%float);
                        mkEntry (Some " rain") (Some 5.5%float) (Some 5.9%float);
                        mkEntry (Some " fell") (Some 5.9%float) (Some 6.3%float) ]) ]).

Definition kitchen_texts : list (string * string) :=
  [ ("01-kitchen", "The kitchen was quiet" ++ newline);
    ("03-rain", "Outside the rain fell" ++ newline) ].

Definition kitchen_files : Files :=
  mkFiles true true (Returned kitchen_json) (Returned kitchen_texts).

(** A transcript in which two words that merely share three-letter prefixes
    with the phrase ["the cat"] come before the words of the phrase. *)
Definition cattle_words : list TranscriptWord :=
  [ mkWord "there" 0 0.25;
    mkWord "cattle" 0.5 0.75;
    mkWord "the" 1 1.25;
    mkWord "cat" 1.5 1.75 ].

(** Two scenes 0.0625 s apart. *)
Definition close_words : list TranscriptWord :=
  [ mkWord "alpha" 0 0.03125; mkWord "beta" 0.0625 0.5 ].
Definition close_scenes : list (string * string) :=
  [ ("01-a", "alpha"); ("02-b", "beta") ].

(** A narration that begins 2 s into the audio. *)
Definition late_words : list TranscriptWord := [ mkWord "Hello" 2 2.5 ].
Definition late_scenes : list (string * string) := [ ("01-intro", "Hello") ].

(** Four scenes, each 1.00390625 s long. *)
Definition drift_words : list TranscriptWord :=
  [ mkWord "one" 0 0.5;
    mkWord "two" 1.00390625 1.5;
    mkWord "three" 2.0078125 2.5;
    mkWord "four" 3.01171875 4.015625 ].
Definition drift_scenes : list (string * string) :=
  [ ("01-a", "one"); ("02-b", "two"); ("03-c", "three"); ("04-d", "four") ].

(** A boundary whose slug has a space and an exclamation mark. *)
Definition shouting_boundary : Boundary :=
  mkBoundary 1 "my scene!" 0 "My scene" (Some 5%float).

(** Stand-ins for the renderings that the model leaves open, to run [main]
    and [format_typescript] on examples: every number is shown with two
    decimals. *)
Definition show_json (bs : list Boundary) : string :=
  "[" ++ PyStr.join ", " (map slug bs) ++ "]".
Definition show_table (bs : list Boundary) (total : float) : string :=
  PyStr.join " " (map slug bs) ++ " " ++ PyFloat.fmt_2f total.

End Scenario.

Module Scenario2.

Open Scope string_scope.



Definition numbered_boundary : Boundary :=
  mkBoundary 2 "02-kitchen-opening" 5 "Outside the rain fell" (Some 1.3%float).

(** The loop state after the kitchen scene has been matched. *)
Definition after_kitchen : loop_state :=
  mkState [mkBoundary 1 "01-kitchen" 0 "The kitchen was quiet" None] 0 4.

End Scenario2.

(** A check that the starts of a transcript never decrease, from [t] on. *)
Fixpoint starts_ordered_from (t : float) (words : list TranscriptWord) : bool :=
  match words with
  | [] => true
  | w :: rest => (t <=? start w)%float && starts_ordered_from (start w) rest
  end.

(** * Properties *)

(** ** Strings *)

Lemma take3_first3 (tok : string) : PyStr.take 3 tok = first3 tok.
Proof.
  unfold first3.
  destruct tok as [|a [|b [|c t]]]; try reflexivity.
  simpl. destruct t; reflexivity.
Qed.

Lemma startswith_iff (s p : string) :
  PyStr.startswith s p = true <-> starts_with s p.
Proof.
  revert s. induction p as [|a p IH]; intros s; simpl.
  - split; [intros _; exists s; reflexivity | reflexivity].
  - destruct s as [|b s].
    + split; [discriminate | intros [rest H]; discriminate].
    + rewrite andb_true_iff, Ascii.eqb_eq, IH. split.
      * intros [-> [rest ->]]. exists rest. reflexivity.
      * intros [rest H]. simpl in H. injection H as -> ->.
        split; [reflexivity | exists rest; reflexivity].
Qed.

Lemma startswith_take (n : nat) (s : string) :
  PyStr.startswith s (PyStr.take n s) = true.
Proof.
  revert n. induction s as [|a s IH]; intros [|n]; simpl; try reflexivity.
  now rewrite Ascii.eqb_refl, IH.
Qed.

(** *** Lowercasing and normalization of Unicode strings *)

(** Every image of the lowercase table is stable: checked entry by entry. *)
Lemma lower_table_ok : forallb entry_ok Unicode.lower_table = true.
Proof. vm_compute. reflexivity. Qed.

Lemma covers_image (first last step image c : N) :
  (0 < step)%N ->
  Unicode.covers (first, last, step, image) c = true ->
  In (image + (c - first))%N (entry_images (first, last, step, image)).
Proof.
  intros Hstep Hc. unfold Unicode.covers in Hc.
  apply andb_true_iff in Hc. destruct Hc as [Hc Hmod].
  apply andb_true_iff in Hc. destruct Hc as [Hlo Hhi].
  apply N.leb_le in Hlo, Hhi. apply N.eqb_eq in Hmod.
  unfold entry_images. apply in_map_iff.
  exists (N.to_nat ((c - first) / step)). split.
  - rewrite N2Nat.id. f_equal.
    rewrite N.mul_comm. symmetry. apply N.Div0.div_exact. exact Hmod.
  - apply in_seq. split; [apply Nat.le_0_l|]. simpl.
    assert (Hle : ((c - first) / step <= (last - first) / step)%N)
      by (apply N.Div0.div_le_mono; lia).
    revert Hle. generalize ((c - first) / step)%N ((last - first) / step)%N.
    intros a b Hle. lia.
Qed.

Lemma to_lower_stable (c : N) : c <> 0x130%N -> stable (Unicode.to_lower c) = true.
Proof.
  intros H130. unfold Unicode.to_lower.
  destruct (find (fun e => Unicode.covers e c) Unicode.lower_table)
    as [[[[first last] step] image]|] eqn:Hfind.
  - apply find_some in Hfind. destruct Hfind as [Hin Hc].
    pose proof lower_table_ok as Hok.
    rewrite forallb_forall in Hok. specialize (Hok _ Hin).
    cbn [entry_ok] in Hok. apply andb_true_iff in Hok. destruct Hok as [Hstep Himg].
    apply N.ltb_lt in Hstep.
    rewrite forallb_forall in Himg. apply Himg. now apply covers_image.
  - unfold stable.
    assert (Hsame : Unicode.to_lower c = c) by (unfold Unicode.to_lower; now rewrite Hfind).
    rewrite Hsame, N.eqb_refl.
    destruct (N.eqb_spec c 0x3A3) as [->|_]; [vm_compute in Hfind; discriminate Hfind|].
    destruct (N.eqb_spec c 0x130) as [->|_]; [congruence | reflexivity].
Qed.

Lemma to_lower_full_stable (c : N) : forallb stable (Unicode.to_lower_full c) = true.
Proof.
  unfold Unicode.to_lower_full.
  destruct (N.eqb_spec c 0x130) as [->|Hc]; [vm_compute; reflexivity|].
  cbn [forallb]. now rewrite to_lower_stable.
Qed.

Lemma forallb_app_true {A : Type} (p : A -> bool) (l1 l2 : list A) :
  forallb p l1 = true -> forallb p l2 = true -> forallb p (l1 ++ l2) = true.
Proof. intros H1 H2. rewrite forallb_app, H1, H2. reflexivity. Qed.

(** Every character of a lowercased string is stable. *)
Lemma lower_from_stable (s : list N) :
  forall before, forallb stable (Unicode.lower_from before s) = true.
Proof.
  induction s as [|c rest IH]; intros before; [reflexivity|].
  cbn [Unicode.lower_from]. apply forallb_app_true; [|apply IH].
  destruct (c =? 0x3A3)%N; [|apply to_lower_full_stable].
  destruct (Unicode.final_sigma before rest); vm_compute; reflexivity.
Qed.

(** Lowercasing changes nothing in a string of stable characters. *)
Lemma lower_from_fixed (s : list N) :
  forall before, forallb stable s = true -> Unicode.lower_from before s = s.
Proof.
  induction s as [|c rest IH]; intros before Hs; [reflexivity|].
  cbn [forallb] in Hs. apply andb_true_iff in Hs. destruct Hs as [Hc Hrest].
  cbn [Unicode.lower_from]. rewrite (IH _ Hrest).
  unfold stable in Hc.
  apply andb_true_iff in Hc. destruct Hc as [Hc Hlow].
  apply andb_true_iff in Hc. destruct Hc as [Hsigma Hdot].
  apply negb_true_iff in Hsigma, Hdot. apply N.eqb_eq in Hlow.
  rewrite Hsigma. unfold Unicode.to_lower_full. rewrite Hdot, Hlow. reflexivity.
Qed.

Lemma forallb_filter {A : Type} (p q : A -> bool) (l : list A) :
  forallb p l = true -> forallb p (filter q l) = true.
Proof.
  induction l as [|a l IH]; [reflexivity|].
  cbn [forallb filter]. intros H. apply andb_true_iff in H. destruct H as [Ha Hl].
  destruct (q a); [cbn [forallb]; rewrite Ha|]; now apply IH.
Qed.

Lemma filter_filter {A : Type} (p : A -> bool) (l : list A) :
  filter p (filter p l) = filter p l.
Proof.
  induction l as [|a l IH]; [reflexivity|].
  cbn [filter]. destruct (p a) eqn:E; [cbn [filter]; rewrite E; now f_equal | exact IH].
Qed.

(** C8. [normalize_word] is idempotent on every string: a normalized word
    normalizes to itself. *)
Theorem normalize_word_idempotent (x : list N) :
  Unicode.normalize_word (Unicode.normalize_word x) = Unicode.normalize_word x.
Proof.
  unfold Unicode.normalize_word, Unicode.lower.
  rewrite lower_from_fixed.
  - apply filter_filter.
  - apply forallb_filter, lower_from_stable.
Qed.

(** *** The ASCII model of [normalize_word] *)

Lemma ascii_char_refines (c : ascii) :
  (PyStr.code c <? 128)%nat = true ->
  (N_of_ascii c =? 0x3A3)%N = false /\
  Unicode.to_lower_full (N_of_ascii c) = [N_of_ascii (PyStr.lower_char c)] /\
  Unicode.is_word (N_of_ascii (PyStr.lower_char c)) =
    PyStr.is_word_char (PyStr.lower_char c).
Proof.
  destruct c as [[] [] [] [] [] [] [] []]; intros H; try discriminate H;
    vm_compute; repeat split; reflexivity.
Qed.

Lemma normalize_word_refines_from (s : string) :
  ascii_only s ->
  forall before,
    filter Unicode.is_word (Unicode.lower_from before (Unicode.of_string s)) =
    Unicode.of_string (normalize_word s).
Proof.
  unfold ascii_only, Unicode.of_string, normalize_word, PyStr.lower.
  induction s as [|c s IH]; intros Hs before; [reflexivity|].
  cbn [PyStr.sforall] in Hs. apply andb_true_iff in Hs. destruct Hs as [Hc Hs].
  destruct (ascii_char_refines c Hc) as (Hsigma & Hlow & Hword).
  cbn [list_ascii_of_string map Unicode.lower_from PyStr.smap PyStr.sfilter].
  rewrite Hsigma, Hlow. cbn [app filter]. rewrite Hword, (IH Hs).
  destruct (PyStr.is_word_char (PyStr.lower_char c)); reflexivity.
Qed.

(** On the strings of the ASCII model, [normalize_word] is the
    [normalize_word] of Unicode strings. *)
Lemma normalize_word_refines (s : string) :
  ascii_only s ->
  Unicode.normalize_word (Unicode.of_string s) = Unicode.of_string (normalize_word s).
Proof. intros Hs. now apply normalize_word_refines_from. Qed.

(** ** PhraseMatcher *)

Lemma tokens_match_nil (words : list TranscriptWord) (k : nat) :
  tokens_match [] words k.
Proof. intros [|j] tok H; discriminate H. Qed.

Lemma tokens_match_cons (tok : string) (rest : list string)
    (words : list TranscriptWord) (k : nat) :
  tokens_match (tok :: rest) words k <->
  (exists w, nth_error words k = Some w /\
             starts_with (normalize_word (word w)) (first3 tok)) /\
  tokens_match rest words (S k).
Proof.
  unfold tokens_match. split.
  - intros H. split.
    + specialize (H 0%nat tok eq_refl). now rewrite Nat.add_0_r in H.
    + intros j t Hj. specialize (H (S j) t Hj).
      now rewrite Nat.add_succ_r in H.
  - intros [H0 Hrest] [|j] t Hj; simpl in Hj.
    + injection Hj as <-. now rewrite Nat.add_0_r.
    + rewrite Nat.add_succ_r. now apply Hrest.
Qed.

Lemma phrase_matches_at_cons (tok : string) (rest : list string)
    (words : list TranscriptWord) (k : nat) :
  phrase_matches_at (tok :: rest) words k =
  match nth_error words k with
  | None => Raised IndexError
  | Some w =>
      if PyStr.startswith (normalize_word (word w)) (PyStr.take 3 tok)
      then phrase_matches_at rest words (S k)
      else Returned false
  end.
Proof. reflexivity. Qed.

(** The inner loop decides the prefix rule; it can only raise when the
    phrase reaches past the end of the transcript. *)
Lemma phrase_matches_at_cases (toks : list string)
    (words : list TranscriptWord) (k : nat) :
  match phrase_matches_at toks words k with
  | Returned true => tokens_match toks words k
  | Returned false => ~ tokens_match toks words k
  | Raised e => e = IndexError /\ (List.length words < k + List.length toks)%nat
  end.
Proof.
  revert k. induction toks as [|tok rest IH]; intros k.
  - apply tokens_match_nil.
  - rewrite phrase_matches_at_cons.
    destruct (nth_error words k) as [w|] eqn:Hk.
    + destruct (PyStr.startswith (normalize_word (word w)) (PyStr.take 3 tok)) eqn:Hs.
      * specialize (IH (S k)).
        assert (Hhead : exists w0, nth_error words k = Some w0 /\
                  starts_with (normalize_word (word w0)) (first3 tok)).
        { exists w. split; [exact Hk|].
          rewrite <- take3_first3. now apply startswith_iff. }
        destruct (phrase_matches_at rest words (S k)) as [[|]|e].
        -- apply tokens_match_cons. now split.
        -- intros H. apply tokens_match_cons in H. now apply IH.
        -- destruct IH as [-> IH]. split; [reflexivity | simpl; lia].
      * intros H. apply tokens_match_cons in H.
        destruct H as [[w0 [Hw0 Hp]] _].
        rewrite Hk in Hw0. injection Hw0 as <-.
        rewrite <- take3_first3 in Hp. apply startswith_iff in Hp. congruence.
    + split; [reflexivity|]. apply nth_error_None in Hk. simpl. lia.
Qed.

(** The outer loop, when every candidate it visits lies in the search range. *)
Lemma scan_transcript_cases (toks : list string) (words : list TranscriptWord) :
  forall count i,
    (count = 0 \/ i + count + List.length toks <= List.length words + 1)%nat ->
    match scan_transcript toks words i count with
    | Returned None =>
        forall k, (i <= k < i + count)%nat -> ~ tokens_match toks words k
    | Returned (Some t) =>
        exists k w, (i <= k < i + count)%nat /\ tokens_match toks words k /\
          (forall k', (i <= k' < k)%nat -> ~ tokens_match toks words k') /\
          nth_error words k = Some w /\ t = start w
    | Raised e =>
        e = IndexError /\ toks = [] /\
        exists k, (i <= k < i + count)%nat /\ k = List.length words /\
          (forall k', (i <= k' < k)%nat -> ~ tokens_match toks words k')
    end.
Proof.
  induction count as [|count IH]; intros i Hrange; simpl.
  - intros k Hk. lia.
  - assert (Hi : (i + List.length toks <= List.length words)%nat) by lia.
    pose proof (phrase_matches_at_cases toks words i) as Hm.
    destruct (phrase_matches_at toks words i) as [[|]|e].
    + destruct (nth_error words i) as [w|] eqn:Hw.
      * exists i, w. split; [lia|]. split; [exact Hm|].
        split; [intros k' Hk'; lia | now split].
      * apply nth_error_None in Hw.
        split; [reflexivity|]. split.
        -- destruct toks; [reflexivity | simpl in Hi; lia].
        -- exists i. split; [lia|]. split; [lia|]. intros k' Hk'. lia.
    + assert (Hrange' : (count = 0 \/
                S i + count + List.length toks <= List.length words + 1)%nat) by lia.
      specialize (IH (S i) Hrange').
      destruct (scan_transcript toks words (S i) count) as [[t|]|e].
      * destruct IH as (k & w & Hk & Hmk & Hfirst & Hw & Ht).
        exists k, w. split; [lia|]. split; [exact Hmk|]. split; [|now split].
        intros k' Hk'. destruct (Nat.eq_dec k' i) as [->|Hne]; [exact Hm|].
        apply Hfirst. lia.
      * intros k Hk. destruct (Nat.eq_dec k i) as [->|Hne]; [exact Hm|].
        apply IH. lia.
      * destruct IH as (He & Htoks & k & Hk & Hlen & Hfirst).
        split; [exact He|]. split; [exact Htoks|].
        exists k. split; [lia|]. split; [exact Hlen|].
        intros k' Hk'. destruct (Nat.eq_dec k' i) as [->|Hne]; [exact Hm|].
        apply Hfirst. lia.
    + destruct Hm as [_ Hm]. lia.
Qed.

(** The candidates that [find_phrase_in_transcript] visits are the indices
    of the search range. *)
Lemma range_count_search (phrase : string) (words : list TranscriptWord)
    (cursor : nat) :
  let n := range_count (Z.of_nat cursor)
             (Z.of_nat (List.length words)
              - Z.of_nat (List.length (phrase_tokens phrase)) + 1) in
  (n = 0 \/ cursor + n + List.length (phrase_tokens phrase) <= List.length words + 1)%nat /\
  forall k, (cursor <= k < cursor + n)%nat <-> in_search_range phrase words cursor k.
Proof.
  unfold range_count, in_search_range. cbv zeta. split; [lia|].
  intros k. lia.
Qed.

(** The three outcomes of [find_phrase_in_transcript]. *)
Lemma find_phrase_in_transcript_cases (phrase : string)
    (words : list TranscriptWord) (cursor : nat) :
  match find_phrase_in_transcript phrase words cursor with
  | Returned None =>
      forall k, in_search_range phrase words cursor k -> ~ prefix_rule phrase words k
  | Returned (Some t) =>
      exists i w, first_match phrase words cursor i /\
                  nth_error words i = Some w /\ t = start w
  | Raised e =>
      e = IndexError /\ phrase_tokens phrase = [] /\ cursor = List.length words
  end.
Proof.
  unfold find_phrase_in_transcript.
  fold (phrase_tokens phrase).
  destruct (range_count_search phrase words cursor) as [Hrange Hiff].
  cbv zeta in Hrange, Hiff.
  pose proof (scan_transcript_cases (phrase_tokens phrase) words _ cursor Hrange) as H.
  destruct (scan_transcript (phrase_tokens phrase) words cursor _) as [[t|]|e].
  - destruct H as (k & w & Hk & Hmk & Hfirst & Hw & Ht).
    exists k, w. split; [|now split].
    split; [now apply Hiff|]. split; [exact Hmk|].
    intros k' Hk' Hm'. apply Hiff in Hk'.
    destruct (Nat.le_gt_cases k k') as [Hle|Hgt]; [exact Hle|].
    exfalso. apply (Hfirst k'); [lia | exact Hm'].
  - intros k Hk. apply H. now apply Hiff.
  - destruct H as (He & Htoks & k & Hk & Hlen & Hfirst).
    split; [exact He|]. split; [exact Htoks|].
    apply Hiff in Hk. destruct Hk as [Hk1 Hk2]. rewrite Htoks in Hk2. simpl in Hk2.
    subst k.
    destruct (Nat.eq_dec cursor (List.length words)) as [Heq|Hne]; [exact Heq|].
    exfalso. apply (Hfirst cursor); [lia|].
    rewrite Htoks. apply tokens_match_nil.
Qed.

Lemma first_match_unique (phrase : string) (words : list TranscriptWord)
    (cursor i i' : nat) :
  first_match phrase words cursor i -> first_match phrase words cursor i' -> i = i'.
Proof.
  intros (Hr & Hm & Hmin) (Hr' & Hm' & Hmin').
  apply Nat.le_antisymm; auto.
Qed.

(** The smallest index of the search range that satisfies the rule wins. *)
Lemma first_match_found (phrase : string) (words : list TranscriptWord)
    (cursor i : nat) (w : TranscriptWord) :
  first_match phrase words cursor i ->
  nth_error words i = Some w ->
  find_phrase_in_transcript phrase words cursor = Returned (Some (start w)).
Proof.
  intros Hfirst Hw.
  pose proof (find_phrase_in_transcript_cases phrase words cursor) as H.
  destruct (find_phrase_in_transcript phrase words cursor) as [[t|]|e].
  - destruct H as (i' & w' & Hfirst' & Hw' & ->).
    rewrite (first_match_unique _ _ _ _ _ Hfirst Hfirst') in Hw.
    congruence.
  - destruct Hfirst as (Hr & Hm & _). exfalso. now apply (H i).
  - destruct H as (_ & Htoks & Hcur).
    destruct Hfirst as ((Hr1 & Hr2) & _).
    rewrite Htoks in Hr2. simpl in Hr2.
    assert (Hnone : nth_error words i = None) by (apply nth_error_None; lia).
    congruence.
Qed.

Lemma no_match_iff (phrase : string) (words : list TranscriptWord) (cursor : nat) :
  find_phrase_in_transcript phrase words cursor = Returned None <->
  forall i, in_search_range phrase words cursor i -> ~ prefix_rule phrase words i.
Proof.
  pose proof (find_phrase_in_transcript_cases phrase words cursor) as H.
  destruct (find_phrase_in_transcript phrase words cursor) as [[t|]|e].
  - split; [discriminate|]. intros Hno.
    destruct H as (i & w & (Hr & Hm & _) & _). exfalso. now apply (Hno i).
  - split; [intros _; exact H | reflexivity].
  - split; [discriminate|]. intros Hno.
    destruct H as (_ & Htoks & Hcur). exfalso.
    apply (Hno cursor).
    + unfold in_search_range. rewrite Htoks. simpl. lia.
    + unfold prefix_rule. rewrite Htoks. apply tokens_match_nil.
Qed.

(** C1. For every phrase, transcript and cursor,
    [find_phrase_in_transcript] returns the start of [words[i]] for the
    smallest index [i] of [[cursor, len(words) - phraseLength]] at which every
    normalized transcript word [i + j] starts with the first 3 characters (or
    the whole, if shorter) of the [j]-th normalized phrase token; a returned
    timestamp is always of that kind; and it returns [None] exactly when no
    index of the range satisfies the rule. *)
Theorem find_phrase_in_transcript_first_match (phrase : string)
    (words : list TranscriptWord) (cursor : nat) :
  (forall i w, first_match phrase words cursor i -> nth_error words i = Some w ->
     find_phrase_in_transcript phrase words cursor = Returned (Some (start w))) /\
  (forall t, find_phrase_in_transcript phrase words cursor = Returned (Some t) ->
     exists i w, first_match phrase words cursor i /\
                 nth_error words i = Some w /\ t = start w) /\
  (find_phrase_in_transcript phrase words cursor = Returned None <->
   forall i, in_search_range phrase words cursor i -> ~ prefix_rule phrase words i).
Proof.
  split; [|split].
  - intros i w. apply first_match_found.
  - intros t Ht.
    pose proof (find_phrase_in_transcript_cases phrase words cursor) as H.
    rewrite Ht in H. exact H.
  - apply no_match_iff.
Qed.

(** The one input shape on which the call does not return: a phrase without
    tokens searched from [cursor = len(words)], where the candidate
    [len(words)] passes the empty inner loop and [words[i]] is out of range. *)
Lemma find_phrase_in_transcript_raises (phrase : string)
    (words : list TranscriptWord) (cursor : nat) (e : exn) :
  find_phrase_in_transcript phrase words cursor = Raised e <->
  e = IndexError /\ phrase_tokens phrase = [] /\ cursor = List.length words.
Proof.
  split.
  - intros He.
    pose proof (find_phrase_in_transcript_cases phrase words cursor) as H.
    rewrite He in H. exact H.
  - intros (-> & Htoks & ->).
    unfold find_phrase_in_transcript. fold (phrase_tokens phrase).
    rewrite Htoks. simpl.
    replace (range_count _ _) with 1%nat by (unfold range_count; lia).
    simpl.
    now rewrite (proj2 (nth_error_None words (List.length words)) (Nat.le_refl _)).
Qed.

(** A call with a cursor inside the transcript always returns. *)
Lemma find_phrase_in_transcript_returns (phrase : string)
    (words : list TranscriptWord) (cursor : nat) :
  (cursor < List.length words)%nat ->
  exists r, find_phrase_in_transcript phrase words cursor = Returned r.
Proof.
  intros Hlt.
  destruct (find_phrase_in_transcript phrase words cursor) as [r|e] eqn:E.
  - now exists r.
  - apply find_phrase_in_transcript_raises in E. lia.
Qed.

Lemma exact_run_prefix_rule (phrase : string) (words : list TranscriptWord)
    (k : nat) :
  exact_run phrase words k -> prefix_rule phrase words k.
Proof.
  intros Hrun j tok Hj.
  destruct (Hrun j tok Hj) as (w & Hw & Heq).
  exists w. split; [exact Hw|].
  rewrite Heq, <- take3_first3.
  apply startswith_iff, startswith_take.
Qed.

Lemma tokens_match_in_range (toks : list string) (words : list TranscriptWord)
    (k : nat) (w : TranscriptWord) :
  tokens_match toks words k -> nth_error words k = Some w ->
  (k + List.length toks <= List.length words)%nat.
Proof.
  intros Hm Hw.
  destruct (List.length toks) as [|n] eqn:Hlen.
  - assert (k < List.length words)%nat by (apply nth_error_Some; congruence). lia.
  - destruct (nth_error toks n) as [tok|] eqn:Hn.
    + destruct (Hm n tok Hn) as (w' & Hw' & _).
      assert (k + n < List.length words)%nat by (apply nth_error_Some; congruence).
      lia.
    + apply nth_error_None in Hn. lia.
Qed.

(** C5, as amended. If the normalized tokens of the phrase equal, token for
    token, the normalized transcript words from index [k] on, the run starts
    at or after the cursor, and no index between the cursor and [k]
    satisfies the 3-character prefix rule, then [find_phrase_in_transcript]
    returns the start time of [words[k]], the first word of the run. *)
Theorem exact_run_found (phrase : string) (words : list TranscriptWord)
    (cursor k : nat) (w : TranscriptWord) :
  exact_run phrase words k ->
  nth_error words k = Some w ->
  (cursor <= k)%nat ->
  (forall i, (cursor <= i < k)%nat -> ~ prefix_rule phrase words i) ->
  find_phrase_in_transcript phrase words cursor = Returned (Some (start w)).
Proof.
  intros Hrun Hw Hcur Hnone.
  apply first_match_found with (i := k); [|exact Hw].
  pose proof (exact_run_prefix_rule _ _ _ Hrun) as Hrule.
  split; [|split].
  - split; [exact Hcur|]. now apply tokens_match_in_range with (w := w).
  - exact Hrule.
  - intros i (Hi & _) Hm.
    destruct (Nat.le_gt_cases k i) as [Hle|Hgt]; [exact Hle|].
    exfalso. apply (Hnone i); [lia | exact Hm].
Qed.

(** ** BoundaryAssembler: the scene loop *)

Lemma scene_step_eq (words : list TranscriptWord) (i : nat)
    (slug phrase : string) (st : loop_state) (log : list event) :
  scene_step words i (slug, phrase) st log =
  match find_phrase_in_transcript phrase words (search_from st) with
  | Raised e => (log, Raised e)
  | Returned None =>
      (log ++ [Stderr (warning slug phrase)],
       Returned {| boundaries :=
                     boundaries st ++ [mkBoundary (i + 1) slug (last_end st) phrase None];
                   last_end := last_end st;
                   search_from := search_from st |})
  | Returned (Some t) =>
      (log,
       Returned {| boundaries :=
                     boundaries st ++ [mkBoundary (i + 1) slug t phrase None];
                   last_end := t;
                   search_from := next_search_from words t (search_from st) |})
  end.
Proof.
  unfold scene_step, bind, lift, ret, raise, eprint.
  destruct (find_phrase_in_transcript phrase words (search_from st)) as [[t|]|e];
    reflexivity.
Qed.

Lemma scene_loop_cons (words : list TranscriptWord) (i : nat)
    (scene : string * string) (rest : list (string * string))
    (st : loop_state) (log : list event) :
  scene_loop words i (scene :: rest) st log =
  match scene_step words i scene st log with
  | (log', Returned st') => scene_loop words (S i) rest st' log'
  | (log', Raised e) => (log', Raised e)
  end.
Proof. reflexivity. Qed.

Lemma scene_loop_app (words : list TranscriptWord)
    (pre post : list (string * string)) :
  forall i st log,
    scene_loop words i (pre ++ post) st log =
    match scene_loop words i pre st log with
    | (log', Returned st') => scene_loop words (i + List.length pre) post st' log'
    | (log', Raised e) => (log', Raised e)
    end.
Proof.
  induction pre as [|scene pre IH]; intros i st log.
  - simpl. now rewrite Nat.add_0_r.
  - simpl app. rewrite !scene_loop_cons.
    destruct (scene_step words i scene st log) as [log' [st'|e]]; [|reflexivity].
    rewrite IH. simpl List.length. now rewrite Nat.add_succ_r.
Qed.

(** [next(...)] *)
Lemma first_index_cases (p : TranscriptWord -> bool) (words : list TranscriptWord) :
  forall j0,
    match first_index p words j0 with
    | Some j =>
        (j0 <= j)%nat /\
        (exists w, nth_error words (j - j0) = Some w /\ p w = true) /\
        (forall k w, (k < j - j0)%nat -> nth_error words k = Some w -> p w = false)
    | None => forall w, In w words -> p w = false
    end.
Proof.
  induction words as [|w0 words IH]; intros j0; simpl.
  - intros w [].
  - destruct (p w0) eqn:Hp.
    + split; [lia|]. rewrite Nat.sub_diag. split.
      * exists w0. now split.
      * intros k w Hk. lia.
    + specialize (IH (S j0)).
      destruct (first_index p words (S j0)) as [j|].
      * destruct IH as (Hle & (w & Hw & Hpw) & Hbefore).
        split; [lia|]. split.
        -- exists w. split; [|exact Hpw].
           replace (j - j0)%nat with (S (j - S j0)) by lia. exact Hw.
        -- intros k w' Hk Hw'. destruct k as [|k].
           ++ simpl in Hw'. congruence.
           ++ simpl in Hw'. apply (Hbefore k); [lia | exact Hw'].
      * intros w [<-|Hin]; [exact Hp | now apply IH].
Qed.

Lemma next_search_from_lt (words : list TranscriptWord) (t : float) (cursor : nat) :
  (cursor < List.length words)%nat ->
  (next_search_from words t cursor < List.length words)%nat.
Proof.
  intros Hlt. unfold next_search_from.
  pose proof (first_index_cases (fun w => PyFloat.ge (start w) (t + 1)) words 0) as H.
  destruct (first_index _ words 0) as [j|]; [|exact Hlt].
  destruct H as (_ & (w & Hw & _) & _).
  rewrite Nat.sub_0_r in Hw. apply nth_error_Some. congruence.
Qed.

(** With a cursor inside the transcript the scene loop runs to its end: it
    appends one boundary per scene, in order, only adds to the log, keeps the
    cursor inside the transcript and [last_end] on the last start. *)
Lemma scene_loop_returns (words : list TranscriptWord)
    (phrases : list (string * string)) :
  forall i st log,
    (search_from st < List.length words)%nat ->
    exists nl nb st',
      scene_loop words i phrases st log = (log ++ nl, Returned st') /\
      boundaries st' = boundaries st ++ nb /\
      map slug nb = map fst phrases /\
      map opening_phrase nb = map snd phrases /\
      map number nb = map S (seq i (List.length phrases)) /\
      (search_from st' < List.length words)%nat /\
      (last_end_tracks st -> last_end_tracks st').
Proof.
  induction phrases as [|[slug phrase] rest IH]; intros i st log Hlt.
  - exists [], [], st. simpl. unfold ret. rewrite !app_nil_r. repeat split; auto.
  - rewrite scene_loop_cons, scene_step_eq.
    destruct (find_phrase_in_transcript_returns phrase words _ Hlt) as [r Hr].
    rewrite Hr.
    destruct r as [t|].
    + set (st1 := {| boundaries := _; last_end := t; search_from := _ |}).
      assert (Hlt1 : (search_from st1 < List.length words)%nat)
        by (apply next_search_from_lt; exact Hlt).
      destruct (IH (S i) st1 log Hlt1) as (nl & nb & st' & Hrun & Hbs & Hs & Hp & Hn & Hsf & Hle).
      exists nl, (mkBoundary (i + 1) slug t phrase None :: nb), st'.
      split; [exact Hrun|]. split; [rewrite Hbs; simpl; now rewrite <- app_assoc|].
      simpl. rewrite Hs, Hp, Hn, Nat.add_1_r. repeat split; auto.
      intros _. apply Hle. unfold last_end_tracks, st1.
      cbn [boundaries last_end]. rewrite map_app. cbn [map start_seconds].
      now rewrite last_last.
    + set (st1 := {| boundaries := _; last_end := last_end st; search_from := search_from st |}).
      destruct (IH (S i) st1 (log ++ [Stderr (warning slug phrase)]) Hlt)
        as (nl & nb & st' & Hrun & Hbs & Hs & Hp & Hn & Hsf & Hle).
      exists (Stderr (warning slug phrase) :: nl),
             (mkBoundary (i + 1) slug (last_end st) phrase None :: nb), st'.
      split; [rewrite Hrun; now rewrite <- app_assoc|].
      split; [rewrite Hbs; simpl; now rewrite <- app_assoc|].
      simpl. rewrite Hs, Hp, Hn, Nat.add_1_r. repeat split; auto.
      intros _. apply Hle. unfold last_end_tracks, st1.
      cbn [boundaries last_end]. rewrite map_app. cbn [map start_seconds].
      now rewrite last_last.
Qed.

(** The loop reads only [last_end] and [search_from] of its state and the
    scene index only for numbering: two runs over the same scenes from
    states that agree on both, the left one [d] scenes further in the
    numbering, append the same log lines and the same boundaries up to
    numbering, and end in states that agree again. *)
Lemma scene_loop_parallel (words : list TranscriptWord) (d : nat)
    (phrases : list (string * string)) :
  forall i st st' log log',
    last_end st = last_end st' ->
    search_from st = search_from st' ->
    match scene_loop words (i + d) phrases st log, scene_loop words i phrases st' log' with
    | (l, Returned s), (l', Returned s') =>
        exists nl nb nb',
          l = log ++ nl /\ l' = log' ++ nl /\
          boundaries s = boundaries st ++ nb /\
          boundaries s' = boundaries st' ++ nb' /\
          Forall2 (renumbered d) nb nb' /\
          last_end s = last_end s' /\ search_from s = search_from s'
    | (l, Raised e), (l', Raised e') =>
        e = e' /\ exists nl, l = log ++ nl /\ l' = log' ++ nl
    | _, _ => False
    end.
Proof.
  induction phrases as [|[slug phrase] rest IH]; intros i st st' log log' Hle Hsf.
  - simpl. unfold ret. exists [], [], []. rewrite !app_nil_r. repeat split; auto.
  - rewrite !scene_loop_cons, !scene_step_eq. rewrite Hsf, Hle.
    destruct (find_phrase_in_transcript phrase words (search_from st')) as [[t|]|e].
    + match goal with
      | |- context [scene_loop words (S (i + d)) rest ?s1 log] =>
          match goal with
          | |- context [scene_loop words (S i) rest ?s2 log'] =>
              specialize (IH (S i) s1 s2 log log' eq_refl eq_refl);
              change (S (i + d)) with (S i + d)%nat;
              destruct (scene_loop words (S i + d) rest s1 log) as [l [s|e]];
              destruct (scene_loop words (S i) rest s2 log') as [l' [s'|e']]
          end
      end; try contradiction.
      * destruct IH as (nl & nb & nb' & Hl & Hl' & Hb & Hb' & Hf & Hle' & Hsf').
        simpl in Hb, Hb'.
        exists nl, (mkBoundary (i + d + 1) slug t phrase None :: nb),
               (mkBoundary (i + 1) slug t phrase None :: nb').
        repeat split; auto.
        -- rewrite Hb. now rewrite <- app_assoc.
        -- rewrite Hb'. now rewrite <- app_assoc.
        -- constructor; [|exact Hf]. unfold renumbered. simpl. repeat split; lia.
      * exact IH.
    + match goal with
      | |- context [scene_loop words (S (i + d)) rest ?s1 ?l1] =>
          match goal with
          | |- context [scene_loop words (S i) rest ?s2 (log' ++ ?w)] =>
              specialize (IH (S i) s1 s2 l1 (log' ++ w) eq_refl eq_refl);
              change (S (i + d)) with (S i + d)%nat;
              destruct (scene_loop words (S i + d) rest s1 l1) as [l [s|e]];
              destruct (scene_loop words (S i) rest s2 (log' ++ w)) as [l' [s'|e']]
          end
      end; try contradiction.
      * destruct IH as (nl & nb & nb' & Hl & Hl' & Hb & Hb' & Hf & Hle' & Hsf').
        simpl in Hb, Hb'.
        exists (Stderr (warning slug phrase) :: nl),
               (mkBoundary (i + d + 1) slug (last_end st') phrase None :: nb),
               (mkBoundary (i + 1) slug (last_end st') phrase None :: nb').
        repeat split; auto.
        -- rewrite Hl. now rewrite <- app_assoc.
        -- rewrite Hl'. now rewrite <- app_assoc.
        -- rewrite Hb. now rewrite <- app_assoc.
        -- rewrite Hb'. now rewrite <- app_assoc.
        -- constructor; [|exact Hf]. unfold renumbered. simpl. repeat split; lia.
      * destruct IH as (He & nl & Hl & Hl'). split; [exact He|].
        exists (Stderr (warning slug phrase) :: nl).
        rewrite Hl, Hl', <- !app_assoc. now split.
    + split; [reflexivity|]. exists []. now rewrite !app_nil_r.
Qed.

Lemma initial_state_tracks : last_end_tracks initial_state.
Proof. reflexivity. Qed.

Lemma nonempty_length {A : Type} (l : list A) : l <> [] -> (0 < List.length l)%nat.
Proof. destruct l; [congruence | simpl; lia]. Qed.

(** The state in which the loop reaches a scene, for a non-empty transcript. *)
Lemma scene_loop_prefix_state (words : list TranscriptWord)
    (pre : list (string * string)) (log1 : list event) (st1 : loop_state) :
  words <> [] ->
  scene_loop words 0 pre initial_state [] = (log1, Returned st1) ->
  (search_from st1 < List.length words)%nat /\ last_end_tracks st1 /\
  List.length (boundaries st1) = List.length pre.
Proof.
  intros Hne Hrun.
  destruct (scene_loop_returns words pre 0 initial_state [] (nonempty_length _ Hne))
    as (nl & nb & st' & Hrun' & Hbs & Hs & _ & _ & Hsf & Hle).
  rewrite Hrun in Hrun'. injection Hrun' as -> ->.
  split; [exact Hsf|]. split; [apply Hle, initial_state_tracks|].
  rewrite Hbs. simpl. rewrite <- (length_map slug), Hs. apply length_map.
Qed.

(** C6. When a scene's phrase is matched at time [t], the loop body sets the
    search cursor to the index of the first transcript word whose start is at
    least [t + 1] (the sum and the comparison are those of Python floats);
    when no transcript word starts at or after [t + 1], the cursor is left
    unchanged. *)
Theorem matched_scene_advances_cursor (words : list TranscriptWord) (i : nat)
    (slug phrase : string) (st : loop_state) (log : list event) (t : float) :
  find_phrase_in_transcript phrase words (search_from st) = Returned (Some t) ->
  exists st',
    scene_step words i (slug, phrase) st log = (log, Returned st') /\
    (forall j w,
        nth_error words j = Some w ->
        PyFloat.ge (start w) (t + 1) = true ->
        (forall k w', (k < j)%nat -> nth_error words k = Some w' ->
                      PyFloat.ge (start w') (t + 1) = false) ->
        search_from st' = j) /\
    ((forall w, In w words -> PyFloat.ge (start w) (t + 1) = false) ->
     search_from st' = search_from st).
Proof.
  intros Hfound. rewrite scene_step_eq, Hfound.
  eexists. split; [reflexivity|]. cbn [search_from]. unfold next_search_from.
  pose proof (first_index_cases (fun w => PyFloat.ge (start w) (t + 1)) words 0) as H.
  destruct (first_index _ words 0) as [j'|].
  - destruct H as (_ & (w' & Hw' & Hp') & Hbefore). rewrite Nat.sub_0_r in Hw'.
    split.
    + intros j w Hw Hle Hfirst.
      destruct (Nat.lt_trichotomy j' j) as [Hlt|[Heq|Hgt]]; [|exact Heq|].
      * exfalso. specialize (Hfirst j' w' Hlt Hw'). congruence.
      * exfalso. assert (Hf : PyFloat.ge (start w) (t + 1) = false).
        { apply (Hbefore j w); [lia | exact Hw]. }
        congruence.
    + intros Hnone. exfalso. specialize (Hnone w' (nth_error_In _ _ Hw')).
      congruence.
  - split; [|reflexivity].
    intros j w Hw Hle _. exfalso.
    assert (Hf : PyFloat.ge (start w) (t + 1) = false).
    { apply H. eapply nth_error_In; eassumption. }
    congruence.
Qed.

(** ** BoundaryAssembler: durations *)

Lemma calculate_durations_length (total : float) (bs : list Boundary) :
  List.length (calculate_durations total bs) = List.length bs.
Proof.
  induction bs as [|b rest IH]; simpl; [reflexivity | now rewrite IH].
Qed.

(** The duration pass, boundary by boundary. *)
Lemma calculate_durations_nth (total : float) (bs : list Boundary) :
  forall i b,
    nth_error (calculate_durations total bs) i = Some b ->
    exists b0,
      nth_error bs i = Some b0 /\
      b = set_duration b0
            (PyFloat.round2 (match nth_error bs (S i) with
                             | Some b1 => start_seconds b1 - start_seconds b0
                             | None => total - start_seconds b0
                             end)).
Proof.
  induction bs as [|b0 rest IH]; intros i b Hb.
  - destruct i; discriminate Hb.
  - destruct i as [|i].
    + simpl in Hb. injection Hb as <-. exists b0. split; [reflexivity|].
      destruct rest; reflexivity.
    + simpl in Hb. apply IH in Hb. exact Hb.
Qed.

Lemma extract_boundaries_eq (words : list TranscriptWord)
    (phrases : list (string * string)) (log : list event) :
  words <> [] -> phrases <> [] ->
  extract_boundaries words phrases log =
  match scene_loop words 0 phrases initial_state log with
  | (l, Returned st) =>
      (l, Returned (calculate_durations (total_duration words) (boundaries st)))
  | (l, Raised e) => (l, Raised e)
  end.
Proof.
  intros Hw Hp. destruct words; [congruence|]. destruct phrases; [congruence|].
  unfold extract_boundaries, bind, ret.
  destruct (scene_loop _ 0 _ initial_state log) as [l [st|e]]; reflexivity.
Qed.

(** For a non-empty transcript and a non-empty scene list the run returns,
    with one boundary per scene, in scene order. *)
Lemma extract_boundaries_returns (words : list TranscriptWord)
    (phrases : list (string * string)) (log : list event) :
  words <> [] -> phrases <> [] ->
  exists nl raw,
    extract_boundaries words phrases log =
      (log ++ nl, Returned (calculate_durations (total_duration words) raw)) /\
    map slug raw = map fst phrases /\
    map opening_phrase raw = map snd phrases /\
    map number raw = map S (seq 0 (List.length phrases)).
Proof.
  intros Hw Hp. rewrite extract_boundaries_eq by assumption.
  destruct (scene_loop_returns words phrases 0 initial_state log (nonempty_length _ Hw))
    as (nl & nb & st & Hrun & Hbs & Hs & Hph & Hn & _).
  rewrite Hrun. simpl in Hbs. subst nb.
  exists nl, (boundaries st). repeat split; assumption.
Qed.

(** C3, as amended. After all scenes are processed, the duration of boundary
    [i], [i < n - 1], is [start(i+1) - start(i)] rounded to two decimals, and
    the duration of the last boundary is [totalDuration - start(n-1)] rounded
    to two decimals, where [totalDuration] is the end time of the last
    transcript word. *)
Theorem durations_are_rounded_differences (words : list TranscriptWord)
    (phrases : list (string * string)) :
  words <> [] -> phrases <> [] ->
  exists log bs,
    extract_boundaries words phrases [] = (log, Returned bs) /\
    List.length bs = List.length phrases /\
    (forall i b b',
        nth_error bs i = Some b -> nth_error bs (S i) = Some b' ->
        duration_seconds b =
          Some (PyFloat.round2 (start_seconds b' - start_seconds b))) /\
    (forall b,
        nth_error bs (List.length bs - 1) = Some b ->
        duration_seconds b =
          Some (PyFloat.round2 (last (map end_ words) 0%float - start_seconds b))).
Proof.
  intros Hw Hp.
  destruct (extract_boundaries_returns words phrases [] Hw Hp)
    as (nl & raw & Hrun & Hs & _ & _).
  exists nl, (calculate_durations (total_duration words) raw).
  split; [exact Hrun|]. split.
  { rewrite calculate_durations_length, <- (length_map slug), Hs. apply length_map. }
  split.
  - intros i b b' Hb Hb'.
    apply calculate_durations_nth in Hb, Hb'.
    destruct Hb as (b0 & Hb0 & ->). destruct Hb' as (b1 & Hb1 & ->).
    rewrite Hb1. reflexivity.
  - intros b Hb. rewrite calculate_durations_length in Hb.
    apply calculate_durations_nth in Hb. destruct Hb as (b0 & Hb0 & ->).
    assert (Hlt : (List.length raw - 1 < List.length raw)%nat)
      by (apply nth_error_Some; congruence).
    rewrite (proj2 (nth_error_None raw (S (List.length raw - 1)))) by lia.
    reflexivity.
Qed.

(** The duration pass on a list in two parts: the first part ends at the
    start of the second. *)
Lemma calculate_durations_app (total : float) (l1 : list Boundary) (b2 : Boundary)
    (l2 : list Boundary) :
  calculate_durations total (l1 ++ b2 :: l2) =
  calculate_durations (start_seconds b2) l1 ++ calculate_durations total (b2 :: l2).
Proof.
  induction l1 as [|a l1 IH]; [reflexivity|].
  cbn [app]. cbn [calculate_durations] in *. rewrite IH.
  destruct l1; reflexivity.
Qed.

Lemma calculate_durations_snoc (total : float) (l1 : list Boundary) (b2 : Boundary) :
  calculate_durations total (l1 ++ [b2]) =
  calculate_durations (start_seconds b2) l1 ++
    [set_duration b2 (PyFloat.round2 (total - start_seconds b2))].
Proof. apply calculate_durations_app. Qed.

Lemma calculate_durations_map_start (total : float) (bs : list Boundary) :
  map start_seconds (calculate_durations total bs) = map start_seconds bs.
Proof.
  induction bs as [|b rest IH]; [reflexivity|].
  cbn [calculate_durations map]. now rewrite IH.
Qed.

(** Only the last duration depends on the total. *)
Lemma calculate_durations_removelast (t t' : float) (bs : list Boundary) :
  removelast (calculate_durations t bs) = removelast (calculate_durations t' bs).
Proof.
  induction bs as [|b rest IH]; [reflexivity|].
  destruct rest as [|c rest]; [reflexivity|].
  cbn [calculate_durations] in *. cbn [removelast] in *. now rewrite IH.
Qed.

Lemma calculate_durations_same_scene (t t' : float) (bs : list Boundary) :
  Forall2 (same_scene 0) (calculate_durations t bs) (calculate_durations t' bs).
Proof.
  induction bs as [|b rest IH]; [constructor|].
  cbn [calculate_durations]. constructor; [|exact IH].
  unfold same_scene. cbn [set_duration number slug start_seconds opening_phrase].
  now rewrite Nat.add_0_r.
Qed.

(** Boundaries with the same starts get the same durations. *)
Lemma calculate_durations_renumbered (d : nat) (total : float) (l l' : list Boundary) :
  Forall2 (renumbered d) l l' ->
  Forall2 (renumbered d) (calculate_durations total l) (calculate_durations total l').
Proof.
  induction 1 as [|b b' rest rest' Hb Hrest IH]; [constructor|].
  cbn [calculate_durations]. constructor; [|exact IH].
  destruct Hb as (Hn & Hs & Hst & Hp & _).
  unfold renumbered. cbn [set_duration number slug start_seconds opening_phrase duration_seconds].
  repeat split; try assumption.
  destruct Hrest as [|c c' r r' Hc _]; rewrite Hst; [reflexivity|].
  destruct Hc as (_ & _ & Hcst & _). now rewrite Hcst.
Qed.

(** C2, as amended. When the loop reaches a scene whose phrase is not found
    from the current cursor, it prints on stderr the line
    [Warning: Could not find scene '<slug>' starting with '<phrase>'], gives
    the scene a boundary whose start is the start of the boundary before it
    (0 when there is none), leaves the cursor where it was and runs on to the
    last scene.  Compared with the run without the missed scene, every other
    scene keeps its slug, start and phrase, the later scenes are numbered one
    further, and every duration is the same except that of the scene just
    before the missed one, which becomes the rounded difference between the
    start of the missed scene and its own, two equal numbers. *)
Theorem missed_scene_fallback (words : list TranscriptWord)
    (pre post : list (string * string)) (slug0 phrase : string)
    (log1 : list event) (st1 : loop_state) :
  words <> [] ->
  scene_loop words 0 pre initial_state [] = (log1, Returned st1) ->
  find_phrase_in_transcript phrase words (search_from st1) = Returned None ->
  let line :=
    Stderr ("Warning: Could not find scene '" ++ slug0
            ++ "' starting with '" ++ phrase ++ "'") in
  exists st1' log2 before b after,
    scene_step words (List.length pre) (slug0, phrase) st1 log1 =
      (log1 ++ [line], Returned st1') /\
    search_from st1' = search_from st1 /\
    extract_boundaries words (pre ++ (slug0, phrase) :: post) [] =
      (log1 ++ line :: log2, Returned (before ++ b :: after)) /\
    List.length before = List.length pre /\
    number b = (List.length pre + 1)%nat /\ slug b = slug0 /\ opening_phrase b = phrase /\
    start_seconds b = last (map start_seconds before) 0%float /\
    (forall front p,
        before = front ++ [p] ->
        duration_seconds p =
          Some (PyFloat.round2 (start_seconds b - start_seconds p))) /\
    (pre ++ post <> [] ->
     exists before' after',
       extract_boundaries words (pre ++ post) [] =
         (log1 ++ log2, Returned (before' ++ after')) /\
       Forall2 (same_scene 0) before before' /\
       removelast before = removelast before' /\
       Forall2 (renumbered 1) after after').
Proof.
  intros Hne Hpre Hmiss line.
  destruct (scene_loop_prefix_state words pre log1 st1 Hne Hpre) as (Hsf & Htracks & Hlen).
  set (b := mkBoundary (List.length pre + 1) slug0 (last_end st1) phrase None).
  set (st1' := {| boundaries := boundaries st1 ++ [b];
                  last_end := last_end st1;
                  search_from := search_from st1 |}).
  assert (Hstep : scene_step words (List.length pre) (slug0, phrase) st1 log1 =
                  (log1 ++ [line], Returned st1')).
  { rewrite scene_step_eq, Hmiss. reflexivity. }
  pose proof (scene_loop_parallel words 1 post (List.length pre) st1' st1
                (log1 ++ [line]) log1 eq_refl eq_refl) as Hpar.
  destruct (scene_loop_returns words post (List.length pre + 1) st1'
              (log1 ++ [line]) Hsf)
    as (nl & nb & st2 & Hrun2 & _).
  destruct (scene_loop_returns words post (List.length pre) st1 log1 Hsf)
    as (nl' & nb' & st2' & Hrun2' & _).
  rewrite Hrun2, Hrun2' in Hpar.
  destruct Hpar as (ml & raw & raw' & Hl & Hl' & Hb & Hb' & Hf & _).
  assert (Hloop : scene_loop words 0 (pre ++ (slug0, phrase) :: post) initial_state [] =
                  (log1 ++ line :: ml, Returned st2)).
  { rewrite scene_loop_app, Hpre, scene_loop_cons. simpl Nat.add. rewrite Hstep.
    replace (S (List.length pre)) with (List.length pre + 1)%nat by lia.
    rewrite Hrun2, Hl, <- app_assoc. reflexivity. }
  assert (Hloop' : scene_loop words 0 (pre ++ post) initial_state [] =
                   (log1 ++ ml, Returned st2')).
  { rewrite scene_loop_app, Hpre. simpl Nat.add. rewrite Hrun2', Hl'. reflexivity. }
  assert (Hraw : boundaries st2 = boundaries st1 ++ b :: raw).
  { rewrite Hb. unfold st1'. cbn [boundaries]. now rewrite <- app_assoc. }
  set (total := total_duration words).
  set (bfinal := set_duration b
                   (PyFloat.round2 (match raw with
                                    | next_b :: _ => start_seconds next_b - start_seconds b
                                    | [] => total - start_seconds b
                                    end))).
  exists st1', ml, (calculate_durations (start_seconds b) (boundaries st1)), bfinal,
         (calculate_durations total raw).
  split; [exact Hstep|]. split; [reflexivity|].
  split.
  { rewrite extract_boundaries_eq by (assumption || (destruct pre; discriminate)).
    rewrite Hloop, Hraw, calculate_durations_app. reflexivity. }
  split; [now rewrite calculate_durations_length|].
  split; [reflexivity|]. split; [reflexivity|]. split; [reflexivity|].
  split.
  { rewrite calculate_durations_map_start. exact Htracks. }
  split.
  { intros front p Hsplit.
    destruct (exists_last (l := boundaries st1)) as (front0 & p0 & Hsplit0).
    { intros E. rewrite E in Hsplit. destruct front; discriminate Hsplit. }
    rewrite Hsplit0, calculate_durations_snoc in Hsplit.
    apply app_inj_tail in Hsplit. destruct Hsplit as [_ <-]. reflexivity. }
  intros Hscenes.
  exists (calculate_durations (match raw' with
                               | next_b :: _ => start_seconds next_b
                               | [] => total
                               end) (boundaries st1)),
         (calculate_durations total raw').
  split.
  { rewrite extract_boundaries_eq by assumption.
    rewrite Hloop', Hb'. fold total.
    destruct raw' as [|a' r']; [now rewrite !app_nil_r|].
    now rewrite calculate_durations_app. }
  split; [apply calculate_durations_same_scene|].
  split; [apply calculate_durations_removelast|].
  now apply calculate_durations_renumbered.
Qed.

(** C10. If the first scene's phrase is found nowhere in the transcript, its
    boundary starts at 0, the initial fallback value, whatever the start time
    of the first transcript word. *)
Theorem first_scene_missing_starts_at_zero (words : list TranscriptWord)
    (slug0 phrase : string) (rest : list (string * string)) :
  words <> [] ->
  (forall i, in_search_range phrase words 0 i -> ~ prefix_rule phrase words i) ->
  exists log bs b,
    extract_boundaries words ((slug0, phrase) :: rest) [] = (log, Returned bs) /\
    nth_error bs 0 = Some b /\
    slug b = slug0 /\
    start_seconds b = 0%float.
Proof.
  intros Hw Hmiss. apply no_match_iff in Hmiss.
  rewrite extract_boundaries_eq by (assumption || discriminate).
  rewrite scene_loop_cons, scene_step_eq. cbn [search_from initial_state].
  rewrite Hmiss.
  match goal with
  | |- context [scene_loop words 1 rest ?st ?l] =>
      destruct (scene_loop_returns words rest 1 st l (nonempty_length _ Hw))
        as (nl & nb & st' & Hrun & Hbs & _)
  end.
  rewrite Hrun. cbn [boundaries app] in Hbs.
  do 3 eexists. split; [reflexivity|].
  rewrite Hbs. cbn [calculate_durations nth_error].
  split; [reflexivity|]. split; reflexivity.
Qed.

(** ** Formatter *)

Section FormatterFacts.

Variable str_number : float -> string.
Variable fmt_2f : float -> string.

Lemma split_on_nonempty (sep : ascii) (s cur : string) :
  PyStr.split_on sep cur s <> [].
Proof.
  revert cur. induction s as [|c s IH]; intros cur; simpl; [discriminate|].
  destruct (Ascii.eqb c sep); [discriminate | apply IH].
Qed.

(** [parts[0]] is always there: no slug makes [slug_parts] raise. *)
Lemma slug_parts_returns (b : Boundary) :
  exists num name_parts, slug_parts b = Returned (num, name_parts).
Proof.
  unfold slug_parts.
  destruct (PyStr.split_on "-" EmptyString (slug b)) as [|p0 rest] eqn:E.
  - now apply split_on_nonempty in E.
  - destruct (PyStr.isdigit p0); eauto.
Qed.

Lemma typescript_entry_returns (b : Boundary) (d : float) :
  duration_seconds b = Some d ->
  exists num name_parts ls,
    slug_parts b = Returned (num, name_parts) /\
    typescript_entry str_number fmt_2f b = Returned ls /\
    In ("    component: " ++ component_name num name_parts ++ ",")%string ls.
Proof.
  intros Hd. destruct (slug_parts_returns b) as (num & name_parts & Hp).
  exists num, name_parts. unfold typescript_entry. rewrite Hp, Hd.
  eexists. split; [reflexivity|]. split; [reflexivity|].
  simpl. tauto.
Qed.

Lemma typescript_entries_return (bs : list Boundary) :
  Forall (fun b => duration_seconds b <> None) bs ->
  exists ls,
    typescript_entries str_number fmt_2f bs = Returned ls /\
    forall b, In b bs ->
      exists num name_parts,
        slug_parts b = Returned (num, name_parts) /\
        In ("    component: " ++ component_name num name_parts ++ ",")%string ls.
Proof.
  induction 1 as [|b bs Hb _ IH].
  - exists []. split; [reflexivity|]. intros b [].
  - destruct (duration_seconds b) as [d|] eqn:Hd; [|congruence].
    destruct (typescript_entry_returns b d Hd) as (num & name_parts & ls & Hp & He & Hin).
    destruct IH as (ls' & Hes & Hall).
    exists (ls ++ ls'). split.
    + simpl. now rewrite He, Hes.
    + intros b' [<-|Hb'].
      * exists num, name_parts. split; [exact Hp|]. apply in_or_app. now left.
      * destruct (Hall b' Hb') as (num' & parts' & Hp' & Hin').
        exists num', parts'. split; [exact Hp'|]. apply in_or_app. now right.
Qed.

(** C7, as amended. The code-snippet formatter checks no slug: for every list
    of boundaries that carry their durations it returns the rendering, and
    for every boundary, whatever its slug, the rendering has the component
    line with the name derived from that slug. *)
Theorem format_typescript_accepts_every_slug (bs : list Boundary) :
  Forall (fun b => duration_seconds b <> None) bs ->
  exists lines,
    format_typescript_lines str_number fmt_2f bs = Returned lines /\
    format_typescript str_number fmt_2f bs = Returned (PyStr.join newline lines) /\
    forall b, In b bs ->
      exists num name_parts,
        slug_parts b = Returned (num, name_parts) /\
        In ("    component: " ++ component_name num name_parts ++ ",")%string lines.
Proof.
  intros Hd. destruct (typescript_entries_return bs Hd) as (ls & Hes & Hall).
  unfold format_typescript, format_typescript_lines. rewrite Hes.
  eexists. split; [reflexivity|]. split; [reflexivity|].
  intros b Hb. destruct (Hall b Hb) as (num & name_parts & Hp & Hin).
  exists num, name_parts. split; [exact Hp|].
  apply in_or_app. right. apply in_or_app. now left.
Qed.

(** The only way [format_typescript] raises is a boundary without duration. *)
Lemma format_typescript_raises_only_KeyError (bs : list Boundary) (e : exn) :
  format_typescript str_number fmt_2f bs = Raised e ->
  e = KeyError /\ exists b, In b bs /\ duration_seconds b = None.
Proof.
  unfold format_typescript, format_typescript_lines.
  destruct (typescript_entries str_number fmt_2f bs) as [ls|e'] eqn:E; [discriminate|].
  intros H. injection H as <-.
  revert E. induction bs as [|b bs IH]; simpl; [discriminate|].
  unfold typescript_entry at 1.
  destruct (slug_parts_returns b) as (num & name_parts & Hp). rewrite Hp.
  destruct (duration_seconds b) as [d|] eqn:Hd.
  - destruct (typescript_entries str_number fmt_2f bs) as [ls'|e''] eqn:E'; [discriminate|].
    intros H. injection H as <-.
    destruct (IH eq_refl) as (He & b' & Hin & Hnone).
    split; [exact He|]. exists b'. split; [now right | exact Hnone].
  - intros H. injection H as <-. split; [reflexivity|].
    exists b. split; [now left | exact Hd].
Qed.

End FormatterFacts.

(** ** Command line *)

Lemma stdout_lines_app (l1 l2 : list event) :
  stdout_lines (l1 ++ l2) = stdout_lines l1 ++ stdout_lines l2.
Proof.
  induction l1 as [|[s|s] l1 IH]; simpl; [reflexivity | now rewrite IH | exact IH].
Qed.

(** The scene loop writes to stderr only. *)
Lemma scene_loop_stdout (words : list TranscriptWord)
    (phrases : list (string * string)) :
  forall i st log,
    stdout_lines (fst (scene_loop words i phrases st log)) = stdout_lines log.
Proof.
  induction phrases as [|[slug phrase] rest IH]; intros i st log; [reflexivity|].
  rewrite scene_loop_cons, scene_step_eq.
  destruct (find_phrase_in_transcript phrase words (search_from st)) as [[t|]|e].
  - apply IH.
  - rewrite IH, stdout_lines_app. simpl. apply app_nil_r.
  - reflexivity.
Qed.

Lemma extract_boundaries_stdout (words : list TranscriptWord)
    (phrases : list (string * string)) (log : list event) :
  stdout_lines (fst (extract_boundaries words phrases log)) = stdout_lines log.
Proof.
  destruct words as [|w words].
  - simpl. unfold bind, eprint, sys_exit, raise. simpl.
    rewrite stdout_lines_app. simpl. apply app_nil_r.
  - destruct phrases as [|p phrases].
    + simpl. unfold bind, eprint, sys_exit, raise. simpl.
      rewrite stdout_lines_app. simpl. apply app_nil_r.
    + rewrite extract_boundaries_eq by discriminate.
      pose proof (scene_loop_stdout (w :: words) (p :: phrases) 0 initial_state log) as H.
      destruct (scene_loop (w :: words) 0 (p :: phrases) initial_state log) as [l [st|e]];
        exact H.
Qed.

Lemma calculate_durations_all_set (total : float) (bs : list Boundary) :
  Forall (fun b => duration_seconds b <> None) (calculate_durations total bs).
Proof.
  induction bs as [|b rest IH]; [constructor|].
  cbn [calculate_durations]. constructor; [discriminate | exact IH].
Qed.

Lemma sum_durations_returns (bs : list Boundary) :
  Forall (fun b => duration_seconds b <> None) bs ->
  forall acc, exists s, sum_durations acc bs = Returned s.
Proof.
  induction 1 as [|b rest Hb _ IH]; intros acc; [now exists acc|].
  cbn [sum_durations]. destruct (duration_seconds b) as [d|]; [apply IH | congruence].
Qed.

Section MainFacts.

Variable str_number : float -> string.
Variable fmt_2f : float -> string.
Variable format_json : list Boundary -> string.
Variable format_table : list Boundary -> float -> string.

(** With [--json] the run never looks at [--typescript]. *)
Lemma main_json_ignores_typescript (args : Args) (files : Files) (ts : bool) :
  json args = true ->
  main str_number fmt_2f format_json format_table args files =
  main str_number fmt_2f format_json format_table (mkArgs (scenes_dir args) (transcript args) true ts) files.
Proof.
  intros Hj. unfold main. simpl. rewrite Hj. reflexivity.
Qed.

(** When both loads return, the run is that of [extract_boundaries] on what
    they give. *)
Lemma extract_boundaries_files_loaded (files : Files) (data : TranscriptData)
    (words : list TranscriptWord) (texts : list (string * string)) (log : list event) :
  transcript_json files = Returned data ->
  load_transcript data = Returned words ->
  scene_files files = Returned texts ->
  extract_boundaries_files files log =
  extract_boundaries words (get_scene_opening_phrases texts) log.
Proof.
  intros Hd Hw Ht. unfold extract_boundaries_files, bind, lift, ret.
  rewrite Hd, Hw, Ht. reflexivity.
Qed.

(** C9. When both [--json] and [--typescript] are given, the run prints the
    JSON rendering of the boundaries and nothing else on stdout: it behaves
    as with [--json] alone, the TypeScript rendering is not produced. *)
Theorem json_takes_precedence (args : Args) (files : Files) :
  json args = true -> typescript args = true ->
  main str_number fmt_2f format_json format_table args files =
    main str_number fmt_2f format_json format_table (mkArgs (scenes_dir args) (transcript args) true false) files /\
  (forall data words texts,
     scenes_dir_exists files = true -> transcript_exists files = true ->
     transcript_json files = Returned data ->
     load_transcript data = Returned words ->
     scene_files files = Returned texts ->
     words <> [] -> get_scene_opening_phrases texts <> [] ->
     exists log bs,
       extract_boundaries words (get_scene_opening_phrases texts) [] =
         (log, Returned bs) /\
       main str_number fmt_2f format_json format_table args files [] = (log ++ [Stdout (format_json bs)], Returned tt) /\
       stdout_lines (log ++ [Stdout (format_json bs)]) = [format_json bs]).
Proof.
  intros Hj Hts. split; [now apply main_json_ignores_typescript|].
  intros data words texts Hsd Htr Hd Hl Ht Hw Hp.
  set (phrases := get_scene_opening_phrases texts) in *.
  destruct (extract_boundaries_returns words phrases [] Hw Hp)
    as (nl & raw & Hrun & _).
  destruct (sum_durations_returns _
              (calculate_durations_all_set (total_duration words) raw) 0%float)
    as (s & Hsum).
  simpl app in Hrun.
  exists nl, (calculate_durations (total_duration words) raw).
  split; [exact Hrun|]. split.
  - unfold main. rewrite Hsd, Htr. cbn [negb].
    unfold bind at 1.
    rewrite (extract_boundaries_files_loaded files data words texts [] Hd Hl Ht).
    fold phrases. rewrite Hrun.
    unfold bind at 1. rewrite Hsum. unfold lift, ret.
    rewrite Hj. reflexivity.
  - pose proof (extract_boundaries_stdout words phrases []) as Hout.
    rewrite Hrun in Hout. simpl in Hout.
    rewrite stdout_lines_app, Hout. reflexivity.
Qed.

End MainFacts.

(** ** The scenarios of the specification *)

Import Scenario.

Local Open Scope string_scope.

Example split_example :
  PyStr.split "  The kitchen   was quiet. " = ["The"; "kitchen"; "was"; "quiet."].
Proof. reflexivity. Qed.

Example normalize_example :
  normalize_word "Kitchen's," = "kitchens" /\ normalize_word "snake_case-42!" = "snake_case42".
Proof. split; reflexivity. Qed.

(** ["Café!"] gives ["café"]; Chinese letters, the fraction one half and a
    mathematical bold A are word characters without a lowercase and stay; a
    capital sigma at the end of a word becomes the final sigma; the dotted
    capital I loses the dot that lowercasing splits off. *)
Example unicode_normalize_examples :
  Unicode.normalize_word [0x43; 0x61; 0x66; 0xE9; 0x21]%N = [0x63; 0x61; 0x66; 0xE9]%N /\
  Unicode.normalize_word [0x4E2D; 0x6587; 0xBD; 0x1D400]%N = [0x4E2D; 0x6587; 0xBD; 0x1D400]%N /\
  Unicode.lower [0x39F; 0x394; 0x39F; 0x3A3]%N = [0x3BF; 0x3B4; 0x3BF; 0x3C2]%N /\
  Unicode.lower [0x3A3; 0x39F]%N = [0x3C3; 0x3BF]%N /\
  Unicode.lower [0x130]%N = [0x69; 0x307]%N /\
  Unicode.normalize_word [0x130]%N = [0x69]%N /\
  Unicode.strip [0x20; 0xA0; 0x61; 0x20; 0x62; 0x3000; 0xA]%N = [0x61; 0x20; 0x62]%N /\
  Unicode.normalize_word (Unicode.of_string "Kitchen's,") = Unicode.of_string "kitchens".
Proof. repeat split; vm_compute; reflexivity. Qed.

Example title_example :
  PyStr.title "kitchen" = "Kitchen" /\ PyStr.title "2nd aCT" = "2Nd Act".
Proof. split; reflexivity. Qed.

Example zfill_example :
  PyStr.zfill 2 (PyStr.str_nat 7) = "07" /\ PyStr.zfill 2 (PyStr.str_nat 123) = "123".
Proof. split; reflexivity. Qed.

(** [round(x, 2)] rounds the binary value of [x]: 2.675 lies below the
    decimal 2.675 and 0.005 above the decimal 0.005. *)
Example round2_examples :
  PyFloat.round2 1.3 = 1.3%float /\ PyFloat.round2 0.125 = 0.12%float /\
  PyFloat.round2 0.375 = 0.38%float /\ PyFloat.round2 (-0.0625) = (-0.06)%float /\
  PyFloat.round2 2.675 = 2.67%float /\ PyFloat.round2 0.005 = 0.01%float /\
  PyFloat.round2 (0.016 - 0.001) = 0.01%float /\ PyFloat.round2 (-0) = (-0)%float /\
  PyFloat.round2 infinity = infinity /\ PyFloat.round2 nan = nan.
Proof. repeat split; vm_compute; reflexivity. Qed.

(** [>=] after a float sum: 0.14 + 1 is above 1.14, and 0.2 + 1 is 1.2. *)
Example ge_examples :
  PyFloat.ge 1.14 (0.14 + 1) = false /\ PyFloat.ge 1.2 (0.2 + 1) = true /\
  PyFloat.ge nan nan = false.
Proof. repeat split; vm_compute; reflexivity. Qed.

Example fmt_2f_examples :
  PyFloat.fmt_2f 1.3 = "1.30" /\ PyFloat.fmt_2f 2.675 = "2.67" /\
  PyFloat.fmt_2f 12 = "12.00" /\ PyFloat.fmt_2f (-0.001) = "-0.00" /\
  PyFloat.fmt_2f 0.999 = "1.00".
Proof. repeat split; vm_compute; reflexivity. Qed.

(** The concrete scenario: scene 1 starts at 0.0 and lasts 5.0, scene 2
    starts at 5.0 and lasts 1.3. *)
Example kitchen_scenario :
  extract_boundaries kitchen_words [kitchen_scene; ("02-rain", "Outside the rain fell")] [] =
  ([], Returned [ mkBoundary 1 "01-kitchen" 0 "The kitchen was quiet" (Some 5%float);
                  mkBoundary 2 "02-rain" 5 "Outside the rain fell" (Some 1.3%float) ]).
Proof. vm_compute. reflexivity. Qed.

(** Prefix tolerance: the token ["kitchen"] matches the word ["kitchens,"]. *)
Example kitchens_scenario :
  find_phrase_in_transcript "The kitchen"
    [mkWord "the" 0 0.25; mkWord "kitchens," 0.5 0.75] 0 = Returned (Some 0%float).
Proof. vm_compute. reflexivity. Qed.

(** Fallback reproduction: scene 2 is missing from the transcript. *)
Example fallback_scenario :
  extract_boundaries kitchen_words [kitchen_scene; thunder_scene; rain_scene] [] =
  ([Stderr "Warning: Could not find scene '02-thunder' starting with 'Suddenly a thunderclap'"],
   Returned [ mkBoundary 1 "01-kitchen" 0 "The kitchen was quiet" (Some 0%float);
              mkBoundary 2 "02-thunder" 0 "Suddenly a thunderclap" (Some 5%float);
              mkBoundary 3 "03-rain" 5 "Outside the rain fell" (Some 1.3%float) ]).
Proof. vm_compute. reflexivity. Qed.

(** A phrase without tokens searched from the end of the transcript. *)
Example empty_phrase_at_end :
  find_phrase_in_transcript "  " [] 0 = Raised IndexError.
Proof. vm_compute. reflexivity. Qed.

Lemma the_cat_tokens : phrase_tokens "the cat" = ["the"; "cat"].
Proof. vm_compute. reflexivity. Qed.

Lemma the_kitchen_tokens : phrase_tokens "The kitchen" = ["the"; "kitchen"].
Proof. vm_compute. reflexivity. Qed.

Lemma the_cat_run : exact_run "the cat" cattle_words 2.
Proof.
  intros j tok Hj. rewrite the_cat_tokens in Hj.
  destruct j as [|[|j]]; simpl in Hj.
  - injection Hj as <-. eexists. split; reflexivity.
  - injection Hj as <-. eexists. split; reflexivity.
  - destruct j; discriminate Hj.
Qed.

(** ** Where the code departs from a stated property *)

(** Against C5 as stated: the words of ["the cat"] stand at index 2, start
    1.0, yet from cursor 0 the search returns 0.0, the start of ["there"],
    because ["there cattle"] passes the prefix rule first; and from cursor 3
    the run lies behind the cursor and nothing is found. *)
Lemma exact_run_not_always_returned :
  exact_run "the cat" cattle_words 2 /\
  nth_error cattle_words 2 = Some (mkWord "the" 1 1.25) /\
  find_phrase_in_transcript "the cat" cattle_words 0 = Returned (Some 0%float) /\
  (0 =? 1)%float = false /\
  find_phrase_in_transcript "the cat" cattle_words 3 = Returned None.
Proof.
  split; [|split; [reflexivity|split; [vm_compute; reflexivity|split]]].
  - exact the_cat_run.
  - reflexivity.
  - vm_compute. reflexivity.
Qed.

(** Against C2 as stated: with the thunder scene missed, the boundary of the
    kitchen scene before it has duration 0.0; without the thunder scene it
    has duration 5.0.  The other scene, the rain, differs in its number
    only. *)
Lemma missed_scene_changes_previous_boundary :
  extract_boundaries kitchen_words [kitchen_scene; thunder_scene; rain_scene] [] =
    ([Stderr "Warning: Could not find scene '02-thunder' starting with 'Suddenly a thunderclap'"],
     Returned [ mkBoundary 1 "01-kitchen" 0 "The kitchen was quiet" (Some 0%float);
                mkBoundary 2 "02-thunder" 0 "Suddenly a thunderclap" (Some 5%float);
                mkBoundary 3 "03-rain" 5 "Outside the rain fell" (Some 1.3%float) ]) /\
  extract_boundaries kitchen_words [kitchen_scene; rain_scene] [] =
    ([], Returned [ mkBoundary 1 "01-kitchen" 0 "The kitchen was quiet" (Some 5%float);
                    mkBoundary 2 "03-rain" 5 "Outside the rain fell" (Some 1.3%float) ]) /\
  (0 =? 5)%float = false.
Proof.
  split; [vm_compute; reflexivity|]. split; [vm_compute; reflexivity | reflexivity].
Qed.

(** Against C3 as stated: the two starts are 0.0625 s apart and the first
    duration is 0.06. *)
Lemma duration_is_not_the_exact_difference :
  extract_boundaries close_words close_scenes [] =
    ([], Returned [ mkBoundary 1 "01-a" 0 "alpha" (Some 0.06%float);
                    mkBoundary 2 "02-b" 0.0625 "beta" (Some 0.44%float) ]) /\
  (0.0625 - 0 =? 0.0625)%float = true /\
  (0.06 =? 0.0625)%float = false.
Proof.
  split; [vm_compute; reflexivity|]. split; reflexivity.
Qed.

(** A narration that begins 2 s into the audio has durations that sum to 0.5
    while [totalDuration] is 2.5; and four scenes of 1.00390625 s from 0 on
    have durations that sum to 4 while [totalDuration] is 4.015625.  In both
    runs every float operation is exact. *)
Lemma durations_do_not_sum_to_total :
  (exists bs s,
      extract_boundaries late_words late_scenes [] = ([], Returned bs) /\
      sum_durations 0 bs = Returned s /\
      s = 0.5%float /\ total_duration late_words = 2.5%float /\
      (abs (s - total_duration late_words) <=? 0.01)%float = false) /\
  (exists bs s,
      extract_boundaries drift_words drift_scenes [] = ([], Returned bs) /\
      map start_seconds bs = [0; 1.00390625; 2.0078125; 3.01171875]%float /\
      sum_durations 0 bs = Returned s /\
      s = 4%float /\ total_duration drift_words = 4.015625%float /\
      (abs (s - total_duration drift_words) <=? 0.01)%float = false).
Proof.
  split.
  - eexists. eexists. split; [vm_compute; reflexivity|].
    split; [vm_compute; reflexivity|].
    repeat split; reflexivity.
  - eexists. eexists. split; [vm_compute; reflexivity|].
    split; [reflexivity|].
    split; [vm_compute; reflexivity|].
    repeat split; reflexivity.
Qed.

(** Against C7 as stated: the slug ["my scene!"] gives the component name
    [Scene01My Scene!], which is no identifier, and the formatter returns the
    rendering with that name instead of raising. *)
Lemma malformed_slug_is_rendered :
  slug_parts shouting_boundary = Returned ("01", ["my scene!"]) /\
  component_name "01" ["my scene!"] = "Scene01My Scene!" /\
  is_identifier "Scene01My Scene!" = false /\
  (forall str_number fmt_2f : float -> string,
      format_typescript_lines str_number fmt_2f [shouting_boundary] =
      Returned
        [ "// Scene timing data (at 30fps)";
          "// Timings extracted from full-narration.wav transcript";
          "const FPS = 30;";
          "const scenes = [";
          "  {";
          "    number: 1,";
          "    slug: 'my scene!',";
          "    durationSeconds: " ++ str_number 5%float ++ ",  // "
            ++ fmt_2f 0%float ++ "s - " ++ fmt_2f (0 + 5)%float ++ "s";
          "    component: Scene01My Scene!,";
          "  },";
          "];" ]) /\
  (forall (str_number fmt_2f : float -> string) (e : exn),
      format_typescript str_number fmt_2f [shouting_boundary] <> Raised e).
Proof.
  split; [reflexivity|]. split; [reflexivity|]. split; [reflexivity|].
  split; [intros; reflexivity|].
  intros str_number fmt_2f e H. discriminate H.
Qed.

(** ** The theorems at work on the scenarios *)

Lemma find_phrase_in_transcript_first_match_witness :
  first_match "The kitchen" kitchen_words 0 0 /\
  find_phrase_in_transcript "The kitchen" kitchen_words 0 = Returned (Some 0%float).
Proof.
  assert (Hfirst : first_match "The kitchen" kitchen_words 0 0).
  { split; [|split].
    - unfold in_search_range. rewrite the_kitchen_tokens. simpl. lia.
    - unfold prefix_rule. rewrite the_kitchen_tokens.
      intros j tok Hj. destruct j as [|[|j]]; simpl in Hj.
      + injection Hj as <-. eexists. split; [reflexivity|].
        apply startswith_iff. reflexivity.
      + injection Hj as <-. eexists. split; [reflexivity|].
        apply startswith_iff. reflexivity.
      + destruct j; discriminate Hj.
    - intros k _ _. lia. }
  split; [exact Hfirst|].
  exact (proj1 (find_phrase_in_transcript_first_match "The kitchen" kitchen_words 0)
           0%nat (mkWord "The" 0 0.2) Hfirst eq_refl).
Defined.

Lemma missed_scene_fallback_witness :
  exists log2 before b after before' after',
    extract_boundaries kitchen_words [kitchen_scene; thunder_scene; rain_scene] [] =
      (Stderr "Warning: Could not find scene '02-thunder' starting with 'Suddenly a thunderclap'"
         :: log2,
       Returned (before ++ b :: after)%list) /\
    List.length before = 1%nat /\
    number b = 2%nat /\ slug b = "02-thunder" /\
    start_seconds b = last (map start_seconds before) 0%float /\
    extract_boundaries kitchen_words [kitchen_scene; rain_scene] [] =
      (log2, Returned (before' ++ after')%list) /\
    Forall2 (same_scene 0) before before' /\
    Forall2 (renumbered 1) after after'.
Proof.
  destruct (missed_scene_fallback kitchen_words [kitchen_scene] [rain_scene]
              "02-thunder" "Suddenly a thunderclap" []
              (mkState [mkBoundary 1 "01-kitchen" 0 "The kitchen was quiet" None] 0 4))
    as (st1' & log2 & before & b & after & _ & _ & Hrun & Hlen & Hn & Hs & _ & Hst & _ & Hother).
  - discriminate.
  - vm_compute. reflexivity.
  - vm_compute. reflexivity.
  - destruct Hother as (before' & after' & Hrun' & Hsame & _ & Hafter); [discriminate|].
    exists log2, before, b, after, before', after'.
    repeat split; assumption.
Defined.

Lemma durations_are_rounded_differences_witness :
  exists log bs,
    extract_boundaries close_words close_scenes [] = (log, Returned bs) /\
    List.length bs = List.length close_scenes /\
    (forall i b b',
        nth_error bs i = Some b -> nth_error bs (S i) = Some b' ->
        duration_seconds b =
          Some (PyFloat.round2 (start_seconds b' - start_seconds b))) /\
    (forall b,
        nth_error bs (List.length bs - 1) = Some b ->
        duration_seconds b =
          Some (PyFloat.round2 (last (map end_ close_words) 0%float - start_seconds b))).
Proof.
  apply (durations_are_rounded_differences close_words close_scenes); discriminate.
Defined.

Lemma exact_run_found_witness :
  exact_run "the cat" cattle_words 2 /\
  find_phrase_in_transcript "the cat" cattle_words 2 = Returned (Some 1%float).
Proof.
  pose proof the_cat_run as Hrun.
  split; [exact Hrun|].
  apply (exact_run_found "the cat" cattle_words 2 2 (mkWord "the" 1 1.25) Hrun).
  - reflexivity.
  - lia.
  - intros i Hi. lia.
Defined.

Lemma matched_scene_advances_cursor_witness :
  find_phrase_in_transcript "The kitchen was quiet" kitchen_words 0 =
    Returned (Some 0%float) /\
  exists st',
    scene_step kitchen_words 0 kitchen_scene initial_state [] = ([], Returned st') /\
    search_from st' = 4%nat.
Proof.
  assert (Hfound : find_phrase_in_transcript "The kitchen was quiet" kitchen_words
                     (search_from initial_state) = Returned (Some 0%float))
    by (vm_compute; reflexivity).
  split; [exact Hfound|].
  destruct (matched_scene_advances_cursor kitchen_words 0 "01-kitchen"
              "The kitchen was quiet" initial_state [] 0 Hfound)
    as (st' & Hstep & Hfirst & _).
  exists st'. split; [exact Hstep|].
  apply (Hfirst 4%nat (mkWord "Outside" 5 5.4)).
  - reflexivity.
  - reflexivity.
  - intros k w' Hk Hw'.
    do 4 (destruct k as [|k]; [injection Hw' as <-; reflexivity|]).
    lia.
Defined.

Lemma format_typescript_accepts_every_slug_witness :
  exists lines,
    format_typescript_lines PyFloat.fmt_2f PyFloat.fmt_2f [shouting_boundary] = Returned lines /\
    format_typescript PyFloat.fmt_2f PyFloat.fmt_2f [shouting_boundary] =
      Returned (PyStr.join newline lines) /\
    forall b, In b [shouting_boundary] ->
      exists num name_parts,
        slug_parts b = Returned (num, name_parts) /\
        In ("    component: " ++ component_name num name_parts ++ ",") lines.
Proof.
  apply (format_typescript_accepts_every_slug PyFloat.fmt_2f PyFloat.fmt_2f
           [shouting_boundary]).
  constructor; [discriminate | constructor].
Defined.

Lemma json_takes_precedence_witness :
  main PyFloat.fmt_2f PyFloat.fmt_2f show_json show_table
    (mkArgs "scenes" "full-narration.json" true true)
    kitchen_files =
  main PyFloat.fmt_2f PyFloat.fmt_2f show_json show_table
    (mkArgs "scenes" "full-narration.json" true false)
    kitchen_files /\
  exists log bs,
    extract_boundaries kitchen_words [kitchen_scene; rain_scene] [] = (log, Returned bs) /\
    main PyFloat.fmt_2f PyFloat.fmt_2f show_json show_table
      (mkArgs "scenes" "full-narration.json" true true)
      kitchen_files [] =
      ((log ++ [Stdout (show_json bs)])%list, Returned tt) /\
    stdout_lines (log ++ [Stdout (show_json bs)])%list = [show_json bs].
Proof.
  destruct (json_takes_precedence PyFloat.fmt_2f PyFloat.fmt_2f show_json show_table
              (mkArgs "scenes" "full-narration.json" true true)
              kitchen_files eq_refl eq_refl) as [Hsame Hprints].
  split; [exact Hsame|].
  exact (Hprints kitchen_json kitchen_words kitchen_texts
           eq_refl eq_refl eq_refl eq_refl eq_refl
           ltac:(discriminate) ltac:(discriminate)).
Defined.

Lemma first_scene_missing_starts_at_zero_witness :
  exists log bs b,
    extract_boundaries late_words (thunder_scene :: late_scenes) [] = (log, Returned bs) /\
    nth_error bs 0 = Some b /\
    slug b = "02-thunder" /\
    start_seconds b = 0%float.
Proof.
  apply (first_scene_missing_starts_at_zero late_words "02-thunder"
           "Suddenly a thunderclap" late_scenes).
  - discriminate.
  - apply no_match_iff. vm_compute. reflexivity.
Defined.

(** * Further properties of the code *)

Local Open Scope list_scope.

(** ** Normalization and stripping *)

Lemma in_ranges_chars (c : N) (ranges : list (N * N)) :
  Unicode.in_ranges c ranges = true -> In c (range_chars ranges).
Proof.
  unfold Unicode.in_ranges, range_chars. intros H.
  apply existsb_exists in H. destruct H as ([lo hi] & Hin & Hc).
  cbn [fst snd] in Hc. apply andb_true_iff in Hc. destruct Hc as [Hlo Hhi].
  apply N.leb_le in Hlo, Hhi.
  apply in_flat_map. exists (lo, hi). split; [exact Hin|].
  cbn [fst snd]. apply in_map_iff. exists (N.to_nat (c - lo)). split.
  - rewrite N2Nat.id. lia.
  - apply in_seq. lia.
Qed.

Lemma spaces_are_plain : forallb plain_space (range_chars Unicode.space_ranges) = true.
Proof. vm_compute. reflexivity. Qed.

Lemma space_is_plain (c : N) : Unicode.is_space c = true -> plain_space c = true.
Proof.
  intros H. apply in_ranges_chars in H.
  pose proof spaces_are_plain as Hall. rewrite forallb_forall in Hall. now apply Hall.
Qed.

Lemma stable_lower_full (c : N) :
  stable c = true -> (c =? 0x3A3)%N = false /\ Unicode.to_lower_full c = [c].
Proof.
  unfold stable. intros Hc.
  apply andb_true_iff in Hc. destruct Hc as [Hc Hlow].
  apply andb_true_iff in Hc. destruct Hc as [Hsigma Hdot].
  apply negb_true_iff in Hsigma, Hdot. apply N.eqb_eq in Hlow.
  split; [exact Hsigma|]. unfold Unicode.to_lower_full. now rewrite Hdot, Hlow.
Qed.

Lemma final_sigma_eq (before after : list N) :
  Unicode.final_sigma before after = cased_before before && uncased_after after.
Proof.
  unfold Unicode.final_sigma, cased_before, uncased_after.
  destruct (Unicode.skip_ignorable before); reflexivity.
Qed.

(** What stands before matters only through [cased_before]. *)
Lemma lower_from_before (s : list N) :
  forall b1 b2,
    cased_before b1 = cased_before b2 ->
    Unicode.lower_from b1 s = Unicode.lower_from b2 s.
Proof.
  induction s as [|c rest IH]; intros b1 b2 Hb; [reflexivity|].
  cbn [Unicode.lower_from]. rewrite !final_sigma_eq, Hb.
  f_equal. apply IH. unfold cased_before. cbn [Unicode.skip_ignorable].
  destruct (Unicode.is_case_ignorable c); [exact Hb | reflexivity].
Qed.

Lemma normalize_word_lstrip (s : list N) :
  Unicode.normalize_word (Unicode.lstrip s) = Unicode.normalize_word s.
Proof.
  unfold Unicode.normalize_word, Unicode.lower.
  induction s as [|c rest IH]; [reflexivity|].
  cbn [Unicode.lstrip]. destruct (Unicode.is_space c) eqn:E; [|reflexivity].
  rewrite IH. cbn [Unicode.lower_from].
  pose proof (space_is_plain c E) as Hp. unfold plain_space in Hp.
  apply andb_true_iff in Hp. destruct Hp as [Hp Hst].
  apply andb_true_iff in Hp. destruct Hp as [Hp Hcased].
  apply andb_true_iff in Hp. destruct Hp as [Hword Hign].
  apply negb_true_iff in Hword, Hign, Hcased.
  destruct (stable_lower_full c Hst) as [Hsigma Hlow].
  rewrite Hsigma, Hlow. cbn [app filter]. rewrite Hword.
  f_equal. apply lower_from_before.
  unfold cased_before. cbn [Unicode.skip_ignorable]. now rewrite Hign, Hcased.
Qed.

Lemma lstrip_split (s : list N) :
  exists ws, s = ws ++ Unicode.lstrip s /\ forallb Unicode.is_space ws = true.
Proof.
  induction s as [|c rest (ws & Hs & Hws)]; [now exists []|].
  cbn [Unicode.lstrip]. destruct (Unicode.is_space c) eqn:E.
  - exists (c :: ws). cbn [app forallb]. rewrite E, Hws. split; [now f_equal | reflexivity].
  - now exists [].
Qed.

Lemma rstrip_split (s : list N) :
  exists ws, s = Unicode.rstrip s ++ ws /\ forallb Unicode.is_space ws = true.
Proof.
  unfold Unicode.rstrip.
  destruct (lstrip_split (rev s)) as (ws & Hs & Hws).
  exists (rev ws). split.
  - rewrite <- rev_app_distr, <- Hs. symmetry. apply rev_involutive.
  - rewrite forallb_forall in *. intros c Hc. apply Hws. now apply in_rev.
Qed.

Lemma uncased_after_spaces (s ws : list N) :
  forallb Unicode.is_space ws = true ->
  uncased_after (s ++ ws) = uncased_after s.
Proof.
  intros Hws. unfold uncased_after.
  induction s as [|c rest IH].
  - destruct ws as [|w ws]; [reflexivity|].
    cbn [forallb] in Hws. apply andb_true_iff in Hws. destruct Hws as [Hw _].
    pose proof (space_is_plain w Hw) as Hp. unfold plain_space in Hp.
    apply andb_true_iff in Hp. destruct Hp as [Hp _].
    apply andb_true_iff in Hp. destruct Hp as [Hp Hcased].
    apply andb_true_iff in Hp. destruct Hp as [_ Hign].
    apply negb_true_iff in Hign.
    cbn [app Unicode.skip_ignorable]. rewrite Hign. exact Hcased.
  - cbn [app Unicode.skip_ignorable].
    destruct (Unicode.is_case_ignorable c); [exact IH | reflexivity].
Qed.

Lemma normalize_spaces (ws : list N) :
  forallb Unicode.is_space ws = true ->
  forall before, filter Unicode.is_word (Unicode.lower_from before ws) = [].
Proof.
  induction ws as [|w ws IH]; intros Hws before; [reflexivity|].
  cbn [forallb] in Hws. apply andb_true_iff in Hws. destruct Hws as [Hw Hws].
  pose proof (space_is_plain w Hw) as Hp. unfold plain_space in Hp.
  apply andb_true_iff in Hp. destruct Hp as [Hp Hst].
  apply andb_true_iff in Hp. destruct Hp as [Hp _].
  apply andb_true_iff in Hp. destruct Hp as [Hword _].
  apply negb_true_iff in Hword.
  destruct (stable_lower_full w Hst) as [Hsigma Hlow].
  cbn [Unicode.lower_from]. rewrite Hsigma, Hlow. cbn [app filter].
  rewrite Hword. now apply IH.
Qed.

Lemma normalize_word_trailing_spaces (s ws : list N) :
  forallb Unicode.is_space ws = true ->
  forall before,
    filter Unicode.is_word (Unicode.lower_from before (s ++ ws)) =
    filter Unicode.is_word (Unicode.lower_from before s).
Proof.
  intros Hws. induction s as [|c rest IH]; intros before.
  - cbn [app Unicode.lower_from filter]. now apply normalize_spaces.
  - cbn [app Unicode.lower_from]. rewrite !filter_app, IH.
    rewrite !final_sigma_eq, (uncased_after_spaces rest ws Hws). reflexivity.
Qed.

Lemma normalize_word_rstrip (s : list N) :
  Unicode.normalize_word (Unicode.rstrip s) = Unicode.normalize_word s.
Proof.
  destruct (rstrip_split s) as (ws & Hs & Hws).
  rewrite Hs at 2. unfold Unicode.normalize_word, Unicode.lower.
  symmetry. now apply normalize_word_trailing_spaces.
Qed.

(** X2. Stripping the white space around a word, as [load_transcript] does,
    never changes its normalized form. *)
Theorem normalize_word_strip (s : list N) :
  Unicode.normalize_word (Unicode.strip s) = Unicode.normalize_word s.
Proof.
  unfold Unicode.strip. now rewrite normalize_word_rstrip, normalize_word_lstrip.
Qed.

Lemma ascii_word_chars :
  forallb (fun c => implb (Unicode.is_word c && stable c) (is_lower_digit_underscore c))
    ascii_chars = true.
Proof. vm_compute. reflexivity. Qed.

Lemma normalized_piece_length (before rest : list N) (c : N) :
  (List.length
     (filter Unicode.is_word
        (if (c =? 0x3A3)%N
         then [if Unicode.final_sigma before rest then 0x3C2%N else 0x3C3%N]
         else Unicode.to_lower_full c)) <= 1)%nat.
Proof.
  destruct (c =? 0x3A3)%N.
  - cbn [filter]. destruct (Unicode.is_word _); simpl; lia.
  - unfold Unicode.to_lower_full.
    destruct (c =? 0x130)%N; [vm_compute; lia|].
    cbn [filter]. destruct (Unicode.is_word _); simpl; lia.
Qed.

Lemma normalize_word_length (s : list N) :
  forall before,
    (List.length (filter Unicode.is_word (Unicode.lower_from before s)) <= List.length s)%nat.
Proof.
  induction s as [|c rest IH]; intros before; [simpl; lia|].
  cbn [Unicode.lower_from]. rewrite filter_app, length_app.
  pose proof (normalized_piece_length before rest c).
  specialize (IH (c :: before)). simpl List.length. lia.
Qed.

(** X1. Every character of a normalized word is a word character that
    lowercasing leaves unchanged; when it is an ASCII character it is a
    lowercase letter, a digit or the underscore.  A normalized word is never
    longer than the word it was made from. *)
Theorem normalize_word_alphabet (x : list N) :
  (forall c, In c (Unicode.normalize_word x) ->
     Unicode.is_word c = true /\ Unicode.lower [c] = [c] /\
     ((c < 128)%N -> is_lower_digit_underscore c = true)) /\
  (List.length (Unicode.normalize_word x) <= List.length x)%nat.
Proof.
  split; [|apply normalize_word_length].
  intros c Hc. unfold Unicode.normalize_word in Hc.
  apply filter_In in Hc. destruct Hc as [Hin Hword].
  pose proof (lower_from_stable x []) as Hst.
  rewrite forallb_forall in Hst. specialize (Hst c Hin).
  split; [exact Hword|]. split.
  - unfold Unicode.lower. apply lower_from_fixed. cbn [forallb]. now rewrite Hst.
  - intros Hascii.
    pose proof ascii_word_chars as Hall. rewrite forallb_forall in Hall.
    assert (Hc : In c ascii_chars).
    { unfold ascii_chars. apply in_map_iff. exists (N.to_nat c).
      split; [apply N2Nat.id | apply in_seq; lia]. }
    specialize (Hall c Hc). cbv beta in Hall. now rewrite Hword, Hst in Hall.
Qed.

(** ** TranscriptLoader *)




(** ** SceneOpeningExtractor *)

Lemma sappend_nil_r (s : string) : (s ++ EmptyString)%string = s.
Proof. induction s as [|c s IH]; simpl; [reflexivity | now rewrite IH]. Qed.

Lemma sappend_assoc (a b c : string) :
  ((a ++ b) ++ c)%string = (a ++ (b ++ c))%string.
Proof. induction a as [|x a IH]; simpl; [reflexivity | now rewrite IH]. Qed.

Lemma sforall_app (p : ascii -> bool) (a b : string) :
  PyStr.sforall p (a ++ b)%string = PyStr.sforall p a && PyStr.sforall p b.
Proof.
  induction a as [|x a IH]; simpl; [reflexivity|].
  now rewrite IH, andb_assoc.
Qed.

Lemma split_ws_nil (cur : string) :
  PyStr.split_ws cur EmptyString =
  match cur with EmptyString => [] | _ => [cur] end.
Proof. reflexivity. Qed.

Lemma split_ws_cons (cur : string) (c : ascii) (s : string) :
  PyStr.split_ws cur (String c s) =
  if PyStr.is_space c
  then match cur with
       | EmptyString => PyStr.split_ws EmptyString s
       | _ => cur :: PyStr.split_ws EmptyString s
       end
  else PyStr.split_ws (cur ++ String c EmptyString)%string s.
Proof. reflexivity. Qed.

(** Reading a run of non-space characters extends the current token. *)
Lemma split_ws_run (t : string) :
  forall cur s,
    PyStr.sforall (fun c => negb (PyStr.is_space c)) t = true ->
    PyStr.split_ws cur (t ++ s)%string = PyStr.split_ws (cur ++ t)%string s.
Proof.
  induction t as [|c t IH]; intros cur s Ht.
  - now rewrite sappend_nil_r.
  - simpl in Ht. apply andb_true_iff in Ht. destruct Ht as [Hc Ht].
    apply negb_true_iff in Hc.
    change (String c t ++ s)%string with (String c (t ++ s)%string).
    rewrite split_ws_cons, Hc, IH by exact Ht.
    now rewrite sappend_assoc.
Qed.

(** [split] gives tokens. *)
Lemma split_ws_tokens (s : string) :
  forall cur,
    PyStr.sforall (fun c => negb (PyStr.is_space c)) cur = true ->
    Forall is_token (PyStr.split_ws cur s).
Proof.
  induction s as [|c s IH]; intros cur Hcur.
  - rewrite split_ws_nil. destruct cur as [|a cur]; [constructor|].
    constructor; [|constructor]. split; [discriminate | exact Hcur].
  - rewrite split_ws_cons. destruct (PyStr.is_space c) eqn:E.
    + destruct cur as [|a cur]; [now apply IH|].
      constructor; [split; [discriminate | exact Hcur] | now apply IH].
    + apply IH. rewrite sforall_app, Hcur. simpl. now rewrite E.
Qed.

(** The round trip of [" ".join] and [split] on tokens. *)
Lemma split_join_tokens (toks : list string) :
  Forall is_token toks -> PyStr.split (PyStr.join " " toks) = toks.
Proof.
  unfold PyStr.split. induction 1 as [|t rest [Hne Ht] Hrest IH]; [reflexivity|].
  destruct rest as [|t' rest].
  - cbn [PyStr.join].
    rewrite <- (sappend_nil_r t) at 1.
    rewrite split_ws_run by exact Ht. cbn [append]. rewrite split_ws_nil.
    destruct t; [congruence | reflexivity].
  - change (PyStr.join " " (t :: t' :: rest))
      with (t ++ String " " (PyStr.join " " (t' :: rest)))%string.
    rewrite split_ws_run by exact Ht. cbn [append].
    rewrite split_ws_cons. cbn [PyStr.is_space].
    change (PyStr.is_space " ") with true. cbv iota.
    rewrite IH. destruct t; [congruence | reflexivity].
Qed.

Lemma split_ws_lstrip (s : string) :
  PyStr.split_ws EmptyString (PyStr.lstrip s) = PyStr.split_ws EmptyString s.
Proof.
  induction s as [|c s IH]; [reflexivity|].
  cbn [PyStr.lstrip]. rewrite (split_ws_cons EmptyString c s).
  destruct (PyStr.is_space c) eqn:E; [exact IH|].
  rewrite split_ws_cons, E. reflexivity.
Qed.

Lemma split_ws_rstrip (s : string) :
  forall cur, PyStr.split_ws cur (PyStr.rstrip s) = PyStr.split_ws cur s.
Proof.
  induction s as [|c s IH]; intros cur; [reflexivity|].
  cbn [PyStr.rstrip]. rewrite (split_ws_cons cur c s).
  destruct (PyStr.rstrip s) as [|a r] eqn:Er.
  - destruct (PyStr.is_space c) eqn:E.
    + rewrite <- (IH EmptyString). rewrite !split_ws_nil. reflexivity.
    + rewrite split_ws_cons, E. apply IH.
  - rewrite split_ws_cons. rewrite !IH. reflexivity.
Qed.

Lemma split_strip (s : string) : PyStr.split (PyStr.strip s) = PyStr.split s.
Proof.
  unfold PyStr.split, PyStr.strip. now rewrite split_ws_rstrip, split_ws_lstrip.
Qed.

Lemma Forall_take {A : Type} (P : A -> Prop) (n : nat) (l : list A) :
  Forall P l -> Forall P (firstn n l).
Proof.
  intros H. revert n. induction H as [|x l Hx _ IH]; intros [|n]; simpl;
    constructor; auto.
Qed.

Lemma opening_phrases_loop_cases (scene_files : list (string * string)) :
  forall acc,
    exists new,
      opening_phrases_loop scene_files acc = acc ++ new /\
      Forall2 (fun f p =>
                 fst p = fst f /\
                 PyStr.split (snd p) = firstn 5 (PyStr.split (snd f)))
              scene_files new.
Proof.
  induction scene_files as [|[stem file_text] rest IH]; intros acc.
  - exists []. split; [now rewrite app_nil_r | constructor].
  - cbn [opening_phrases_loop].
    destruct (IH (acc ++ [(stem, PyStr.join " " (firstn 5 (PyStr.split (PyStr.strip file_text))))]))
      as (new & Hrun & Hnew).
    eexists. split; [rewrite Hrun, <- app_assoc; reflexivity|].
    constructor; [|exact Hnew]. split; [reflexivity|].
    cbn [snd]. rewrite split_strip. apply split_join_tokens.
    apply Forall_take. apply split_ws_tokens. reflexivity.
Qed.

(** X4. [get_scene_opening_phrases] gives one pair per scene file, in the
    order of the files, with the file's stem; split again, the opening phrase
    gives back exactly the first five white-space separated tokens of the
    file's text (all of them when there are fewer). *)
Theorem opening_phrase_is_first_five_tokens (scene_files : list (string * string)) :
  Forall2 (fun f p =>
             fst p = fst f /\
             PyStr.split (snd p) = firstn 5 (PyStr.split (snd f)) /\
             (List.length (PyStr.split (snd p)) <= 5)%nat)
          scene_files (get_scene_opening_phrases scene_files).
Proof.
  unfold get_scene_opening_phrases.
  destruct (opening_phrases_loop_cases scene_files []) as (new & -> & Hnew).
  simpl. induction Hnew as [|f p fs ps [Hs Hp] _ IH]; constructor; [|exact IH].
  split; [exact Hs|]. split; [exact Hp|].
  rewrite Hp. apply firstn_le_length.
Qed.

(** ** PhraseMatcher: edge cases *)

Lemma split_ws_spaces (s : string) :
  PyStr.sforall PyStr.is_space s = true -> PyStr.split_ws EmptyString s = [].
Proof.
  induction s as [|c s IH]; intros H; [reflexivity|].
  simpl in H. apply andb_true_iff in H. destruct H as [Hc Hs].
  rewrite split_ws_cons, Hc. now apply IH.
Qed.

(** X5. A phrase without tokens (empty or white space only) is found at the
    cursor itself: the call returns the start of the word at the cursor. *)
Theorem blank_phrase_found_at_cursor (phrase : string)
    (words : list TranscriptWord) (cursor : nat) (w : TranscriptWord) :
  PyStr.sforall PyStr.is_space phrase = true ->
  nth_error words cursor = Some w ->
  find_phrase_in_transcript phrase words cursor = Returned (Some (start w)).
Proof.
  intros Hblank Hw.
  assert (Htoks : phrase_tokens phrase = []).
  { unfold phrase_tokens, PyStr.split. now rewrite split_ws_spaces. }
  assert (Hlt : (cursor < List.length words)%nat)
    by (apply nth_error_Some; congruence).
  apply first_match_found with (i := cursor); [|exact Hw].
  split; [|split].
  - unfold in_search_range. rewrite Htoks. simpl. lia.
  - unfold prefix_rule. rewrite Htoks. apply tokens_match_nil.
  - intros k [Hk _] _. exact Hk.
Qed.

(** X6. A phrase that is not found from a cursor is not found from any later
    cursor either. *)
Theorem not_found_from_later_cursor (phrase : string)
    (words : list TranscriptWord) (cursor cursor' : nat) :
  find_phrase_in_transcript phrase words cursor = Returned None ->
  (cursor <= cursor')%nat ->
  find_phrase_in_transcript phrase words cursor' = Returned None.
Proof.
  intros Hnone Hle. apply no_match_iff. intros i [Hi1 Hi2].
  apply (proj1 (no_match_iff phrase words cursor) Hnone).
  split; [lia | exact Hi2].
Qed.

(** X7. When fewer words remain from the cursor than the phrase has tokens,
    the call returns [None] without looking at any word. *)
Theorem too_few_words_not_found (phrase : string)
    (words : list TranscriptWord) (cursor : nat) :
  (List.length words < cursor + List.length (PyStr.split phrase))%nat ->
  find_phrase_in_transcript phrase words cursor = Returned None.
Proof.
  intros Hfew. apply no_match_iff. intros i [Hi1 Hi2].
  unfold phrase_tokens in Hi2. rewrite length_map in Hi2. lia.
Qed.

(** ** BoundaryAssembler: invariants of a run *)

Lemma calculate_durations_nth_set (total : float) (bs : list Boundary) :
  forall i b0,
    nth_error bs i = Some b0 ->
    exists d, nth_error (calculate_durations total bs) i = Some (set_duration b0 d).
Proof.
  induction bs as [|b rest IH]; intros i b0 Hb.
  - destruct i; discriminate Hb.
  - destruct i as [|i].
    + simpl in Hb. injection Hb as ->. simpl. eauto.
    + simpl in Hb. simpl. now apply IH.
Qed.

(** X8. For a non-empty transcript and a non-empty scene list
    [extract_boundaries] always returns, raising nothing and writing only
    after what was logged before: it gives one boundary per scene, in scene
    order, numbered from 1, with the scene's slug and phrase and with its
    duration set. *)
Theorem extract_boundaries_one_boundary_per_scene (words : list TranscriptWord)
    (phrases : list (string * string)) (log : list event) :
  words <> [] -> phrases <> [] ->
  exists nl bs,
    extract_boundaries words phrases log = (log ++ nl, Returned bs) /\
    List.length bs = List.length phrases /\
    forall i scene_slug phrase,
      nth_error phrases i = Some (scene_slug, phrase) ->
      exists b,
        nth_error bs i = Some b /\
        number b = S i /\ slug b = scene_slug /\ opening_phrase b = phrase /\
        duration_seconds b <> None.
Proof.
  intros Hw Hp.
  destruct (extract_boundaries_returns words phrases log Hw Hp)
    as (nl & raw & Hrun & Hs & Hph & Hn).
  exists nl, (calculate_durations (total_duration words) raw).
  split; [exact Hrun|].
  assert (Hlen : List.length raw = List.length phrases).
  { rewrite <- (length_map slug), Hs. apply length_map. }
  split; [now rewrite calculate_durations_length|].
  intros i scene_slug phrase Hi.
  assert (Hlt : (i < List.length raw)%nat).
  { rewrite Hlen. apply nth_error_Some. congruence. }
  destruct (nth_error raw i) as [b0|] eqn:Hb0;
    [|apply nth_error_None in Hb0; lia].
  destruct (calculate_durations_nth_set (total_duration words) raw i b0 Hb0) as [d Hd].
  exists (set_duration b0 d). split; [exact Hd|].
  cbn [number slug opening_phrase duration_seconds set_duration].
  pose proof (f_equal (fun l => nth_error l i) Hs) as Es.
  pose proof (f_equal (fun l => nth_error l i) Hph) as Eph.
  pose proof (f_equal (fun l => nth_error l i) Hn) as En.
  cbv beta in Es, Eph, En.
  rewrite !nth_error_map, Hb0 in *. rewrite Hi in Es, Eph.
  rewrite nth_error_seq in En.
  assert (Hlt' : (i <? List.length phrases)%nat = true) by (apply Nat.ltb_lt; lia).
  rewrite Hlt' in En. simpl in Es, Eph, En.
  injection Es as Es. injection Eph as Eph. injection En as En.
  repeat split; try assumption. discriminate.
Qed.

Lemma calculate_durations_starts (P : float -> Prop) (total : float) (bs : list Boundary) :
  Forall (fun b => P (start_seconds b)) bs ->
  Forall (fun b => P (start_seconds b)) (calculate_durations total bs).
Proof.
  induction 1 as [|b rest Hb _ IH]; [constructor|].
  cbn [calculate_durations]. constructor; [exact Hb | exact IH].
Qed.

Lemma scene_loop_known_starts (words : list TranscriptWord)
    (phrases : list (string * string)) :
  forall i st log log' st',
    scene_loop words i phrases st log = (log', Returned st') ->
    known_start words (last_end st) ->
    Forall (fun b => known_start words (start_seconds b)) (boundaries st) ->
    known_start words (last_end st') /\
    Forall (fun b => known_start words (start_seconds b)) (boundaries st').
Proof.
  induction phrases as [|[sl phrase] rest IH]; intros i st log log' st' Hrun Hle Hbs.
  - injection Hrun as _ <-. now split.
  - rewrite scene_loop_cons, scene_step_eq in Hrun.
    pose proof (find_phrase_in_transcript_cases phrase words (search_from st)) as Hf.
    destruct (find_phrase_in_transcript phrase words (search_from st)) as [[t|]|e];
      [| |discriminate Hrun].
    + destruct Hf as (k & w & _ & Hw & ->).
      assert (Hk : known_start words (start w)).
      { right. exists w. split; [eapply nth_error_In; eassumption | reflexivity]. }
      apply IH in Hrun; [exact Hrun | exact Hk |].
      cbn [boundaries]. apply Forall_app. split; [exact Hbs|].
      constructor; [exact Hk | constructor].
    + apply IH in Hrun; [exact Hrun | exact Hle |].
      cbn [boundaries]. apply Forall_app. split; [exact Hbs|].
      constructor; [exact Hle | constructor].
Qed.

(** X9. Every start time that [extract_boundaries] returns is the start of
    some transcript word, or 0, the value used while no scene has been
    found. *)
Theorem boundary_starts_are_word_starts (words : list TranscriptWord)
    (phrases : list (string * string)) (log log' : list event)
    (bs : list Boundary) :
  extract_boundaries words phrases log = (log', Returned bs) ->
  Forall (fun b => start_seconds b = 0%float \/
                   exists w, In w words /\ start_seconds b = start w) bs.
Proof.
  intros Hrun.
  destruct words as [|w0 words];
    [simpl in Hrun; unfold bind, eprint, sys_exit, raise in Hrun; discriminate Hrun|].
  destruct phrases as [|p0 phrases];
    [simpl in Hrun; unfold bind, eprint, sys_exit, raise in Hrun; discriminate Hrun|].
  rewrite extract_boundaries_eq in Hrun by discriminate.
  destruct (scene_loop (w0 :: words) 0 (p0 :: phrases) initial_state log)
    as [l [st|e]] eqn:Hloop; [|discriminate Hrun].
  injection Hrun as _ <-.
  apply (calculate_durations_starts (known_start (w0 :: words))).
  eapply scene_loop_known_starts.
  - exact Hloop.
  - left. reflexivity.
  - constructor.
Qed.

(** *** The order of floats *)

Lemma SFleb_trans (x y z : spec_float) :
  SFleb x y = true -> SFleb y z = true -> SFleb x z = true.
Proof.
  unfold SFleb, SFcompare.
  destruct x as [sx|sx| |sx mx ex], y as [sy|sy| |sy my ey], z as [sz|sz| |sz mz ez];
    try destruct sx; try destruct sy; try destruct sz;
    try reflexivity; try discriminate; try (intros _ H; exact H); try (intros H _; exact H).
  all: rewrite ?Pos.compare_cont_spec; unfold Pos.switch_Eq.
  all: destruct (Z.compare_spec ex ey), (Z.compare_spec ey ez), (Z.compare_spec ex ez);
         try lia; try discriminate; try reflexivity; subst.
  all: destruct (Pos.compare_spec mx my), (Pos.compare_spec my mz), (Pos.compare_spec mx mz);
         simpl; try lia; try discriminate; try reflexivity.
Qed.

(** [<=] on floats is transitive (NaN is below and above nothing). *)
Lemma leb_trans (x y z : float) :
  (x <=? y)%float = true -> (y <=? z)%float = true -> (x <=? z)%float = true.
Proof. rewrite !FloatAxioms.leb_spec. apply SFleb_trans. Qed.

(** [x - x] is [0.0] for every finite [x]; for an infinity it is NaN. *)
Lemma sub_diag (x : float) : is_finite x = true -> (x - x)%float = 0%float.
Proof.
  intros Hf.
  rewrite <- (SF2Prim_Prim2SF (x - x)), FloatAxioms.sub_spec.
  unfold is_finite, is_nan, is_infinity in Hf.
  rewrite !FloatAxioms.eqb_spec, FloatAxioms.abs_spec in Hf.
  destruct (Prim2SF x) as [s|s| |s m e].
  - destruct s; reflexivity.
  - destruct s; discriminate Hf.
  - discriminate Hf.
  - unfold SF64sub, SFsub. cbv zeta. rewrite Z.sub_diag. reflexivity.
Qed.

(** In a time-ordered transcript the new cursor lies behind the matched
    word whenever it moves, when one more second is a later time. *)
Lemma next_search_from_ordered (words : list TranscriptWord) (phrase : string)
    (cursor : nat) (t : float) :
  time_ordered words -> second_counts words ->
  find_phrase_in_transcript phrase words cursor = Returned (Some t) ->
  (cursor <= next_search_from words t cursor)%nat.
Proof.
  intros Hord Hsec Hfound.
  pose proof (find_phrase_in_transcript_cases phrase words cursor) as Hf.
  rewrite Hfound in Hf. destruct Hf as (i & w & ((Hci & _) & _) & Hw & ->).
  unfold next_search_from.
  pose proof (first_index_cases (fun w' => PyFloat.ge (start w') (start w + 1)) words 0) as H.
  destruct (first_index _ words 0) as [j|]; [|lia].
  destruct H as (_ & (wj & Hwj & Hp) & _). rewrite Nat.sub_0_r in Hwj.
  destruct (Nat.le_gt_cases j i) as [Hji|Hij]; [|lia].
  exfalso. pose proof (Hord j i wj w Hji Hwj Hw) as Hle.
  unfold PyFloat.ge in Hp.
  pose proof (leb_trans _ _ _ Hp Hle) as Hback.
  rewrite (Hsec w (nth_error_In _ _ Hw)) in Hback. discriminate Hback.
Qed.

(** X10. In a transcript whose word starts never decrease, and are times at
    which one more second is a later time, the search cursor never moves
    backwards during the scene loop. *)
Theorem cursor_never_moves_back (words : list TranscriptWord)
    (phrases : list (string * string)) :
  time_ordered words -> second_counts words ->
  forall i st log log' st',
    scene_loop words i phrases st log = (log', Returned st') ->
    (search_from st <= search_from st')%nat.
Proof.
  intros Hord Hsec.
  induction phrases as [|[sl phrase] rest IH]; intros i st log log' st' Hrun.
  - injection Hrun as _ <-. lia.
  - rewrite scene_loop_cons, scene_step_eq in Hrun.
    destruct (find_phrase_in_transcript phrase words (search_from st)) as [[t|]|e] eqn:Hf;
      [| |discriminate Hrun].
    + apply IH in Hrun. cbn [search_from] in Hrun.
      pose proof (next_search_from_ordered words phrase (search_from st) t Hord Hsec Hf). lia.
    + apply IH in Hrun. exact Hrun.
Qed.

(** X11. The one-second skip: in a time-ordered transcript, after the loop
    body has matched a scene at time [t] and some word starts at or after
    [t + 1], any phrase found from the new cursor or later has a start [t']
    with [t' >= t + 1], the sum and the comparison being those of Python
    floats. *)
Theorem skip_ahead_separates_matches (words : list TranscriptWord) (i : nat)
    (scene_slug phrase phrase' : string) (st st1 : loop_state)
    (log log1 : list event) (cursor' : nat) (t t' : float) (w : TranscriptWord) :
  time_ordered words ->
  find_phrase_in_transcript phrase words (search_from st) = Returned (Some t) ->
  scene_step words i (scene_slug, phrase) st log = (log1, Returned st1) ->
  In w words -> PyFloat.ge (start w) (t + 1) = true ->
  (search_from st1 <= cursor')%nat ->
  find_phrase_in_transcript phrase' words cursor' = Returned (Some t') ->
  PyFloat.ge t' (t + 1) = true.
Proof.
  intros Hord Hfound Hstep Hin Hlate Hcur Hfound'.
  rewrite scene_step_eq, Hfound in Hstep. injection Hstep as _ <-.
  cbn [search_from] in Hcur.
  pose proof (find_phrase_in_transcript_cases phrase' words cursor') as Hf.
  rewrite Hfound' in Hf. destruct Hf as (i' & w' & ((Hci & _) & _) & Hw' & ->).
  unfold next_search_from in Hcur.
  pose proof (first_index_cases (fun x => PyFloat.ge (start x) (t + 1)) words 0) as H.
  destruct (first_index _ words 0) as [j|].
  - destruct H as (_ & (wj & Hwj & Hp) & _). rewrite Nat.sub_0_r in Hwj.
    assert (Hji : (j <= i')%nat) by lia.
    pose proof (Hord j i' wj w' Hji Hwj Hw') as Hle.
    unfold PyFloat.ge in *. exact (leb_trans _ _ _ Hp Hle).
  - exfalso. specialize (H w Hin). cbv beta in H. congruence.
Qed.

Lemma calculate_durations_nth_next (total : float) (bs : list Boundary) :
  forall i b0 b1,
    nth_error bs i = Some b0 -> nth_error bs (S i) = Some b1 ->
    nth_error (calculate_durations total bs) i =
      Some (set_duration b0 (PyFloat.round2 (start_seconds b1 - start_seconds b0))).
Proof.
  induction bs as [|b rest IH]; intros i b0 b1 H0 H1.
  - destruct i; discriminate H0.
  - destruct i as [|i].
    + simpl in H0, H1. injection H0 as ->.
      destruct rest as [|b' rest]; [discriminate H1|].
      simpl in H1. injection H1 as ->. reflexivity.
    + simpl in H0. cbn [calculate_durations nth_error]. now apply IH.
Qed.

(** [round(x - x, 2)] is 0 for every finite [x]. *)
Lemma round2_diag (x : float) :
  is_finite x = true -> PyFloat.round2 (x - x) = 0%float.
Proof. intros Hf. rewrite (sub_diag x Hf). reflexivity. Qed.

(** Every start that the loop records is finite when the word starts are. *)
Lemma known_start_finite (words : list TranscriptWord) (t : float) :
  finite_starts words -> known_start words t -> is_finite t = true.
Proof.
  intros Hfin [->|(w & Hin & ->)]; [reflexivity | now apply Hfin].
Qed.

(** X12. When a scene other than the first is not found, the scene before it
    ends up with duration 0: the missed scene takes over its start, and the
    duration pass subtracts the two equal starts.  The word starts are finite
    numbers: for an infinite start the difference is NaN. *)
Theorem missed_scene_zeroes_previous_duration (words : list TranscriptWord)
    (pre post : list (string * string)) (slug0 phrase : string)
    (log1 : list event) (st1 : loop_state) (n : nat) :
  words <> [] ->
  finite_starts words ->
  scene_loop words 0 pre initial_state [] = (log1, Returned st1) ->
  List.length pre = S n ->
  find_phrase_in_transcript phrase words (search_from st1) = Returned None ->
  exists log bs b b',
    extract_boundaries words (pre ++ (slug0, phrase) :: post) [] = (log, Returned bs) /\
    nth_error bs n = Some b /\ nth_error bs (S n) = Some b' /\
    slug b' = slug0 /\
    start_seconds b' = start_seconds b /\
    duration_seconds b = Some 0%float.
Proof.
  intros Hne Hfin Hpre Hlen Hmiss.
  destruct (scene_loop_prefix_state words pre log1 st1 Hne Hpre) as (Hsf & Htracks & Hblen).
  assert (Hknown : known_start words (last_end st1)).
  { eapply scene_loop_known_starts; [exact Hpre | now left | constructor]. }
  destruct (exists_last (l := boundaries st1)) as (front & bl & Hsplit).
  { intros E. rewrite E in Hblen. simpl in Hblen. lia. }
  assert (Hfront : List.length front = n).
  { rewrite Hsplit, length_app in Hblen. simpl in Hblen. lia. }
  assert (Hlast : last_end st1 = start_seconds bl).
  { unfold last_end_tracks in Htracks. rewrite Htracks, Hsplit, map_app.
    cbn [map]. apply last_last. }
  set (bnew := mkBoundary (List.length pre + 1) slug0 (last_end st1) phrase None).
  set (st1' := {| boundaries := boundaries st1 ++ [bnew];
                  last_end := last_end st1;
                  search_from := search_from st1 |}).
  destruct (scene_loop_returns words post (S (List.length pre)) st1'
              (log1 ++ [Stderr (warning slug0 phrase)]) Hsf)
    as (nl & nb & st2 & Hrun2 & Hbs2 & _).
  assert (Hloop : scene_loop words 0 (pre ++ (slug0, phrase) :: post) initial_state [] =
                  ((log1 ++ [Stderr (warning slug0 phrase)]) ++ nl, Returned st2)).
  { rewrite scene_loop_app, Hpre, scene_loop_cons, scene_step_eq, Hmiss.
    simpl Nat.add. exact Hrun2. }
  assert (Hraw : boundaries st2 = front ++ bl :: bnew :: nb).
  { rewrite Hbs2. unfold st1'. cbn [boundaries]. rewrite Hsplit, <- !app_assoc.
    reflexivity. }
  assert (H0 : nth_error (boundaries st2) n = Some bl).
  { rewrite Hraw, nth_error_app2 by lia.
    replace (n - List.length front)%nat with 0%nat by lia. reflexivity. }
  assert (H1 : nth_error (boundaries st2) (S n) = Some bnew).
  { rewrite Hraw, nth_error_app2 by lia.
    replace (S n - List.length front)%nat with 1%nat by lia. reflexivity. }
  destruct (calculate_durations_nth_set (total_duration words) (boundaries st2)
              (S n) bnew H1) as [d Hd].
  exists ((log1 ++ [Stderr (warning slug0 phrase)]) ++ nl),
         (calculate_durations (total_duration words) (boundaries st2)),
         (set_duration bl (PyFloat.round2 (start_seconds bnew - start_seconds bl))),
         (set_duration bnew d).
  split.
  { rewrite extract_boundaries_eq by (assumption || (destruct pre; discriminate)).
    rewrite Hloop. reflexivity. }
  split; [now apply calculate_durations_nth_next|].
  split; [exact Hd|]. split; [reflexivity|].
  cbn [start_seconds set_duration duration_seconds bnew].
  split; [exact Hlast|].
  rewrite Hlast. rewrite round2_diag; [reflexivity|].
  rewrite <- Hlast. exact (known_start_finite words _ Hfin Hknown).
Qed.

(** ** Formatter: slugs and component names *)

Lemma join_cons_nonempty (sep p : string) (rest : list string) :
  rest <> [] ->
  PyStr.join sep (p :: rest) = (p ++ sep ++ PyStr.join sep rest)%string.
Proof. destruct rest; [congruence | reflexivity]. Qed.

(** The round trip of [sep.join] and [split(sep)]. *)
Lemma join_split_on (sep : ascii) (s : string) :
  forall cur,
    PyStr.join (String sep EmptyString) (PyStr.split_on sep cur s) = (cur ++ s)%string.
Proof.
  induction s as [|c s IH]; intros cur.
  - simpl. now rewrite sappend_nil_r.
  - cbn [PyStr.split_on]. destruct (Ascii.eqb c sep) eqn:E.
    + apply Ascii.eqb_eq in E. subst c.
      rewrite join_cons_nonempty by apply split_on_nonempty.
      rewrite IH. reflexivity.
    + rewrite IH, sappend_assoc. reflexivity.
Qed.

Lemma split_on_dash_free (s : string) :
  forall cur, dash_free cur -> Forall dash_free (PyStr.split_on "-" cur s).
Proof.
  induction s as [|c s IH]; intros cur Hcur.
  - constructor; [exact Hcur | constructor].
  - cbn [PyStr.split_on]. destruct (Ascii.eqb c "-") eqn:E.
    + constructor; [exact Hcur | now apply IH].
    + apply IH. unfold dash_free in *. rewrite sforall_app, Hcur.
      cbn [PyStr.sforall]. now rewrite E.
Qed.

(** X13. The slug shown in a TypeScript entry.  [slug_parts] always returns
    a scene number and name parts that hold no dash, and the two give the
    slug back: either the first dash-separated part of the slug is all
    digits, it is the scene number, and the name parts are the parts after
    it (none when the slug has no dash); or the first part is not all
    digits, all the parts of the slug are the name parts, and the scene
    number is the boundary's own number, zero-padded to two digits. *)
Theorem slug_parts_round_trip (b : Boundary) :
  exists num name_parts,
    slug_parts b = Returned (num, name_parts) /\
    Forall dash_free name_parts /\
    ((PyStr.isdigit num = true /\
      (name_parts = [] /\ slug b = num \/
       name_parts <> [] /\ slug b = (num ++ "-" ++ PyStr.join "-" name_parts)%string))
     \/
     (num = PyStr.zfill 2 (PyStr.str_nat (number b)) /\
      PyStr.join "-" name_parts = slug b /\
      exists p0 rest, name_parts = p0 :: rest /\ PyStr.isdigit p0 = false)).
Proof.
  unfold slug_parts.
  pose proof (join_split_on "-" (slug b) EmptyString) as Hjoin. cbn [append] in Hjoin.
  pose proof (split_on_dash_free (slug b) EmptyString eq_refl) as Hfree.
  destruct (PyStr.split_on "-" EmptyString (slug b)) as [|p0 rest] eqn:E;
    [now apply split_on_nonempty in E|].
  destruct (PyStr.isdigit p0) eqn:Ed.
  - exists p0, rest. split; [reflexivity|].
    split; [exact (Forall_inv_tail Hfree)|].
    left. split; [exact Ed|].
    destruct rest as [|r rest]; [left; now split|].
    right. split; [discriminate|]. now rewrite <- Hjoin.
  - eexists. exists (p0 :: rest). split; [reflexivity|].
    split; [exact Hfree|].
    right. split; [reflexivity|]. split; [exact Hjoin|]. now exists p0, rest.
Qed.

(** A slug with a numbered prefix is split, one without is kept whole. *)
Example slug_parts_examples :
  slug_parts (mkBoundary 2 "02-kitchen-opening" 5 "Outside the rain fell" (Some 1.3%float)) =
    Returned ("02", ["kitchen"; "opening"])%string /\
  slug_parts (mkBoundary 7 "kitchen-2" 5 "Outside" None) =
    Returned ("07", ["kitchen"; "2"])%string /\
  slug_parts (mkBoundary 7 "12" 5 "Outside" None) = Returned ("12"%string, []) /\
  slug_parts (mkBoundary 7 "-a" 5 "Outside" None) =
    Returned ("07"%string, [EmptyString; "a"%string]).
Proof. repeat split; reflexivity. Qed.

Lemma alnum_cases (c : ascii) :
  is_alnum c = true ->
  is_alnum (PyStr.lower_char c) = true /\ is_alnum (PyStr.upper_char c) = true /\
  (identifier_start c || PyStr.is_digit c) = true.
Proof.
  destruct c as [[] [] [] [] [] [] [] []]; intros H;
    try discriminate H; repeat split; reflexivity.
Qed.

Lemma digit_is_alnum (c : ascii) : PyStr.is_digit c = true -> is_alnum c = true.
Proof. intros H. unfold is_alnum. rewrite H. apply orb_true_r. Qed.

Lemma sforall_impl (p q : ascii -> bool) (s : string) :
  (forall c, p c = true -> q c = true) ->
  PyStr.sforall p s = true -> PyStr.sforall q s = true.
Proof.
  intros Hpq. induction s as [|c s IH]; simpl; [reflexivity|].
  intros H. apply andb_true_iff in H. destruct H as [Hc Hs].
  now rewrite (Hpq c Hc), IH.
Qed.

Lemma title_from_alnum (s : string) :
  forall prev,
    PyStr.sforall is_alnum s = true ->
    PyStr.sforall is_alnum (PyStr.title_from prev s) = true.
Proof.
  induction s as [|c s IH]; intros prev H; [reflexivity|].
  simpl in H. apply andb_true_iff in H. destruct H as [Hc Hs].
  cbn [PyStr.title_from PyStr.sforall].
  destruct (alnum_cases c Hc) as (Hl & Hu & _).
  rewrite IH by exact Hs.
  destruct prev; [rewrite Hl | rewrite Hu]; reflexivity.
Qed.

Lemma join_titles_alnum (parts : list string) :
  Forall (fun p => PyStr.sforall is_alnum p = true) parts ->
  PyStr.sforall is_alnum (PyStr.join EmptyString (map PyStr.title parts)) = true.
Proof.
  induction 1 as [|p rest Hp Hrest IH]; [reflexivity|].
  cbn [map]. destruct rest as [|q rest].
  - cbn [map PyStr.join]. now apply title_from_alnum.
  - rewrite join_cons_nonempty by discriminate.
    cbn [append]. rewrite sforall_app, IH.
    unfold PyStr.title. now rewrite title_from_alnum.
Qed.

Lemma split_on_dash_alnum (s : string) :
  forall cur,
    PyStr.sforall is_alnum cur = true ->
    PyStr.sforall (fun c => is_alnum c || Ascii.eqb c "-") s = true ->
    Forall (fun p => PyStr.sforall is_alnum p = true) (PyStr.split_on "-" cur s).
Proof.
  induction s as [|c s IH]; intros cur Hcur Hs.
  - constructor; [exact Hcur | constructor].
  - simpl in Hs. apply andb_true_iff in Hs. destruct Hs as [Hc Hs].
    cbn [PyStr.split_on]. destruct (Ascii.eqb c "-") eqn:E.
    + constructor; [exact Hcur | now apply IH].
    + apply IH; [|exact Hs]. rewrite orb_false_r in Hc.
      rewrite sforall_app, Hcur. simpl. now rewrite Hc.
Qed.

Lemma digit_char_is_digit (d : nat) :
  (d < 10)%nat -> PyStr.is_digit (PyStr.digit_char d) = true.
Proof.
  intros H. do 10 (destruct d as [|d]; [reflexivity|]). lia.
Qed.

Lemma str_nat_fuel_digits (fuel : nat) :
  forall n acc,
    PyStr.sforall PyStr.is_digit acc = true ->
    PyStr.sforall PyStr.is_digit (PyStr.str_nat_fuel fuel n acc) = true.
Proof.
  induction fuel as [|fuel IH]; intros n acc Hacc; [exact Hacc|].
  cbn [PyStr.str_nat_fuel].
  assert (Hacc' : PyStr.sforall PyStr.is_digit
                    (String (PyStr.digit_char (n mod 10)) acc) = true).
  { cbn [PyStr.sforall]. rewrite Hacc, digit_char_is_digit; [reflexivity|].
    apply Nat.mod_upper_bound. discriminate. }
  destruct (n <? 10)%nat; [exact Hacc' | now apply IH].
Qed.

Lemma zfill_str_nat_digits (width n : nat) :
  PyStr.sforall PyStr.is_digit (PyStr.zfill width (PyStr.str_nat n)) = true.
Proof.
  unfold PyStr.zfill, PyStr.str_nat. rewrite sforall_app.
  rewrite str_nat_fuel_digits by reflexivity. rewrite andb_true_r.
  induction (width - _)%nat as [|k IH]; [reflexivity | exact IH].
Qed.

Lemma isdigit_digits (s : string) :
  PyStr.isdigit s = true -> PyStr.sforall PyStr.is_digit s = true.
Proof. destruct s; [discriminate | auto]. Qed.

(** X14. For a slug made of letters, digits and dashes only, the component
    name that the TypeScript formatter derives is an identifier. *)
Theorem plain_slug_gives_identifier (b : Boundary) (num : string)
    (name_parts : list string) :
  PyStr.sforall (fun c => is_alnum c || Ascii.eqb c "-") (slug b) = true ->
  slug_parts b = Returned (num, name_parts) ->
  is_identifier (component_name num name_parts) = true.
Proof.
  intros Hslug Hparts.
  pose proof (split_on_dash_alnum (slug b) EmptyString eq_refl Hslug) as Hall.
  unfold slug_parts in Hparts.
  destruct (PyStr.split_on "-" EmptyString (slug b)) as [|p0 rest]; [discriminate|].
  assert (Hnum : PyStr.sforall is_alnum num = true /\
                 Forall (fun p => PyStr.sforall is_alnum p = true) name_parts).
  { destruct (PyStr.isdigit p0) eqn:Ed; injection Hparts as <- <-.
    - inversion Hall; subst. now split.
    - split; [|exact Hall].
      apply sforall_impl with (p := PyStr.is_digit); [apply digit_is_alnum|].
      apply zfill_str_nat_digits. }
  destruct Hnum as [Hnum Hname].
  unfold component_name. cbn [append is_identifier].
  change (identifier_start "S") with true. cbn [andb].
  apply sforall_impl with (p := is_alnum); [intros c Hc; apply (alnum_cases c Hc)|].
  cbn [PyStr.sforall]. change (is_alnum "c") with true. change (is_alnum "e") with true.
  change (is_alnum "n") with true. cbn [andb].
  rewrite sforall_app, Hnum. now rewrite join_titles_alnum.
Qed.

(** ** Formatter and command line: whole runs *)

Section WholeRuns.

Variable str_number : float -> string.
Variable fmt_2f : float -> string.
Variable format_json : list Boundary -> string.
Variable format_table : list Boundary -> float -> string.

Lemma typescript_entries_length (bs : list Boundary) (ls : list string) :
  typescript_entries str_number fmt_2f bs = Returned ls ->
  List.length ls = (6 * List.length bs)%nat.
Proof.
  revert ls. induction bs as [|b rest IH]; intros ls H.
  - injection H as <-. reflexivity.
  - cbn [typescript_entries] in H.
    destruct (typescript_entry str_number fmt_2f b) as [l1|e] eqn:E1; [|discriminate H].
    destruct (typescript_entries str_number fmt_2f rest) as [l2|e] eqn:E2; [|discriminate H].
    injection H as <-. rewrite length_app, (IH l2 eq_refl).
    unfold typescript_entry in E1.
    destruct (slug_parts b) as [[num name_parts]|e]; [|discriminate E1].
    destruct (duration_seconds b); [|discriminate E1].
    injection E1 as <-. simpl. lia.
Qed.

(** X15. What [extract_boundaries] returns can always be rendered as
    TypeScript: for a non-empty transcript and [n >= 1] scenes
    [format_typescript] returns, and its rendering has [6 n + 5] lines, the
    four header lines, six lines per scene and the closing line. *)
Theorem extracted_boundaries_render_as_typescript (words : list TranscriptWord)
    (phrases : list (string * string)) (log : list event) :
  words <> [] -> phrases <> [] ->
  exists log' bs lines,
    extract_boundaries words phrases log = (log', Returned bs) /\
    format_typescript_lines str_number fmt_2f bs = Returned lines /\
    format_typescript str_number fmt_2f bs = Returned (PyStr.join newline lines) /\
    List.length lines = (6 * List.length phrases + 5)%nat.
Proof.
  intros Hw Hp.
  destruct (extract_boundaries_returns words phrases log Hw Hp)
    as (nl & raw & Hrun & Hs & _ & _).
  destruct (typescript_entries_return str_number fmt_2f _
              (calculate_durations_all_set (total_duration words) raw))
    as (ls & Hls & _).
  exists (log ++ nl), (calculate_durations (total_duration words) raw).
  eexists. split; [exact Hrun|].
  unfold format_typescript, format_typescript_lines. rewrite Hls.
  split; [reflexivity|]. split; [reflexivity|].
  rewrite !length_app, (typescript_entries_length _ _ Hls), calculate_durations_length.
  rewrite <- (length_map slug raw), Hs, length_map. simpl. lia.
Qed.






End WholeRuns.

(** ** The table *)

Lemma slength_app (a b : string) :
  String.length (a ++ b)%string = (String.length a + String.length b)%nat.
Proof. induction a as [|c a IH]; simpl; [reflexivity | now rewrite IH]. Qed.

Lemma repeat_char_length (c : ascii) (n : nat) :
  String.length (PyStr.repeat_char c n) = n.
Proof. induction n as [|n IH]; simpl; [reflexivity | now rewrite IH]. Qed.

Lemma ljust_length (width : nat) (s : string) :
  String.length (Table.ljust width s) = Nat.max width (String.length s).
Proof. unfold Table.ljust. rewrite slength_app, repeat_char_length. lia. Qed.

Lemma rjust_length (width : nat) (s : string) :
  String.length (Table.rjust width s) = Nat.max width (String.length s).
Proof. unfold Table.rjust. rewrite slength_app, repeat_char_length. lia. Qed.

Lemma table_rows_nth (fmt_2f : float -> string) (bs : list Boundary) :
  forall rows i b,
    Table.table_rows fmt_2f bs = Returned rows ->
    nth_error bs i = Some b ->
    exists row, Table.table_row fmt_2f b = Returned row /\ nth_error rows i = Some row.
Proof.
  induction bs as [|b0 rest IH]; intros rows i b Hrows Hb.
  - destruct i; discriminate Hb.
  - cbn [Table.table_rows] in Hrows.
    destruct (Table.table_row fmt_2f b0) as [row0|e] eqn:E0; [|discriminate Hrows].
    destruct (Table.table_rows fmt_2f rest) as [rows'|e] eqn:E1; [|discriminate Hrows].
    injection Hrows as <-. destruct i as [|i].
    + simpl in Hb. injection Hb as <-. exists row0. now split.
    + simpl in Hb. simpl. now apply (IH rows' i b).
Qed.

Lemma table_rows_length (fmt_2f : float -> string) (bs : list Boundary) :
  forall rows, Table.table_rows fmt_2f bs = Returned rows ->
               List.length rows = List.length bs.
Proof.
  induction bs as [|b0 rest IH]; intros rows Hrows.
  - injection Hrows as <-. reflexivity.
  - cbn [Table.table_rows] in Hrows.
    destruct (Table.table_row fmt_2f b0) as [row0|e]; [|discriminate Hrows].
    destruct (Table.table_rows fmt_2f rest) as [rows'|e] eqn:E1; [|discriminate Hrows].
    injection Hrows as <-. simpl. now rewrite (IH rows' eq_refl).
Qed.

(** X17. Layout of the table: it has six lines besides one row per
    boundary; the row of boundary [i] is line [4 + i], and its width is the
    sum of the column widths 4, 30, 7 and 9, each stretched to its field when
    the field is longer, plus 5 for the separators.  A row whose fields fit
    is 55 characters wide, as is the header line. *)
Theorem table_layout (fmt_2f : float -> string) (bs : list Boundary) (total : float)
    (lines : list string) :
  Table.format_table_lines fmt_2f bs total = Returned lines ->
  List.length lines = (List.length bs + 6)%nat /\
  nth_error lines 2 = Some Table.header_line /\
  String.length Table.header_line = 55%nat /\
  forall i b,
    nth_error bs i = Some b ->
    exists d row,
      duration_seconds b = Some d /\
      nth_error lines (4 + i) = Some row /\
      String.length row =
        (Nat.max 4 (String.length (PyStr.str_nat (number b)))
         + Nat.max 30 (String.length (slug b))
         + Nat.max 7 (String.length (fmt_2f (start_seconds b)))
         + Nat.max 9 (String.length (fmt_2f d)) + 5)%nat.
Proof.
  unfold Table.format_table_lines.
  destruct (Table.table_rows fmt_2f bs) as [rows|e] eqn:Hrows; [|discriminate].
  intros H. injection H as <-.
  split.
  { cbn [app List.length]. rewrite length_app, (table_rows_length _ _ _ Hrows).
    simpl. lia. }
  split; [reflexivity|]. split; [reflexivity|].
  intros i b Hb.
  destruct (table_rows_nth fmt_2f bs rows i b Hrows Hb) as (row & Hrow & Hnth).
  unfold Table.table_row in Hrow.
  destruct (duration_seconds b) as [d|]; [|discriminate Hrow].
  injection Hrow as <-.
  exists d. eexists. split; [reflexivity|]. split.
  { cbn [app Nat.add nth_error]. rewrite nth_error_app1; [exact Hnth|].
    apply nth_error_Some. congruence. }
  repeat first [rewrite slength_app | progress cbn [String.length]].
  rewrite !ljust_length, !rjust_length. lia.
Qed.

(** ** The log of a run *)

Lemma subsequence_nil {A : Type} (l : list A) : subsequence [] l.
Proof. induction l; now constructor. Qed.


Lemma scene_loop_log (words : list TranscriptWord)
    (phrases : list (string * string)) :
  forall i st log log' o,
    scene_loop words i phrases st log = (log', o) ->
    exists missed,
      subsequence missed phrases /\
      log' = log ++ map warning_event missed.
Proof.
  induction phrases as [|[sl phrase] rest IH]; intros i st log log' o Hrun.
  - injection Hrun as <- _. exists []. rewrite app_nil_r. split; [constructor | reflexivity].
  - rewrite scene_loop_cons, scene_step_eq in Hrun.
    destruct (find_phrase_in_transcript phrase words (search_from st)) as [[t|]|e].
    + apply IH in Hrun. destruct Hrun as (missed & Hsub & ->).
      exists missed. split; [now constructor | reflexivity].
    + apply IH in Hrun. destruct Hrun as (missed & Hsub & ->).
      exists ((sl, phrase) :: missed).
      split; [now constructor|]. now rewrite <- app_assoc.
    + injection Hrun as <- _. exists []. rewrite app_nil_r.
      split; [|reflexivity]. constructor. apply subsequence_nil.
Qed.

(** X18. On a non-empty transcript and a non-empty scene list
    [extract_boundaries] writes nothing but warnings, at most one per scene
    and in scene order: what it adds to the log is, for some of the scenes
    taken in the order of the list, the line
    [Warning: Could not find scene '<slug>' starting with '<phrase>'] on
    stderr. *)
Theorem extract_boundaries_writes_only_warnings (words : list TranscriptWord)
    (phrases : list (string * string)) (log log' : list event)
    (o : outcome (list Boundary)) :
  words <> [] -> phrases <> [] ->
  extract_boundaries words phrases log = (log', o) ->
  exists missed,
    subsequence missed phrases /\
    log' = log ++
           map (fun scene =>
                  Stderr ("Warning: Could not find scene '" ++ fst scene
                          ++ "' starting with '" ++ snd scene ++ "'")) missed.
Proof.
  intros Hw Hp Hrun. rewrite extract_boundaries_eq in Hrun by assumption.
  destruct (scene_loop words 0 phrases initial_state log) as [l [st|e]] eqn:Hloop;
    injection Hrun as <- _; eapply scene_loop_log; exact Hloop.
Qed.

(** ** The further properties at work on the scenarios *)

Import Scenario2.

Local Open Scope list_scope.

Lemma starts_ordered_from_lower (words : list TranscriptWord) :
  forall t, starts_ordered_from t words = true ->
            forall j w, nth_error words j = Some w -> (t <=? start w)%float = true.
Proof.
  induction words as [|w0 rest IH]; intros t H j w Hw.
  - destruct j; discriminate Hw.
  - simpl in H. apply andb_true_iff in H. destruct H as [H0 Hrest].
    destruct j as [|j].
    + simpl in Hw. injection Hw as <-. exact H0.
    + simpl in Hw. exact (leb_trans _ _ _ H0 (IH (start w0) Hrest j w Hw)).
Qed.

Lemma starts_ordered_sound (words : list TranscriptWord) :
  forall t, starts_ordered_from t words = true -> time_ordered words.
Proof.
  induction words as [|w0 rest IH]; intros t H i j wi wj Hij Hi Hj.
  - destruct i; discriminate Hi.
  - simpl in H. apply andb_true_iff in H. destruct H as [H0 Hrest].
    destruct i as [|i].
    + simpl in Hi. injection Hi as <-. destruct j as [|j].
      * simpl in Hj. injection Hj as <-.
        (* [t <= start w0] rules out NaN, so [start w0 <= start w0] *)
        rewrite FloatAxioms.leb_spec in *. unfold SFleb, SFcompare in *.
        destruct (Prim2SF (start w0)) as [s|s| |s m e];
          try destruct s; try reflexivity.
        -- destruct (Prim2SF t); discriminate H0.
        -- now rewrite Z.compare_refl, Pos.compare_cont_refl.
        -- now rewrite Z.compare_refl, Pos.compare_cont_refl.
      * simpl in Hj. exact (starts_ordered_from_lower rest (start w0) Hrest j wj Hj).
    + destruct j as [|j]; [lia|]. simpl in Hi, Hj.
      apply (IH (start w0) Hrest i j wi wj); [lia | exact Hi | exact Hj].
Qed.

Lemma kitchen_words_ordered : time_ordered Scenario.kitchen_words.
Proof. apply (starts_ordered_sound Scenario.kitchen_words 0). reflexivity. Qed.

Lemma drift_words_ordered : time_ordered Scenario.drift_words.
Proof. apply (starts_ordered_sound Scenario.drift_words 0). reflexivity. Qed.

Lemma drift_words_seconds : second_counts Scenario.drift_words.
Proof.
  intros w Hin. simpl in Hin.
  repeat (destruct Hin as [<-|Hin]; [reflexivity|]). contradiction.
Qed.

Lemma kitchen_words_finite : finite_starts Scenario.kitchen_words.
Proof.
  intros w Hin. simpl in Hin.
  repeat (destruct Hin as [<-|Hin]; [reflexivity|]). contradiction.
Qed.


Lemma blank_phrase_found_at_cursor_witness :
  find_phrase_in_transcript "  " Scenario.kitchen_words 4 = Returned (Some 5%float).
Proof.
  apply (blank_phrase_found_at_cursor "  " Scenario.kitchen_words 4
           (mkWord "Outside" 5 5.4)); reflexivity.
Defined.

Lemma not_found_from_later_cursor_witness :
  find_phrase_in_transcript "Suddenly a thunderclap" Scenario.kitchen_words 3 = Returned None.
Proof.
  apply (not_found_from_later_cursor "Suddenly a thunderclap" Scenario.kitchen_words 0 3).
  - vm_compute. reflexivity.
  - lia.
Defined.

Lemma too_few_words_not_found_witness :
  find_phrase_in_transcript "Outside the rain fell" Scenario.kitchen_words 5 = Returned None.
Proof.
  apply (too_few_words_not_found "Outside the rain fell" Scenario.kitchen_words 5).
  simpl. lia.
Defined.

Lemma extract_boundaries_one_boundary_per_scene_witness :
  exists nl bs,
    extract_boundaries Scenario.kitchen_words
      [Scenario.kitchen_scene; Scenario.rain_scene] [] = ([] ++ nl, Returned bs) /\
    List.length bs = 2%nat /\
    forall i scene_slug phrase,
      nth_error [Scenario.kitchen_scene; Scenario.rain_scene] i = Some (scene_slug, phrase) ->
      exists b,
        nth_error bs i = Some b /\
        number b = S i /\ slug b = scene_slug /\ opening_phrase b = phrase /\
        duration_seconds b <> None.
Proof.
  apply (extract_boundaries_one_boundary_per_scene Scenario.kitchen_words
           [Scenario.kitchen_scene; Scenario.rain_scene] []); discriminate.
Defined.

Lemma boundary_starts_are_word_starts_witness :
  Forall (fun b => start_seconds b = 0%float \/
                   exists w, In w Scenario.kitchen_words /\ start_seconds b = start w)
    [ mkBoundary 1 "01-kitchen" 0 "The kitchen was quiet" (Some 0%float);
      mkBoundary 2 "02-thunder" 0 "Suddenly a thunderclap" (Some 5%float);
      mkBoundary 3 "03-rain" 5 "Outside the rain fell" (Some 1.3%float) ].
Proof.
  exact (boundary_starts_are_word_starts Scenario.kitchen_words
           [Scenario.kitchen_scene; Scenario.thunder_scene; Scenario.rain_scene]
           [] _ _ fallback_scenario).
Defined.

Lemma cursor_never_moves_back_witness :
  scene_loop Scenario.drift_words 1 [("02-b", "two"); ("03-c", "three")]
    (mkState [mkBoundary 1 "01-a" 0 "one" None] 0 1) [] =
    ([], Returned (mkState [ mkBoundary 1 "01-a" 0 "one" None;
                             mkBoundary 2 "02-b" 1.00390625 "two" None;
                             mkBoundary 3 "03-c" 2.0078125 "three" None ]
                     2.0078125 3)) /\
  (1 <= 3)%nat.
Proof.
  assert (Hrun : scene_loop Scenario.drift_words 1 [("02-b", "two"); ("03-c", "three")]
                   (mkState [mkBoundary 1 "01-a" 0 "one" None] 0 1) [] =
                 ([], Returned (mkState [ mkBoundary 1 "01-a" 0 "one" None;
                                          mkBoundary 2 "02-b" 1.00390625 "two" None;
                                          mkBoundary 3 "03-c" 2.0078125 "three" None ]
                                  2.0078125 3)))
    by (vm_compute; reflexivity).
  split; [exact Hrun|].
  exact (cursor_never_moves_back Scenario.drift_words _
           drift_words_ordered drift_words_seconds _ _ _ _ _ Hrun).
Defined.

Lemma skip_ahead_separates_matches_witness : PyFloat.ge 5 (0 + 1) = true.
Proof.
  apply (skip_ahead_separates_matches Scenario.kitchen_words 0 "01-kitchen"
           "The kitchen was quiet" "Outside the rain fell"
           initial_state after_kitchen [] [] 4 0 5 (mkWord "Outside" 5 5.4)
           kitchen_words_ordered).
  - vm_compute. reflexivity.
  - vm_compute. reflexivity.
  - simpl. tauto.
  - reflexivity.
  - simpl. lia.
  - vm_compute. reflexivity.
Defined.

Lemma missed_scene_zeroes_previous_duration_witness :
  exists log bs b b',
    extract_boundaries Scenario.kitchen_words
      [Scenario.kitchen_scene; Scenario.thunder_scene; Scenario.rain_scene] [] =
      (log, Returned bs) /\
    nth_error bs 0 = Some b /\ nth_error bs 1 = Some b' /\
    slug b' = "02-thunder" /\
    start_seconds b' = start_seconds b /\
    duration_seconds b = Some 0%float.
Proof.
  apply (missed_scene_zeroes_previous_duration Scenario.kitchen_words
           [Scenario.kitchen_scene] [Scenario.rain_scene]
           "02-thunder" "Suddenly a thunderclap" [] after_kitchen 0).
  - discriminate.
  - exact kitchen_words_finite.
  - vm_compute. reflexivity.
  - reflexivity.
  - vm_compute. reflexivity.
Defined.

Lemma plain_slug_gives_identifier_witness :
  is_identifier (component_name "02" ["kitchen"; "opening"]) = true.
Proof.
  apply (plain_slug_gives_identifier numbered_boundary "02" ["kitchen"; "opening"]);
    reflexivity.
Defined.

Lemma extracted_boundaries_render_as_typescript_witness :
  exists log' bs lines,
    extract_boundaries Scenario.kitchen_words
      [Scenario.kitchen_scene; Scenario.rain_scene] [] = (log', Returned bs) /\
    format_typescript_lines PyFloat.fmt_2f PyFloat.fmt_2f bs =
      Returned lines /\
    format_typescript PyFloat.fmt_2f PyFloat.fmt_2f bs =
      Returned (PyStr.join newline lines) /\
    List.length lines = 17%nat.
Proof.
  apply (extracted_boundaries_render_as_typescript
           PyFloat.fmt_2f PyFloat.fmt_2f Scenario.kitchen_words
           [Scenario.kitchen_scene; Scenario.rain_scene] []); discriminate.
Defined.


Lemma table_layout_witness :
  exists lines,
    Table.format_table_lines PyFloat.fmt_2f
      [Scenario.shouting_boundary; numbered_boundary] 6.3 = Returned lines /\
    List.length lines = 8%nat /\
    nth_error lines 2 = Some Table.header_line.
Proof.
  destruct (Table.format_table_lines PyFloat.fmt_2f
              [Scenario.shouting_boundary; numbered_boundary] 6.3)
    as [lines|e] eqn:E.
  - exists lines. split; [reflexivity|].
    destruct (table_layout PyFloat.fmt_2f _ _ _ E) as (Hlen & Hhead & _).
    split; [exact Hlen | exact Hhead].
  - vm_compute in E. discriminate E.
Defined.

Lemma extract_boundaries_writes_only_warnings_witness :
  exists missed,
    subsequence missed
      [Scenario.kitchen_scene; Scenario.thunder_scene; Scenario.rain_scene] /\
    [Stderr "Warning: Could not find scene '02-thunder' starting with 'Suddenly a thunderclap'"]
      = [] ++
        map (fun scene =>
               Stderr ("Warning: Could not find scene '" ++ fst scene
                       ++ "' starting with '" ++ snd scene ++ "'")%string) missed.
Proof.
  apply (extract_boundaries_writes_only_warnings Scenario.kitchen_words
           [Scenario.kitchen_scene; Scenario.thunder_scene; Scenario.rain_scene]
           [] _ _ ltac:(discriminate) ltac:(discriminate) fallback_scenario).
Defined.
